(** * DataInterpreter: a shallow embedding of [tools/DataInterpreter.py]

    The class [DataInterpreter] filters a pandas table of restaurant
    listings and derives aggregates from it.  The embedding keeps the
    dynamic typing of the cells, the row labels of the table (pandas keeps
    them through [drop]), the Python exceptions each library call can
    raise, and the shared, mutable table object that
    [removeEmptyObservations] updates in place. *)

From Stdlib Require Import ZArith List String Ascii Bool Lia Permutation Sorted.
From stdpp Require Import gmap strings list fin_maps.

Local Open Scope string_scope.
Local Open Scope Z_scope.

(** ** Python exceptions and results *)

Inductive exn : Type :=
| AttributeError
| KeyError
| ValueError
| TypeError
| NameError.

Inductive result (A : Type) : Type :=
| Ok (a : A)
| Raise (e : exn).

Arguments Ok {A} a.
Arguments Raise {A} e.

#[global] Instance result_ret : MRet result := fun _ a => Ok a.
#[global] Instance result_bind : MBind result := fun _ _ f m =>
  match m with
  | Ok a => f a
  | Raise e => Raise e
  end.

#[global] Instance exn_eq_dec : EqDecision exn.
Proof. solve_decision. Defined.

(** [try: body except e: handler] for a single exception class. *)
Definition try_except {A} (body : result A) (e : exn) (handler : result A) : result A :=
  match body with
  | Ok a => Ok a
  | Raise e' => if decide (e' = e) then handler else Raise e'
  end.

(** ** Cells and tables *)

(** A cell of the table.  [NA] stands for both [None] and [NaN], the two
    values [pd.isna] answers [True] for.  [Dict] is the per-day mapping of
    [opening_hours_span]: day name to minutes, or to [None]. *)
Inductive cell : Type :=
| NA
| Num (z : Z)
| Str (s : string)
| StrList (l : list string)
| Dict (d : list (string * option Z)).

#[global] Instance cell_eq_dec : EqDecision cell.
Proof. solve_decision. Defined.

(** [pd.isna] on one cell. *)
Definition isna (c : cell) : bool :=
  match c with
  | NA => true
  | _ => false
  end.

(** [if pd.isna(x):] on a cell taken on its own.  For a list [pd.isna]
    answers element by element, and the truth value of an array of two
    or more answers is a [ValueError]; an array of one [False], or of
    nothing, is false. *)
Definition isna_test (c : cell) : result bool :=
  match c with
  | NA => Ok true
  | StrList l => if Nat.ltb 1 (List.length l) then Raise ValueError else Ok false
  | _ => Ok false
  end.

(** A [pandas.DataFrame]: the column labels and the rows, each row with
    its index label and its cells in column order. *)
Record DataFrame : Type := mkDataFrame {
  columns : list string;
  rows : list (nat * list cell)
}.

#[global] Instance DataFrame_eq_dec : EqDecision DataFrame.
Proof. solve_decision. Defined.

(** The table as the dataset compiler hands it over: rows labelled
    [0 .. n-1] (a fresh [RangeIndex]). *)
Definition label_from (k : nat) (data : list (list cell)) : list (nat * list cell) :=
  combine (seq k (List.length data)) data.

Definition raw (cols : list string) (data : list (list cell)) : DataFrame :=
  mkDataFrame cols (label_from 0 data).

(** [len(dataset)] *)
Definition len (df : DataFrame) : nat := List.length (rows df).

Definition index (df : DataFrame) : list nat := map fst (rows df).

(** Position of a column label. *)
Fixpoint col_pos (cols : list string) (c : string) : option nat :=
  match cols with
  | [] => None
  | c' :: cols' => if String.eqb c c' then Some O else S <$> col_pos cols' c
  end.

(** The cell of a row under a column present in the table. *)
Definition cell_at (cols : list string) (cells : list cell) (c : string) : cell :=
  match col_pos cols c with
  | Some p => nth p cells NA
  | None => NA
  end.

(** Lookup of a row by its index label. *)
Fixpoint row_of (rs : list (nat * list cell)) (i : nat) : option (list cell) :=
  match rs with
  | [] => None
  | (l, cells) :: rs' => if Nat.eqb l i then Some cells else row_of rs' i
  end.

(** [dataset.loc[i, cols']]: the cells of the row labelled [i] under the
    columns [cols']; [KeyError] when no row carries the label. *)
Definition loc (df : DataFrame) (i : nat) (cols' : list string) : result (list cell) :=
  match row_of (rows df) i with
  | Some cells => Ok (map (cell_at (columns df) cells) cols')
  | None => Raise KeyError
  end.

(** [dataset.<c>]: the column as a series of labelled cells;
    [AttributeError] when the table has no such column. *)
Definition getattr_column (df : DataFrame) (c : string) : result (list (nat * cell)) :=
  match col_pos (columns df) c with
  | Some p => Ok (map (fun r => (fst r, nth p (snd r) NA)) (rows df))
  | None => Raise AttributeError
  end.

(** [series[i]] on an integer-labelled series: lookup by label. *)
Fixpoint series_at (s : list (nat * cell)) (i : nat) : result cell :=
  match s with
  | [] => Raise KeyError
  | (l, c) :: s' => if Nat.eqb l i then Ok c else series_at s' i
  end.

(** [dataset.drop(i)]: the rows whose label is not [i]; [KeyError] when
    the label is absent. *)
Definition drop (df : DataFrame) (i : nat) : result DataFrame :=
  match row_of (rows df) i with
  | Some _ =>
      Ok (mkDataFrame (columns df)
            (List.filter (fun r => negb (Nat.eqb (fst r) i)) (rows df)))
  | None => Raise KeyError
  end.

(** ** The object store

    [removeEmptyObservations] drops rows with [inplace=True]: the table it
    is given, the table it returns and the caller's [dataset_raw] are one
    object.  Tables therefore live in a store and are passed by
    reference. *)

Definition ref := nat.
Abbreviation heap := (gmap ref DataFrame).

(** Computations that read and update the store and may raise.  An
    exception keeps the updates made before it. *)
Definition M (A : Type) : Type := heap -> result A * heap.

Definition ret_M {A} (a : A) : M A := fun h => (Ok a, h).

Definition bind_M {A B} (m : M A) (f : A -> M B) : M B := fun h =>
  match m h with
  | (Ok a, h') => f a h'
  | (Raise e, h') => (Raise e, h')
  end.

Notation "'let*' x ':=' m 'in' k" := (bind_M m (fun x => k))
  (at level 10, x name, m at level 100, k at level 200).

(** Run a store-free step on the table behind a reference.  A reference
    always comes from the store; the [NameError] branch is unreachable
    from a table that was allocated. *)
Definition read {A} (d : ref) (f : DataFrame -> result A) : M A := fun h =>
  match h !! d with
  | Some df => (f df, h)
  | None => (Raise NameError, h)
  end.

(** [dataset.drop(i, inplace=True)] *)
Definition drop_inplace (d : ref) (i : nat) : M unit := fun h =>
  match h !! d with
  | Some df =>
      match drop df i with
      | Ok df' => (Ok tt, <[d := df']> h)
      | Raise e => (Raise e, h)
      end
  | None => (Raise NameError, h)
  end.

(** [for i in range(n): body i] *)
Fixpoint for_each {A} (l : list A) (body : A -> M unit) : M unit :=
  match l with
  | [] => ret_M tt
  | i :: l' => let* _ := body i in for_each l' body
  end.

Definition for_range (n : nat) (body : nat -> M unit) : M unit :=
  for_each (seq 0 n) body.

(** ** removeEmptyObservations *)

Definition key_columns : list string := ["name"; "ratings"; "review_count"].

(** [[column for column in dataset.columns if column not in [...]]] *)
Definition indic_of (cols : list string) : list string :=
  List.filter (fun column => negb (existsb (String.eqb column) key_columns)) cols.

(** [sum(pd.isna(series))]: the number of [True] answers. *)
Definition sum_isna (cells : list cell) : nat :=
  List.length (List.filter isna cells).

(** [x == 0] on a cell. *)
Definition cell_is_zero (c : cell) : bool :=
  match c with
  | Num z => Z.eqb z 0
  | _ => false
  end.

(** The test of line 111 on one row, both operands of [&] evaluated, the
    left one first. *)
Definition is_empty_observation (d : ref) (indic : list string) (i : nat) : M bool :=
  let* cells := read d (fun dataset => loc dataset i indic) in
  let* rc := read d (fun dataset =>
               review_count ← getattr_column dataset "review_count";
               series_at review_count i) in
  ret_M (Nat.eqb (sum_isna cells) 12 && cell_is_zero rc).

(** The body of the loop, lines 111-114. *)
Definition filter_step (d : ref) (indic : list string) (i : nat) : M unit :=
  let* empty := is_empty_observation d indic i in
  if empty then drop_inplace d i else ret_M tt.

Definition removeEmptyObservations (dataset : ref) : M ref :=
  let* indic := read dataset (fun df => Ok (indic_of (columns df))) in
  let* n := read dataset (fun df => Ok (len df)) in
  let* _ := for_range n (filter_step dataset indic) in
  ret_M dataset.

(** ** getDistrictCounts *)

(** Labels of a value-count series: the hashable cell values. *)
Abbreviation key := (string + Z)%type.

(** [series.value_counts()]: occurrences per value, missing values left
    out ([dropna=True]); a list or dict cell is unhashable.  pandas orders
    the result by count; the order is not part of the mapping. *)
Fixpoint value_counts (cells : list cell) : result (gmap key nat) :=
  match cells with
  | [] => Ok ∅
  | c :: cells' =>
      counts ← value_counts cells';
      match c with
      | NA => Ok counts
      | Str s => Ok (<[inl s := S (default O (counts !! inl s))]> counts)
      | Num z => Ok (<[inr z := S (default O (counts !! inr z))]> counts)
      | StrList _ | Dict _ => Raise TypeError
      end
  end.

(** [series.drop(label)] with the default [errors='raise']. *)
Definition series_drop (label : key) (s : gmap key nat) : result (gmap key nat) :=
  match s !! label with
  | Some _ => Ok (delete label s)
  | None => Raise KeyError
  end.

Definition getDistrictCounts (dataset : DataFrame) : result (gmap key nat) :=
  district ← getattr_column dataset "district";
  district_counts ← value_counts (map snd district);
  series_drop (inl "Not found") district_counts.

(** ** getArrayOfSumsOfOpeningHoursSpans *)

(** An element of the Python list built by the loop: [np.NaN] or an
    integer total.  Durations are whole minutes. *)
Inductive pynum : Type :=
| PyNaN
| PyInt (z : Z).

(** A [float64] element: [nan], or the float whose value is the
    integer [z]. *)
Inductive float64 : Type :=
| nan
| fl (z : Z).

(** A one-dimensional [numpy.ndarray] of integers or of floats. *)
Inductive ndarray : Type :=
| IntArray (a : list Z)
| FloatArray (a : list float64).

(** [filter(None, values)]: the truthy values, neither [None] nor [0]. *)
Definition filter_None (values : list (option Z)) : list Z :=
  flat_map (fun v => match v with
                     | Some z => if Z.eqb z 0 then [] else [z]
                     | None => []
                     end) values.

(** The built-in [sum] *)
Definition py_sum (l : list Z) : Z := fold_left Z.add l 0.

(** One pass of the loop of lines 175-180; only a mapping has
    [values()]. *)
Definition span_value (c : cell) : result pynum :=
  isna_test c ≫= fun missing : bool =>
  if missing then Ok PyNaN
  else match c with
       | Dict d => Ok (PyInt (py_sum (filter_None (map snd d))))
       | _ => Raise AttributeError
       end.

Fixpoint spans_loop (cells : list cell) (acc : list pynum) : result (list pynum) :=
  match cells with
  | [] => Ok acc
  | c :: cells' =>
      value ← span_value c;
      spans_loop cells' (acc ++ [value])
  end.

Definition to_int (v : pynum) : option Z :=
  match v with
  | PyInt z => Some z
  | PyNaN => None
  end.

Definition all_int (l : list pynum) : option (list Z) := mapM to_int l.

(** The integers a 64-bit integer array holds, and the integers a
    [float64] holds exactly whatever their value. *)
Definition fits_int64 (z : Z) : bool := (- 2 ^ 63 <=? z) && (z <? 2 ^ 63).

Definition exact_float (z : Z) : bool := (- 2 ^ 53 <=? z) && (z <=? 2 ^ 53).

(** The conversion of an element to [float64], where it is exact. *)
Definition to_float (v : pynum) : option float64 :=
  match v with
  | PyInt z => if exact_float z then Some (fl z) else None
  | PyNaN => Some nan
  end.

(** [np.array(l)], which picks the element type from the list: integers
    alone, each within 64 bits, give an integer array; a [NaN] among
    integers (or no element at all) gives a float array, into which
    the integers go unchanged when a float holds them exactly.  For an
    integer out of these bounds numpy chooses by magnitude between an
    unsigned array, a float array with rounded values and an array of
    Python objects; the embedding has no answer there. *)
Definition np_array (l : list pynum) : option ndarray :=
  match l, all_int l with
  | _ :: _, Some zs => if forallb fits_int64 zs then Some (IntArray zs) else None
  | _, _ => FloatArray <$> mapM to_float l
  end.

(** [a[a==0] = np.nan]: the value is first converted to the element type
    of [a], which fails for an integer array. *)
Definition set_zero_to_nan (a : ndarray) : result ndarray :=
  match a with
  | IntArray _ => Raise ValueError
  | FloatArray xs =>
      Ok (FloatArray (map (fun x => match x with
                                    | fl z => if Z.eqb z 0 then nan else fl z
                                    | nan => nan
                                    end) xs))
  end.

Section Numpy.

(** Lines 181-182 on a list of totals that [np_array] has no answer
    for, one with an integer out of the bounds above: the outcome
    depends on the element type numpy chooses there and is left open.
    The statements about the array take the totals within [2^53]. *)
Variable np_wide : list pynum -> result ndarray.

Definition getArrayOfSumsOfOpeningHoursSpans (dataset : DataFrame) : result ndarray :=
  opening_hours_span ← getattr_column dataset "opening_hours_span";
  list_of_sums_of_opening_hours_spans ← spans_loop (map snd opening_hours_span) [];
  match np_array list_of_sums_of_opening_hours_spans with
  | Some array_of_sums_of_opening_hours_spans =>
      set_zero_to_nan array_of_sums_of_opening_hours_spans
  | None => np_wide list_of_sums_of_opening_hours_spans
  end.

End Numpy.

(** ** interpretReviewsAndRatings *)

(** The values of a numeric column.  [ratings] and [review_count] always
    have a value (source, line 109); ratings are whole points out of 100.
    A cell of another kind is outside the table format. *)
Fixpoint numeric (s : list (nat * cell)) : result (list Z) :=
  match s with
  | [] => Ok []
  | (_, Num z) :: s' => zs ← numeric s'; Ok (z :: zs)
  | _ => Raise TypeError
  end.

(** What the method sends to the console and to the plotting surface. *)
Inductive line : Type :=
| AtLeastOneReview (n : nat)
| HighestNumberOfReviews (m : Z) (n : nat)
| MeanRating (total : Z) (count : nat)
| LowestRating (m : Z) (n : nat)
| HighestRating (m : Z) (n : nat)
| Histogram (values : list Z).

(** Output so far, then the value or the exception that stopped the
    method. *)
Definition P (A : Type) : Type := (list line * result A)%type.

Definition ret_P {A} (a : A) : P A := ([], Ok a).

Definition bind_P {A B} (m : P A) (f : A -> P B) : P B :=
  match m with
  | (out, Ok a) => let '(out', r) := f a in ((out ++ out')%list, r)
  | (out, Raise e) => (out, Raise e)
  end.

Definition lift_P {A} (r : result A) : P A := ([], r).

Definition print (l : line) : P unit := ([l], Ok tt).

Notation "'do*' x ':=' m 'in' k" := (bind_P m (fun x => k))
  (at level 10, x name, m at level 100, k at level 200).

(** The built-ins [max] and [min] on a sequence. *)
Definition py_max (l : list Z) : result Z :=
  match l with
  | [] => Raise ValueError
  | x :: l' => Ok (fold_left Z.max l' x)
  end.

Definition py_min (l : list Z) : result Z :=
  match l with
  | [] => Raise ValueError
  | x :: l' => Ok (fold_left Z.min l' x)
  end.

(** [np.sum(series == v)] and [sum(series != 0)] *)
Definition count_eq (v : Z) (l : list Z) : nat :=
  List.length (List.filter (Z.eqb v) l).

Definition count_nonzero (l : list Z) : nat :=
  List.length (List.filter (fun x => negb (Z.eqb x 0)) l).

(** [series[mask]] for a mask computed from a column of the same table. *)
Fixpoint mask_select (values : list Z) (mask : list bool) : list Z :=
  match values, mask with
  | v :: values', b :: mask' =>
      if b then v :: mask_select values' mask' else mask_select values' mask'
  | _, _ => []
  end.

Definition interpretReviewsAndRatings (self_dataset : DataFrame) (plot_hist : bool) : P unit :=
  do* review_count := lift_P (s ← getattr_column self_dataset "review_count"; numeric s) in
  do* _ := print (AtLeastOneReview (count_nonzero review_count)) in
  do* most := lift_P (py_max review_count) in
  do* _ := print (HighestNumberOfReviews most (count_eq most review_count)) in
  do* ratings := lift_P (s ← getattr_column self_dataset "ratings"; numeric s) in
  let available_ratings :=
    mask_select ratings (map (fun x => negb (Z.eqb x 0)) review_count) in
  do* _ := print (MeanRating (py_sum available_ratings) (List.length available_ratings)) in
  do* lowest := lift_P (py_min available_ratings) in
  do* _ := print (LowestRating lowest (count_eq lowest ratings)) in
  do* highest := lift_P (py_max available_ratings) in
  do* _ := print (HighestRating highest (count_eq highest ratings)) in
  if plot_hist then print (Histogram available_ratings) else ret_P tt.

(** ** getEmailProvidersCounts *)

(** The fragment of regular expressions the source uses: a sequence of
    single-character atoms, each taken once or under a greedy star. *)
Inductive atom : Type :=
| Lit (c : ascii)
| Dot.

Inductive item : Type :=
| One (a : atom)
| Star (a : atom).

Definition newline : ascii := ascii_of_nat 10.

(** [.] matches any character except a newline. *)
Definition atom_matches (a : atom) (c : ascii) : bool :=
  match a with
  | Lit c' => Ascii.eqb c c'
  | Dot => negb (Ascii.eqb c newline)
  end.

(** A backtracking match anchored at the start of [s]; the answer is the
    matched text.  A star first takes one more character and falls back
    to the rest of the pattern when that fails. *)
Fixpoint match_here (r : list item) (s : string) {struct r} : option string :=
  match r with
  | [] => Some EmptyString
  | One a :: r' =>
      match s with
      | String c s' =>
          if atom_matches a c then String c <$> match_here r' s' else None
      | EmptyString => None
      end
  | Star a :: r' =>
      (fix star (s : string) : option string :=
         match s with
         | String c s' =>
             if atom_matches a c then
               match star s' with
               | Some m => Some (String c m)
               | None => match_here r' s
               end
             else match_here r' s
         | EmptyString => match_here r' s
         end) s
  end.

(** [re.search(r, s)] followed by [.group(0)] when there is a match: the
    leftmost match. *)
Fixpoint re_search (r : list item) (s : string) : option string :=
  match match_here r s with
  | Some m => Some m
  | None =>
      match s with
      | String _ s' => re_search r s'
      | EmptyString => None
      end
  end.

(** The pattern ['@.*\.'] *)
Definition email_pattern : list item :=
  [One (Lit "@"%char); Star Dot; One (Lit "."%char)].

(** [s[start:stop]] with Python's treatment of negative and oversized
    bounds. *)
Definition slice_bound (n i : Z) : Z :=
  if i <? 0 then Z.max 0 (i + n) else Z.min i n.

Definition py_slice (s : string) (start stop : Z) : string :=
  let n := Z.of_nat (String.length s) in
  let a := slice_bound n start in
  let b := slice_bound n stop in
  substring (Z.to_nat a) (Z.to_nat (b - a)) s.

(** Lines 359-360: [re.search(...).group(0)] raises [AttributeError] on
    [None]. *)
Definition extract_provider (email : string) : result string :=
  match re_search email_pattern email with
  | Some value => Ok (py_slice value 1 (Z.of_nat (String.length value) - 1))
  | None => Raise AttributeError
  end.

(** The loop of lines 354-363.  [re.search] takes a string only. *)
Fixpoint providers_loop (cells : list cell) (email_providers : list string)
  : result (list string) :=
  match cells with
  | [] => Ok email_providers
  | email :: cells' =>
      email_providers' ←
        (isna_test email ≫= fun missing : bool =>
         if missing then Ok email_providers
         else
           try_except
             (match email with
              | Str s =>
                  provider ← extract_provider s;
                  Ok (email_providers ++ [provider])%list
              | _ => Raise TypeError
              end)
             ValueError (Ok email_providers));
      providers_loop cells' email_providers'
  end.

(** A [dict] with string keys, in insertion order. *)
Abbreviation pydict := (list (string * nat)).

Fixpoint dict_get (d : pydict) (k : string) : option nat :=
  match d with
  | [] => None
  | (k', v) :: d' => if String.eqb k k' then Some v else dict_get d' k
  end.

(** [d[k] = v]: an existing key keeps its place. *)
Fixpoint dict_set (d : pydict) (k : string) (v : nat) : pydict :=
  match d with
  | [] => [(k, v)]
  | (k', v') :: d' =>
      if String.eqb k k' then (k', v) :: d' else (k', v') :: dict_set d' k v
  end.

(** [Counter(l)]: one more for each element, a new key starting at 1. *)
Definition counter_step (c : pydict) (k : string) : pydict :=
  dict_set c k (S (default O (dict_get c k))).

Definition Counter (l : list string) : pydict :=
  fold_left counter_step l [].

(** [list.count(x)] *)
Definition list_count (x : nat) (l : list nat) : nat :=
  List.length (List.filter (Nat.eqb x) l).

(** [sorted(items, key=lambda x: x[1])]: stable, ascending. *)
Fixpoint insert_by_value (x : string * nat) (l : pydict) : pydict :=
  match l with
  | [] => [x]
  | y :: l' => if Nat.leb (snd x) (snd y) then x :: y :: l' else y :: insert_by_value x l'
  end.

Definition sorted_by_value (l : pydict) : pydict :=
  fold_right insert_by_value [] l.

(** [{key: value for key, value in items}] *)
Definition dict_of_items (items : pydict) : pydict :=
  fold_left (fun d kv => dict_set d (fst kv) (snd kv)) items [].

Definition getEmailProvidersCounts (dataset : DataFrame) : result pydict :=
  email_address ← getattr_column dataset "email_address";
  email_providers ← providers_loop (map snd email_address) [];
  let email_providers_counts := Counter email_providers in
  let email_providers_counts :=
    dict_set email_providers_counts "Own domain"
      (list_count 1 (map snd email_providers_counts)) in
  let values_sorted := sorted_by_value email_providers_counts in
  let email_providers_counts_sorted := dict_of_items values_sorted in
  Ok email_providers_counts_sorted.

(** ** showRows *)

(** [l[start:stop]] on a list, an omitted bound being [None]. *)
Definition slice_list {A} (l : list A) (start stop : option Z) : list A :=
  let n := Z.of_nat (List.length l) in
  let a := match start with Some i => slice_bound n i | None => 0 end in
  let b := match stop with Some i => slice_bound n i | None => n end in
  firstn (Z.to_nat (b - a)) (skipn (Z.to_nat a) l).

Definition iloc (df : DataFrame) (start stop : option Z) : DataFrame :=
  mkDataFrame (columns df) (slice_list (rows df) start stop).

(** [DataFrame.head(n)] is [iloc[:n]]; [DataFrame.tail(n)] is [iloc[-n:]],
    and [iloc[0:0]] for [n = 0]. *)
Definition head (df : DataFrame) (n : Z) : DataFrame := iloc df None (Some n).

Definition tail (df : DataFrame) (n : Z) : DataFrame :=
  if Z.eqb n 0 then iloc df (Some 0) (Some 0) else iloc df (Some (- n)) None.

Section ShowRows.

(** The argument is any Python object; [py_int] is the built-in [int]
    applied to it, with the exception it raises when the object does not
    convert. *)
Variable PyObject : Type.
Variable py_int : PyObject -> result Z.

Definition showRows (self_dataset : DataFrame) (no_of_rows : PyObject) : result DataFrame :=
  no_of_rows ← match py_int no_of_rows with
               | Ok n => Ok n
               | Raise _ => Raise ValueError
               end;
  if 0 <=? no_of_rows
  then Ok (head self_dataset no_of_rows)
  else Ok (tail self_dataset (Z.abs no_of_rows)).

End ShowRows.

(** ** getCategoricalDataCounts *)

(** [dataset[c]]: the column as a series; [KeyError] when the table has
    no such column. *)
Definition getitem_column (df : DataFrame) (c : string) : result (list (nat * cell)) :=
  match col_pos (columns df) c with
  | Some p => Ok (map (fun r => (fst r, nth p (snd r) NA)) (rows df))
  | None => Raise KeyError
  end.

(** A [dict] with keys of any type that has equality, in insertion
    order. *)
Section Assoc.

Context {K V : Type} `{EqDecision K}.

Fixpoint assoc_get (d : list (K * V)) (k : K) : option V :=
  match d with
  | [] => None
  | (k', v) :: d' => if decide (k = k') then Some v else assoc_get d' k
  end.

(** [d[k] = v] *)
Fixpoint assoc_set (d : list (K * V)) (k : K) (v : V) : list (K * V) :=
  match d with
  | [] => [(k, v)]
  | (k', v') :: d' =>
      if decide (k = k') then (k', v) :: d' else (k', v') :: assoc_set d' k v
  end.

End Assoc.

Definition category_columns : list string :=
  ["payment_methods"; "products"; "services"; "marks"].

(** What one cell adds to [demo_list] (lines 248-253): the elements of a
    list, nothing for a missing value, the value itself otherwise. *)
Definition demo_items (value : cell) : list cell :=
  match value with
  | StrList l => map Str l
  | NA => []
  | _ => [value]
  end.

Fixpoint collect_loop (cells : list cell) (demo_list : list cell) : list cell :=
  match cells with
  | [] => demo_list
  | value :: cells' => collect_loop cells' (demo_list ++ demo_items value)
  end.

Section Lower.

(** [str.lower] *)
Variable py_lower : string -> string.

(** [[value.lower() for value in demo_list]]: only a string has
    [lower]. *)
Fixpoint lower_all (demo_list : list cell) : result (list string) :=
  match demo_list with
  | [] => Ok []
  | Str s :: demo_list' =>
      rest ← lower_all demo_list';
      Ok (py_lower s :: rest)
  | _ :: _ => Raise AttributeError
  end.

(** The loop of lines 245-255. *)
Fixpoint categorical_data_loop (dataset : DataFrame) (cols : list string)
    (categorical_data_dict : list (string * list string))
  : result (list (string * list string)) :=
  match cols with
  | [] => Ok categorical_data_dict
  | column :: cols' =>
      series ← getitem_column dataset column;
      let demo_list := collect_loop (map snd series) [] in
      demo_list_lowercase ← lower_all demo_list;
      categorical_data_loop dataset cols'
        (assoc_set categorical_data_dict column demo_list_lowercase)
  end.

Definition getCategoricalDataCounts (dataset : DataFrame)
  : result (list (string * pydict)) :=
  categorical_data_dict ← categorical_data_loop dataset category_columns [];
  let categorical_data_counts_dict :=
    fold_left (fun d kv => assoc_set d (fst kv) (Counter (snd kv)))
              categorical_data_dict [] in
  Ok (fold_left
        (fun sorted kv =>
           let values_sorted := sorted_by_value (snd kv) in
           assoc_set sorted (fst kv) (dict_of_items values_sorted))
        categorical_data_counts_dict []).

End Lower.

(** ** getNumberOfPhonesCounts *)

(** The built-in [len] on a cell; a number and a missing value have
    none. *)
Definition py_len (c : cell) : result nat :=
  match c with
  | StrList l => Ok (List.length l)
  | Dict d => Ok (List.length d)
  | Str s => Ok (String.length s)
  | NA | Num _ => Raise TypeError
  end.

Fixpoint phones_loop (cells : list cell) (number_of_phones : list nat)
  : result (list nat) :=
  match cells with
  | [] => Ok number_of_phones
  | phones_dict :: cells' =>
      n ← py_len phones_dict;
      phones_loop cells' (number_of_phones ++ [n])
  end.

(** [Counter] on a list of integers. *)
Definition Counter_nat (l : list nat) : list (nat * nat) :=
  fold_left (fun c k => assoc_set c k (S (default O (assoc_get c k)))) l [].

Definition getNumberOfPhonesCounts (dataset : DataFrame) : result (list (nat * nat)) :=
  phones ← getitem_column dataset "phones";
  number_of_phones ← phones_loop (map snd phones) [];
  Ok (Counter_nat number_of_phones).


(** ** Output of the plotting and printing methods *)

(** Events sent out so far, then the value or the exception that
    stopped the method. *)
Definition W (E A : Type) : Type := (list E * result A)%type.

Definition ret_W {E A} (a : A) : W E A := ([], Ok a).

Definition bind_W {E A B} (m : W E A) (f : A -> W E B) : W E B :=
  match m with
  | (out, Ok a) => let '(out', r) := f a in ((out ++ out')%list, r)
  | (out, Raise e) => (out, Raise e)
  end.

Definition lift_W {E A} (r : result A) : W E A := ([], r).

Definition emit {E} (e : E) : W E unit := ([e], Ok tt).

Notation "'run*' x ':=' m 'in' k" := (bind_W m (fun x => k))
  (at level 10, x name, m at level 100, k at level 200).

(** A Python [float]: not a number, an infinity, or the dyadic
    [m * 2^e]. *)
Inductive pyfloat : Type :=
| FNaN
| FInf (negative : bool)
| FFinite (m e : Z).

(** [v >= t] for an integer count and a float; Python compares the two
    exactly. *)
Definition int_ge_float (v : nat) (t : pyfloat) : bool :=
  match t with
  | FNaN => false
  | FInf negative => negative
  | FFinite m e =>
      if 0 <=? e then m * 2 ^ e <=? Z.of_nat v
      else m <=? Z.of_nat v * 2 ^ (- e)
  end.

(** The calls on the plotting surface, and the line printed for a
    category that is not one of the four.  A call is recorded with its
    arguments and taken to return; what matplotlib draws for it is not
    part of the model. *)
Inductive drawing : Type :=
| PltFigure
| PltBarh (labels : list string) (values : list nat) (color : string)
| PltPie (values : list nat) (labels : list string)
| PltTitle (s : string)
| PltLegend
| NotValidInput (category : string).

(** [{key: value for key, value in d.items() if value >= threshold}] *)
Definition at_least (threshold : pyfloat) (d : pydict) : pydict :=
  dict_of_items (List.filter (fun kv => int_ge_float (snd kv) threshold) d).

(** [s.replace('_', ' ')] and [s.capitalize()] on the ASCII names the
    source applies them to. *)
Definition underscore_to_space (c : ascii) : ascii :=
  if Ascii.eqb c "_"%char then " "%char else c.

Fixpoint map_string (f : ascii -> ascii) (s : string) : string :=
  match s with
  | EmptyString => EmptyString
  | String c s' => String (f c) (map_string f s')
  end.

Definition ascii_upper (c : ascii) : ascii :=
  let n := nat_of_ascii c in
  if (Nat.leb 97 n && Nat.leb n 122)%bool then ascii_of_nat (n - 32) else c.

Definition ascii_lower (c : ascii) : ascii :=
  let n := nat_of_ascii c in
  if (Nat.leb 65 n && Nat.leb n 90)%bool then ascii_of_nat (n + 32) else c.

Definition capitalize (s : string) : string :=
  match s with
  | EmptyString => EmptyString
  | String c s' => String (ascii_upper c) (map_string ascii_lower s')
  end.

Section Threshold.

(** The threshold is any Python object; [py_float] is the built-in
    [float] applied to it, with the exception it raises when the object
    does not convert. *)
Variable PyObject : Type.
Variable py_float : PyObject -> result pyfloat.

(** Lines 281-284 and 386-389: a bare [except] turns every failure into
    [ValueError]. *)
Definition numeric_threshold (threshold : PyObject) : result pyfloat :=
  match py_float threshold with
  | Ok t => Ok t
  | Raise _ => Raise ValueError
  end.

(** The loop of lines 285-292. *)
Fixpoint plot_categories (self_categorical_data_counts_dict : list (string * pydict))
    (categories : list string) (threshold : pyfloat) : W drawing unit :=
  match categories with
  | [] => ret_W tt
  | category :: categories' =>
      run* _ :=
        (if existsb (String.eqb category) category_columns then
           run* counts :=
             lift_W (match assoc_get self_categorical_data_counts_dict category with
                     | Some counts => Ok counts
                     | None => Raise KeyError
                     end) in
           let dict_of_counts := at_least threshold counts in
           run* _ := emit PltFigure in
           run* _ := emit (PltBarh (map fst dict_of_counts) (map snd dict_of_counts)
                                   "darkgreen") in
           emit (PltTitle (capitalize (map_string underscore_to_space category)))
         else emit (NotValidInput category)) in
      plot_categories self_categorical_data_counts_dict categories' threshold
  end.

(** [categories] is a single string or a list of strings. *)
Definition plotCategoricalDataCounts
    (self_categorical_data_counts_dict : list (string * pydict))
    (categories : string + list string) (threshold : PyObject) : W drawing unit :=
  let categories := match categories with
                    | inl category => [category]
                    | inr categories => categories
                    end in
  run* threshold := lift_W (numeric_threshold threshold) in
  plot_categories self_categorical_data_counts_dict categories threshold.

Definition plotEmailProvidersCounts (self_email_providers_counts : pydict)
    (threshold : PyObject) (plot_type : string) : W drawing unit :=
  run* threshold := lift_W (numeric_threshold threshold) in
  let dict_of_counts := at_least threshold self_email_providers_counts in
  if String.eqb plot_type "bar" then
    run* _ := emit (PltBarh (map fst dict_of_counts) (map snd dict_of_counts) "brown") in
    emit (PltTitle "Email providers")
  else if String.eqb plot_type "pie" then
    run* _ := emit PltFigure in
    run* _ := emit (PltPie (map snd dict_of_counts) (map fst dict_of_counts)) in
    emit PltLegend
  else lift_W (Raise ValueError).

End Threshold.


(** ** interpretOpeningHoursDurations *)

(** The elements of an array as floats. *)
Definition array_values (a : ndarray) : list float64 :=
  match a with
  | IntArray zs => map fl zs
  | FloatArray xs => xs
  end.

(** [x > y], [x < y] and [x == y] on floats: every comparison with
    [nan] is false. *)
Definition float_gt (x y : float64) : bool :=
  match x, y with
  | fl a, fl b => b <? a
  | _, _ => false
  end.

Definition float_lt (x y : float64) : bool :=
  match x, y with
  | fl a, fl b => a <? b
  | _, _ => false
  end.

Definition float_eq (x y : float64) : bool :=
  match x, y with
  | fl a, fl b => a =? b
  | _, _ => false
  end.

(** The built-ins [max] and [min] on the elements of an array: the first
    element, replaced by each later one that compares greater (less). *)
Definition py_max_float (l : list float64) : result float64 :=
  match l with
  | [] => Raise ValueError
  | x :: l' => Ok (fold_left (fun m item => if float_gt item m then item else m) l' x)
  end.

Definition py_min_float (l : list float64) : result float64 :=
  match l with
  | [] => Raise ValueError
  | x :: l' => Ok (fold_left (fun m item => if float_lt item m then item else m) l' x)
  end.

(** The exceptions of this method: those above and [IndexError]. *)
Inductive raised : Type :=
| Builtin (e : exn)
| IndexError.

(** [series[mask].values[0]] for a mask given as an array: the first
    value whose mask entry is true.  A mask of another length and an
    all-false mask both end in [IndexError]. *)
Fixpoint first_selected (values : list cell) (mask : list bool) : option cell :=
  match values, mask with
  | v :: values', b :: mask' => if b then Some v else first_selected values' mask'
  | _, _ => None
  end.

Definition mask_first (series : list (nat * cell)) (mask : list bool) : raised + cell :=
  if Nat.eqb (List.length series) (List.length mask) then
    match first_selected (map snd series) mask with
    | Some v => inr v
    | None => inl IndexError
    end
  else inl IndexError.

(** The values that are not [nan]. *)
Definition not_nan (l : list float64) : list Z :=
  flat_map (fun x => match x with fl z => [z] | nan => [] end) l.

Fixpoint insert_Z (x : Z) (l : list Z) : list Z :=
  match l with
  | [] => [x]
  | y :: l' => if x <=? y then x :: y :: l' else y :: insert_Z x l'
  end.

Definition sort_Z (l : list Z) : list Z := fold_right insert_Z [] l.

(** [np.median] as a fraction: the middle value over 1, the two middle
    values added over 2, and 0 over 0 ([nan]) for no value. *)
Definition median (l : list Z) : Z * nat :=
  let s := sort_Z l in
  let n := List.length s in
  if Nat.eqb n 0 then (0, O)
  else if Nat.odd n then (nth (n / 2) s 0, 1%nat)
  else (nth (n / 2 - 1) s 0 + nth (n / 2) s 0, 2%nat).

(** The lines printed, with the values before rounding: the mean is
    [total / count] and the median [numerator / denominator]. *)
Inductive hours_line : Type :=
| OpeningHoursAvailable (n total : nat)
| MaximumValue (m : float64) (n : nat)
| MinimumValue (m : float64) (name : cell)
| Mean (total : Z) (count : nat)
| Median (numerator : Z) (denominator : nat)
| HoursHistogram (a : list float64).

Definition interpretOpeningHoursDurations (self_dataset : DataFrame)
    (self_array_of_sums_of_opening_hours_spans : ndarray) (plot_hist : bool)
  : list hours_line * option raised :=
  let a := array_values self_array_of_sums_of_opening_hours_spans in
  match getattr_column self_dataset "opening_hours" with
  | Raise e => ([], Some (Builtin e))
  | Ok opening_hours =>
    let line1 := OpeningHoursAvailable
                   (List.length (List.filter (fun c => negb (isna (snd c))) opening_hours))
                   (len self_dataset) in
    match py_max_float a with
    | Raise e => ([line1], Some (Builtin e))
    | Ok highest =>
      let line2 := MaximumValue highest
                     (List.length (List.filter (fun x => float_eq x highest) a)) in
      match py_min_float a with
      | Raise e => ([line1; line2], Some (Builtin e))
      | Ok lowest =>
        match getattr_column self_dataset "name" with
        | Raise e => ([line1; line2], Some (Builtin e))
        | Ok name =>
          match mask_first name (map (fun x => float_eq x lowest) a) with
          | inl e => ([line1; line2], Some e)
          | inr first_name =>
            let values := not_nan a in
            let lines := [line1; line2; MinimumValue lowest first_name;
                          Mean (py_sum values) (List.length values);
                          Median (fst (median values)) (snd (median values))] in
            if plot_hist then ((lines ++ [HoursHistogram a])%list, None)
            else (lines, None)
          end
        end
      end
    end
  end.

(** ** The constructor *)

Record DataInterpreter : Type := mkDataInterpreter {
  dataset_raw : ref;
  dataset : ref;
  district_counts : gmap key nat;
  array_of_sums_of_opening_hours_spans : ndarray;
  categorical_data_counts_dict : list (string * pydict);
  number_of_phones_counts : list (nat * nat);
  email_providers_counts : pydict
}.

Section Init.

Variable py_lower : string -> string.
Variable np_wide : list pynum -> result ndarray.

(** [__init__], lines 87-93. *)
Definition DataInterpreter_init (dataset : ref) : M DataInterpreter :=
  let self_dataset_raw := dataset in
  let* self_dataset := removeEmptyObservations self_dataset_raw in
  let* self_district_counts := read self_dataset getDistrictCounts in
  let* self_array := read self_dataset (getArrayOfSumsOfOpeningHoursSpans np_wide) in
  let* self_categorical := read self_dataset (getCategoricalDataCounts py_lower) in
  let* self_number_of_phones := read self_dataset getNumberOfPhonesCounts in
  let* self_email_providers := read self_dataset getEmailProvidersCounts in
  ret_M (mkDataInterpreter self_dataset_raw self_dataset self_district_counts
           self_array self_categorical self_number_of_phones self_email_providers).

End Init.

(** ** Definitions used by the statements *)

(** The test of line 111 as a function of the cells of a row. *)
Definition dropped_row (cols : list string) (cells : list cell) : bool :=
  Nat.eqb (sum_isna (map (cell_at cols cells) (indic_of cols))) 12
  && cell_is_zero (cell_at cols cells "review_count").

(** The rows that fail the test, each under the label it has. *)
Definition kept_rows (cols : list string) (rs : list (nat * list cell))
  : list (nat * list cell) :=
  List.filter (fun r => negb (dropped_row cols (snd r))) rs.

(** Every field other than name, ratings and review_count is missing. *)
Definition all_other_fields_absent (cols : list string) (cells : list cell) : Prop :=
  Forall (fun c => isna (cell_at cols cells c) = true) (indic_of cols).

Definition row_lt (r1 r2 : nat * list cell) : Prop := (fst r1 < fst r2)%nat.

(** The column set of section 3 of the specification. *)
Definition spec_columns : list string :=
  ["name"; "address"; "district"; "ratings"; "review_count"; "opening_hours";
   "opening_hours_span"; "payment_methods"; "products"; "services"; "marks";
   "phones"; "email_address"].

(** A column set with twelve columns besides name, ratings and
    review_count, the number line 111 compares with. *)
Definition twelve_columns : list string :=
  ["name"; "address"; "district"; "ratings"; "review_count"; "opening_hours";
   "opening_hours_span"; "payment_methods"; "products"; "services"; "marks";
   "phones"; "email_address"; "web"; "description"].

(** A row given by the fields it has; its other cells are missing. *)
Definition make_row (cols : list string) (fields : list (string * cell)) : list cell :=
  map (fun c => match find (fun f => String.eqb (fst f) c) fields with
                | Some f => snd f
                | None => NA
                end) cols.

(** [c in s] for a character. *)
Fixpoint occurs (c : ascii) (s : string) : bool :=
  match s with
  | EmptyString => false
  | String c' s' => Ascii.eqb c' c || occurs c s'
  end.

(** The text of [s] before its first line break. *)
Fixpoint first_line (s : string) : string :=
  match s with
  | EmptyString => EmptyString
  | String c s' =>
      if Ascii.eqb c newline then EmptyString else String c (first_line s')
  end.

(** Whether the line that goes on with [s] still has a dot. *)
Definition dot_follows (s : string) : bool := occurs "."%char (first_line s).

(** Whether no at sign of [pre] has a dot after it on its line, [rest]
    being the text that comes after [pre]. *)
Fixpoint no_at_before_dot (pre rest : string) : bool :=
  match pre with
  | EmptyString => true
  | String c pre' =>
      (negb (Ascii.eqb c "@"%char) || negb (dot_follows (pre' ++ rest)))
      && no_at_before_dot pre' rest
  end.

(** The label a cell contributes to a value count. *)
Definition key_of (c : cell) : option key :=
  match c with
  | Str s => Some (inl s)
  | Num z => Some (inr z)
  | _ => None
  end.

Definition occurrences (k : key) (cells : list cell) : nat :=
  List.length (List.filter (fun c => bool_decide (key_of c = Some k)) cells).

(** The ratings of the rows with at least one review, read row by row. *)
Definition reviewed_ratings (df : DataFrame) : list Z :=
  flat_map (fun r =>
              match cell_at (columns df) (snd r) "review_count",
                    cell_at (columns df) (snd r) "ratings" with
              | Num n, Num x => if Z.eqb n 0 then [] else [x]
              | _, _ => []
              end) (rows df).

(** The providers of the addresses that are present and have a match, in
    row order. *)
Definition provider_of_cell (c : cell) : list string :=
  match c with
  | Str s => match extract_provider s with
             | Ok provider => [provider]
             | Raise _ => []
             end
  | _ => []
  end.

Definition extracted_providers (df : DataFrame) : list string :=
  flat_map (fun r => provider_of_cell (cell_at (columns df) (snd r) "email_address"))
           (rows df).

(** The number of distinct providers that occur exactly once. *)
Definition providers_seen_once (providers : list string) : nat :=
  List.length (List.filter (fun p => Nat.eqb (count_occ string_dec providers p) 1)
                           (nodup string_dec providers)).

(** Ascending by count. *)
Definition value_le (a b : string * nat) : Prop := (snd a <= snd b)%nat.

(** An address the loop gets through: missing, or a string with a match. *)
Definition matching_email (c : cell) : Prop :=
  c = NA \/ exists s, c = Str s /\ re_search email_pattern s <> None.

(** A mapping cell or a missing one. *)
Definition span_cell (c : cell) : Prop :=
  c = NA \/ exists d, c = Dict d.


(** ** Definitions used by the further statements *)

(** The sum of the counts of a value-count series. *)
Definition total_count (m : gmap key nat) : nat :=
  map_fold (fun _ v acc => (v + acc)%nat) 0%nat m.

(** The cells of a column, row by row. *)
Definition column_cells (df : DataFrame) (c : string) : list cell :=
  map (fun r => cell_at (columns df) (snd r) c) (rows df).

(** The per-day durations of a mapping that are present, added up. *)
Definition sum_present (d : list (string * option Z)) : Z :=
  fold_right Z.add 0 (flat_map (fun v => match snd v with
                                         | Some z => [z]
                                         | None => []
                                         end) d).

(** Whether the total of a cell, and of every row of a table, is an
    integer that a float holds exactly: at most [2^53] either way. *)
Definition exact_total (c : cell) : bool :=
  match c with
  | Dict d => exact_float (sum_present d)
  | _ => true
  end.

Definition exact_totals (df : DataFrame) : bool :=
  forallb exact_total (column_cells df "opening_hours_span").

(** The strings a category column holds, row by row, the elements of a
    list cell one after the other. *)
Definition cell_strings (c : cell) : list string :=
  match c with
  | StrList l => l
  | Str s => [s]
  | _ => []
  end.

Definition category_values (df : DataFrame) (column : string) : list string :=
  flat_map cell_strings (column_cells df column).

(** A cell a category column may hold: a string, a list of strings or
    nothing. *)
Definition category_cell (c : cell) : Prop :=
  c = NA \/ (exists s, c = Str s) \/ (exists l, c = StrList l).

(** Whether a cell has [n] entries. *)
Definition has_len (n : nat) (c : cell) : bool :=
  match py_len c with
  | Ok m => Nat.eqb m n
  | Raise _ => false
  end.

(** The strings of a category column in lower case. *)
Definition lowered_values (py_lower : string -> string) (df : DataFrame)
    (column : string) : list string :=
  map py_lower (category_values df column).

(** A cell [value_counts] can take: a string, a number or nothing. *)
Definition hashable_cell (c : cell) : Prop :=
  c = NA \/ (exists s, c = Str s) \/ (exists z, c = Num z).

(** Whether a drawing opens a new figure. *)
Definition is_figure (e : drawing) : bool :=
  match e with
  | PltFigure => true
  | _ => false
  end.

(** Whether a name is one of the four categories (line 286). *)
Definition valid_category (category : string) : bool :=
  existsb (String.eqb category) category_columns.

(** * Email provider extraction *)

Section Regex.

Lemma match_here_star_cons a r c s :
  match_here (Star a :: r) (String c s) =
  if atom_matches a c then
    match match_here (Star a :: r) s with
    | Some m => Some (String c m)
    | None => match_here r (String c s)
    end
  else match_here r (String c s).
Proof. reflexivity. Qed.

Lemma append_nil_l (s : string) : "" ++ s = s.
Proof. reflexivity. Qed.

Lemma append_cons c (a b : string) : String c a ++ b = String c (a ++ b).
Proof. reflexivity. Qed.

(** The star finds no dot to stop at exactly when the line has none
    left. *)
Lemma star_without_dot s :
  match_here [Star Dot; One (Lit "."%char)] s = None <-> dot_follows s = false.
Proof.
  unfold dot_follows. induction s as [|c s IH]; [split; reflexivity|].
  rewrite match_here_star_cons. cbn [atom_matches first_line].
  destruct (Ascii.eqb c newline) eqn:Hnl; cbn [negb].
  - apply Ascii.eqb_eq in Hnl. subst c. split; reflexivity.
  - cbn [occurs]. destruct (match_here [Star Dot; One (Lit "."%char)] s) as [m|].
    + split; [discriminate|]. intros H. apply orb_false_elim in H as [_ H].
      apply IH in H. discriminate.
    + rewrite (proj1 IH eq_refl), orb_false_r. cbn [match_here atom_matches].
      destruct (Ascii.eqb c "."%char); split; (reflexivity || discriminate).
Qed.

(** The greedy star runs to the last dot of the line. *)
Lemma star_up_to_last_dot mid post :
  occurs newline mid = false ->
  dot_follows post = false ->
  match_here [Star Dot; One (Lit "."%char)] (mid ++ String "."%char post)
  = Some (mid ++ ".").
Proof.
  intros Hmid Hpost. induction mid as [|c mid IH].
  - rewrite append_nil_l, match_here_star_cons.
    rewrite (proj2 (star_without_dot _) Hpost). reflexivity.
  - simpl in Hmid. apply orb_false_elim in Hmid as [Hc Hmid].
    rewrite !append_cons, match_here_star_cons, (IH Hmid).
    cbn [atom_matches]. now rewrite Hc.
Qed.

(** A match of the star and the dot ends at the last dot of the line. *)
Lemma star_up_to_last_dot_inv s : forall m,
  match_here [Star Dot; One (Lit "."%char)] s = Some m ->
  exists mid post, s = mid ++ String "."%char post /\ m = mid ++ "." /\
    occurs newline mid = false /\ dot_follows post = false.
Proof.
  induction s as [|c s IH]; intros m Hm; [discriminate|].
  rewrite match_here_star_cons in Hm. cbn [atom_matches] in Hm.
  assert (Hlast : match_here [One (Lit "."%char)] (String c s) = Some m ->
                  match_here [Star Dot; One (Lit "."%char)] s = None ->
                  exists mid post, String c s = mid ++ String "."%char post /\
                    m = mid ++ "." /\ occurs newline mid = false /\
                    dot_follows post = false).
  { cbn [match_here atom_matches]. intros H Hnone.
    destruct (Ascii.eqb_spec c "."%char) as [->|]; [|discriminate].
    cbn in H. injection H as <-. exists "", s.
    repeat split. now apply star_without_dot. }
  destruct (Ascii.eqb c newline) eqn:Hnl; cbn [negb] in Hm.
  - apply Ascii.eqb_eq in Hnl. subst c. discriminate.
  - destruct (match_here [Star Dot; One (Lit "."%char)] s) as [m'|] eqn:Hs.
    + injection Hm as <-. destruct (IH m' eq_refl) as (mid & post & -> & -> & Hmid & Hpost).
      exists (String c mid), post. rewrite !append_cons. repeat split; [|exact Hpost].
      cbn [occurs]. now rewrite Hnl, Hmid.
    + now apply Hlast.
Qed.

Lemma email_pattern_at c s :
  match_here email_pattern (String c s)
  = if Ascii.eqb c "@"%char
    then String c <$> match_here [Star Dot; One (Lit "."%char)] s
    else None.
Proof. reflexivity. Qed.

(** The search passes over every at sign that has no dot after it on
    its line and stops at the first one that has. *)
Lemma search_email_pattern pre mid post :
  no_at_before_dot pre (String "@"%char (mid ++ String "."%char post)) = true ->
  occurs newline mid = false ->
  dot_follows post = false ->
  re_search email_pattern (pre ++ String "@"%char (mid ++ String "."%char post))
  = Some (String "@"%char (mid ++ ".")).
Proof.
  intros Hpre Hmid Hpost. induction pre as [|c pre IH].
  - rewrite append_nil_l. cbn [re_search]. rewrite email_pattern_at.
    cbn [Ascii.eqb Bool.eqb andb]. now rewrite star_up_to_last_dot.
  - cbn [no_at_before_dot] in Hpre. apply andb_true_iff in Hpre as [Hc Hpre].
    rewrite append_cons. cbn [re_search]. rewrite email_pattern_at.
    destruct (Ascii.eqb c "@"%char); cbn [negb orb] in Hc.
    + apply negb_true_iff, star_without_dot in Hc. rewrite Hc. now apply IH.
    + now apply IH.
Qed.

(** Every match of the search is of that kind. *)
Lemma search_email_pattern_inv email : forall value,
  re_search email_pattern email = Some value ->
  exists pre mid post,
    email = pre ++ String "@"%char (mid ++ String "."%char post) /\
    value = String "@"%char (mid ++ ".") /\
    no_at_before_dot pre (String "@"%char (mid ++ String "."%char post)) = true /\
    occurs newline mid = false /\
    dot_follows post = false.
Proof.
  induction email as [|c email IH]; intros value Hv; [discriminate|].
  cbn [re_search] in Hv. rewrite email_pattern_at in Hv.
  assert (Hskip : (negb (Ascii.eqb c "@"%char) || negb (dot_follows email)) = true ->
                  re_search email_pattern email = Some value ->
                  exists pre mid post,
                    String c email = pre ++ String "@"%char (mid ++ String "."%char post) /\
                    value = String "@"%char (mid ++ ".") /\
                    no_at_before_dot pre (String "@"%char (mid ++ String "."%char post))
                    = true /\
                    occurs newline mid = false /\ dot_follows post = false).
  { intros Hc Hrest. destruct (IH value Hrest) as (pre & mid & post & Heq & -> & Hpre & Hmid & Hpost).
    exists (String c pre), mid, post. rewrite append_cons, <- Heq.
    repeat split; try assumption. cbn [no_at_before_dot]. now rewrite <- Heq, Hc, Hpre. }
  destruct (Ascii.eqb_spec c "@"%char) as [->|Hc].
  - destruct (match_here [Star Dot; One (Lit "."%char)] email) as [m|] eqn:Hm.
    + cbn in Hv. injection Hv as <-.
      destruct (star_up_to_last_dot_inv _ _ Hm) as (mid & post & -> & -> & Hmid & Hpost).
      exists "", mid, post. rewrite append_nil_l. repeat split; assumption.
    + apply Hskip; [|exact Hv]. apply star_without_dot in Hm. now rewrite Hm.
  - apply Hskip; [reflexivity | exact Hv].
Qed.

Lemma substring_prefix a b : substring 0 (String.length a) (a ++ b) = a.
Proof.
  induction a as [|c a IH]; [now destruct b|].
  rewrite append_cons. cbn [String.length substring]. now rewrite IH.
Qed.

Lemma length_append a b :
  String.length (a ++ b) = (String.length a + String.length b)%nat.
Proof.
  induction a as [|c a IH]; [reflexivity|].
  rewrite append_cons. cbn [String.length]. now rewrite IH.
Qed.

(** [value[1:len(value)-1]] takes the at sign and the dot away. *)
Lemma strip_at_and_dot mid :
  let value := String "@"%char (mid ++ ".") in
  py_slice value 1 (Z.of_nat (String.length value) - 1) = mid.
Proof.
  cbv zeta. unfold py_slice, slice_bound.
  cbn [String.length]. rewrite length_append. cbn [String.length].
  set (n := String.length mid).
  replace (1 <? 0) with false by reflexivity.
  destruct (Z.ltb_spec (Z.of_nat (S (n + 1)) - 1) 0) as [H|H]; [lia|].
  rewrite Z.min_l, Z.min_l by lia.
  replace (Z.to_nat 1) with 1%nat by reflexivity.
  replace (Z.to_nat (Z.of_nat (S (n + 1)) - 1 - 1)) with n by lia.
  cbn [substring]. apply substring_prefix.
Qed.

End Regex.

(** C1 (amended).  For a present address with a match, the provider is
    the text between the first [@] that has a dot after it on its line
    and the LAST dot of that line: the star of ['@.*\.'] is greedy and
    does not pass a line break.  The first part gives the provider of
    every address of that shape and the loop step that appends it; the
    second part says that every address with a match has that shape.
    So ["foo@example.com"] gives ["example"] and
    ["foo@sub.example.co.uk"] gives ["sub.example.co"]. *)
Theorem extract_provider_up_to_last_dot :
  (forall pre mid post : string,
      let rest := String "@"%char (mid ++ String "."%char post) in
      no_at_before_dot pre rest = true ->
      occurs newline mid = false ->
      dot_follows post = false ->
      extract_provider (pre ++ rest) = Ok mid /\
      forall cells email_providers,
        providers_loop (Str (pre ++ rest) :: cells) email_providers
        = providers_loop cells (email_providers ++ [mid])) /\
  (forall email : string,
      re_search email_pattern email <> None ->
      exists pre mid post,
        email = pre ++ String "@"%char (mid ++ String "."%char post) /\
        no_at_before_dot pre (String "@"%char (mid ++ String "."%char post)) = true /\
        occurs newline mid = false /\
        dot_follows post = false /\
        extract_provider email = Ok mid) /\
  extract_provider "foo@example.com" = Ok "example" /\
  extract_provider "foo@sub.example.co.uk" = Ok "sub.example.co".
Proof.
  assert (Hshape : forall pre mid post : string,
             no_at_before_dot pre (String "@"%char (mid ++ String "."%char post)) = true ->
             occurs newline mid = false ->
             dot_follows post = false ->
             extract_provider (pre ++ String "@"%char (mid ++ String "."%char post))
             = Ok mid).
  { intros pre mid post Hpre Hmid Hpost. unfold extract_provider.
    rewrite search_email_pattern by assumption. f_equal. apply strip_at_and_dot. }
  split; [|split; [|split; reflexivity]].
  - intros pre mid post rest Hpre Hmid Hpost.
    pose proof (Hshape pre mid post Hpre Hmid Hpost) as Hp. fold rest in Hp.
    split; [exact Hp|].
    intros cells acc. cbn [providers_loop isna_test mbind result_bind]. now rewrite Hp.
  - intros email Hmatch.
    destruct (re_search email_pattern email) as [value|] eqn:Hv; [|contradiction].
    destruct (search_email_pattern_inv email value Hv)
      as (pre & mid & post & -> & _ & Hpre & Hmid & Hpost).
    exists pre, mid, post. repeat split; try assumption. now apply Hshape.
Qed.

(** The theorem at an address of two lines: the at sign of the first
    line has no dot after it before the line break, so the provider
    comes from the second line. *)
Lemma extract_provider_up_to_last_dot_witness :
  extract_provider ("info@ufleku" ++ String newline "mail@mail.ufleku.cz") = Ok "mail.ufleku".
Proof.
  apply (proj1 extract_provider_up_to_last_dot
           ("info@ufleku" ++ String newline "mail") "mail.ufleku" "cz");
    reflexivity.
Defined.

(** C1 (as stated) fails: ["foo@example.com"] does not give
    ["example.com"], and the match does not stop at the first dot after
    the at sign, which would leave ["sub"]. *)
Lemma extract_provider_not_up_to_first_dot :
  extract_provider "foo@example.com" <> Ok "example.com" /\
  extract_provider "foo@sub.example.co.uk" <> Ok "sub".
Proof. split; vm_compute; discriminate. Qed.

(** * Filtering the raw table *)

Section Filter.

Lemma col_pos_In cols c : In c cols -> exists p, col_pos cols c = Some p.
Proof.
  induction cols as [|c' cols IH]; intros Hin; [destruct Hin|].
  cbn [col_pos]. destruct (String.eqb c c') eqn:E; [eauto|].
  destruct Hin as [->|Hin]; [now rewrite String.eqb_refl in E|].
  destruct (IH Hin) as [p ->]. eauto.
Qed.

Lemma label_from_cons k c data :
  label_from k (c :: data) = (k, c) :: label_from (S k) data.
Proof. reflexivity. Qed.

Lemma label_from_ge k data : Forall (fun r => (k <= fst r)%nat) (label_from k data).
Proof.
  revert k. induction data as [|c data IH]; intros k; [constructor|].
  rewrite label_from_cons. constructor; [simpl; lia|].
  eapply List.Forall_impl; [|apply IH]. simpl. intros; lia.
Qed.

Lemma label_from_length k data : List.length (label_from k data) = List.length data.
Proof.
  unfold label_from. rewrite length_combine, length_seq. lia.
Qed.

Lemma label_from_index k data : map fst (label_from k data) = seq k (List.length data).
Proof.
  revert k. induction data as [|c data IH]; intros k; [reflexivity|].
  rewrite label_from_cons. cbn. now rewrite IH.
Qed.

Lemma row_of_lt k rs :
  Forall (fun r => (fst r < k)%nat) rs -> forall rs', row_of (rs ++ rs') k = row_of rs' k.
Proof.
  induction 1 as [|[l c] rs Hl _ IH]; intros rs'; [reflexivity|].
  cbn [app row_of]. simpl in Hl.
  destruct (Nat.eqb_spec l k); [lia | apply IH].
Qed.

Lemma row_of_gt k rs :
  Forall (fun r => (k < fst r)%nat) rs -> row_of rs k = None.
Proof.
  induction 1 as [|[l c] rs Hl _ IH]; [reflexivity|].
  cbn [row_of]. simpl in Hl. destruct (Nat.eqb_spec l k); [lia | apply IH].
Qed.

Lemma series_at_lt k p rs :
  Forall (fun r => (fst r < k)%nat) rs ->
  forall rs', series_at (map (fun r => (fst r, nth p (snd r) NA)) (rs ++ rs')) k
         = series_at (map (fun r => (fst r, nth p (snd r) NA)) rs') k.
Proof.
  induction 1 as [|[l c] rs Hl _ IH]; intros rs'; [reflexivity|].
  cbn [app map series_at fst snd]. simpl in Hl.
  destruct (Nat.eqb_spec l k); [lia | apply IH].
Qed.

Lemma drop_label_lt k (rs : list (nat * list cell)) :
  Forall (fun r => (fst r < k)%nat) rs ->
  List.filter (fun r => negb (Nat.eqb (fst r) k)) rs = rs.
Proof.
  induction 1 as [|[l c] rs Hl _ IH]; [reflexivity|].
  cbn [List.filter fst]. simpl in Hl.
  destruct (Nat.eqb_spec l k); [lia|]. cbn. now rewrite IH.
Qed.

Lemma drop_label_gt k (rs : list (nat * list cell)) :
  Forall (fun r => (k < fst r)%nat) rs ->
  List.filter (fun r => negb (Nat.eqb (fst r) k)) rs = rs.
Proof.
  induction 1 as [|[l c] rs Hl _ IH]; [reflexivity|].
  cbn [List.filter fst]. simpl in Hl.
  destruct (Nat.eqb_spec l k); [lia|]. cbn. now rewrite IH.
Qed.

Variable d : ref.
Variable cols : list string.
Variable p : nat.
Hypothesis Hrc : col_pos cols "review_count" = Some p.

(** The test on a row that is in the table. *)
Lemma is_empty_observation_found (h : heap) k c pre suf :
  h !! d = Some (mkDataFrame cols (pre ++ (k, c) :: suf)) ->
  Forall (fun r => (fst r < k)%nat) pre ->
  is_empty_observation d (indic_of cols) k h = (Ok (dropped_row cols c), h).
Proof.
  intros Hd Hpre. unfold is_empty_observation, bind_M, read, ret_M. rewrite Hd.
  unfold loc. cbn [rows columns]. rewrite (row_of_lt _ _ Hpre).
  cbn [row_of]. rewrite Nat.eqb_refl.
  rewrite Hd. unfold getattr_column. cbn [rows columns]. rewrite Hrc. cbn [mbind result_bind].
  rewrite (series_at_lt _ _ _ Hpre). cbn [map series_at fst snd]. rewrite Nat.eqb_refl.
  unfold dropped_row, cell_at. now rewrite Hrc.
Qed.

(** The test on a label that is not in the table. *)
Lemma is_empty_observation_missing (h : heap) k pre suf :
  h !! d = Some (mkDataFrame cols (pre ++ suf)) ->
  Forall (fun r => (fst r < k)%nat) pre ->
  Forall (fun r => (k < fst r)%nat) suf ->
  is_empty_observation d (indic_of cols) k h = (Raise KeyError, h).
Proof.
  intros Hd Hpre Hsuf. unfold is_empty_observation, bind_M, read. rewrite Hd.
  unfold loc. cbn [rows]. now rewrite (row_of_lt _ _ Hpre), (row_of_gt _ _ Hsuf).
Qed.

Lemma drop_inplace_found (h : heap) k c pre suf :
  h !! d = Some (mkDataFrame cols (pre ++ (k, c) :: suf)) ->
  Forall (fun r => (fst r < k)%nat) pre ->
  Forall (fun r => (k < fst r)%nat) suf ->
  drop_inplace d k h = (Ok tt, <[d := mkDataFrame cols (pre ++ suf)]> h).
Proof.
  intros Hd Hpre Hsuf. unfold drop_inplace, drop. rewrite Hd. cbn [rows columns].
  rewrite (row_of_lt _ _ Hpre). cbn [row_of]. rewrite Nat.eqb_refl.
  rewrite List.filter_app. cbn [List.filter fst]. rewrite Nat.eqb_refl. cbn [negb].
  now rewrite (drop_label_lt _ _ Hpre), (drop_label_gt _ _ Hsuf).
Qed.

(** The loop on a freshly labelled table: every label is found, the
    dropped rows go, the others stay where they were. *)
Lemma filter_loop_raw data : forall k pre (h : heap),
  h !! d = Some (mkDataFrame cols (pre ++ label_from k data)) ->
  Forall (fun r => (fst r < k)%nat) pre ->
  for_each (seq k (List.length data)) (filter_step d (indic_of cols)) h
  = (Ok tt, <[d := mkDataFrame cols (pre ++ kept_rows cols (label_from k data))]> h).
Proof.
  induction data as [|c data IH]; intros k pre h Hd Hpre.
  - cbn. unfold ret_M. now rewrite insert_id.
  - rewrite label_from_cons in Hd |- *.
    assert (Hsuf : Forall (fun r => (k < fst r)%nat) (label_from (S k) data)).
    { eapply List.Forall_impl; [|apply label_from_ge]. simpl. intros; lia. }
    cbn [List.length seq for_each]. unfold bind_M at 1, filter_step at 1, bind_M at 1.
    rewrite (is_empty_observation_found _ _ _ _ _ Hd Hpre).
    unfold kept_rows. cbn [List.filter snd].
    destruct (dropped_row cols c) eqn:E; cbn [negb].
    + rewrite (drop_inplace_found _ _ _ _ _ Hd Hpre Hsuf).
      rewrite (IH (S k) pre); [now rewrite insert_insert_eq | apply lookup_insert_eq |].
      eapply List.Forall_impl; [|exact Hpre]. simpl. intros; lia.
    + unfold ret_M at 1.
      rewrite (IH (S k) (pre ++ [(k, c)])%list).
      * unfold kept_rows. now rewrite <- app_assoc.
      * now rewrite <- app_assoc.
      * apply Forall_app. split; [|repeat constructor].
        eapply List.Forall_impl; [|exact Hpre]. simpl. intros; lia.
Qed.

Lemma removeEmptyObservations_raw (h : heap) data :
  h !! d = Some (raw cols data) ->
  removeEmptyObservations d h
  = (Ok d, <[d := mkDataFrame cols (kept_rows cols (label_from 0 data))]> h).
Proof.
  intros Hd. unfold removeEmptyObservations.
  unfold bind_M at 1, read at 1. rewrite Hd.
  unfold bind_M at 1, read at 1. rewrite Hd.
  unfold bind_M at 1, for_range, raw, len. cbn [rows columns].
  rewrite label_from_length.
  now rewrite (filter_loop_raw data 0%nat [] h Hd).
Qed.

(** The loop on a table whose rows all fail the test: nothing is dropped,
    and the first label missing from [0 .. len-1] stops the loop. *)
Lemma filter_loop_kept suf : forall k pre (h : heap),
  h !! d = Some (mkDataFrame cols (pre ++ suf)) ->
  Forall (fun r => (fst r < k)%nat) pre ->
  Forall (fun r => (k <= fst r)%nat) suf ->
  StronglySorted row_lt suf ->
  Forall (fun r => dropped_row cols (snd r) = false) suf ->
  for_each (seq k (List.length suf)) (filter_step d (indic_of cols)) h
  = (if decide (map fst suf = seq k (List.length suf)) then Ok tt else Raise KeyError, h).
Proof.
  induction suf as [|[l c] suf IH]; intros k pre h Hd Hpre Hge Hsorted Hkept.
  - reflexivity.
  - apply StronglySorted_inv in Hsorted as [Hsorted Hlt].
    apply Forall_cons in Hge as [Hl Hge]. apply Forall_cons in Hkept as [Hc Hkept].
    cbn [fst snd] in Hl, Hc. cbn [List.length seq for_each map fst].
    unfold bind_M at 1, filter_step at 1, bind_M at 1.
    destruct (decide (l = k)) as [->|Hne].
    + rewrite (is_empty_observation_found _ _ _ _ _ Hd Hpre), Hc. unfold ret_M at 1.
      rewrite (IH (S k) (pre ++ [(k, c)])%list).
      * destruct (decide (map fst suf = seq (S k) (List.length suf))) as [->|Hn];
          [now rewrite decide_True|].
        rewrite decide_False; [reflexivity | congruence].
      * now rewrite <- app_assoc.
      * apply Forall_app. split; [|repeat constructor].
        eapply List.Forall_impl; [|exact Hpre]. simpl. intros; lia.
      * eapply List.Forall_impl; [|exact Hlt]. unfold row_lt. simpl. intros; lia.
      * exact Hsorted.
      * exact Hkept.
    + rewrite (is_empty_observation_missing h k pre ((l, c) :: suf) Hd Hpre).
      * rewrite decide_False; [reflexivity | congruence].
      * constructor; [simpl; lia|].
        eapply List.Forall_impl; [|exact Hlt]. unfold row_lt. simpl. intros; lia.
Qed.

Lemma removeEmptyObservations_kept (h : heap) rs :
  h !! d = Some (mkDataFrame cols rs) ->
  StronglySorted row_lt rs ->
  Forall (fun r => dropped_row cols (snd r) = false) rs ->
  removeEmptyObservations d h
  = (if decide (map fst rs = seq 0 (List.length rs)) then Ok d else Raise KeyError, h).
Proof.
  intros Hd Hsorted Hkept. unfold removeEmptyObservations.
  unfold bind_M at 1, read at 1. rewrite Hd.
  unfold bind_M at 1, read at 1. rewrite Hd.
  unfold bind_M at 1, for_range, len. cbn [rows columns].
  rewrite (filter_loop_kept rs 0%nat [] h Hd); try assumption.
  - now destruct (decide _).
  - constructor.
  - apply Forall_forall. intros; lia.
Qed.

End Filter.

Lemma label_from_sorted k data : StronglySorted row_lt (label_from k data).
Proof.
  revert k. induction data as [|c data IH]; intros k; [constructor|].
  rewrite label_from_cons. constructor; [apply IH|].
  eapply List.Forall_impl; [|apply (label_from_ge (S k))].
  unfold row_lt. simpl. intros; lia.
Qed.

Lemma kept_rows_sorted cols rs :
  StronglySorted row_lt rs -> StronglySorted row_lt (kept_rows cols rs).
Proof.
  induction 1 as [|r rs _ IH Hr]; [constructor|].
  unfold kept_rows. cbn [List.filter]. destruct (negb _); [|exact IH].
  constructor; [exact IH|].
  apply Forall_forall. intros x Hx. apply list_elem_of_In, filter_In in Hx as [Hx _].
  rewrite Forall_forall in Hr. apply Hr. now apply list_elem_of_In.
Qed.

Lemma kept_rows_kept cols rs :
  Forall (fun r => dropped_row cols (snd r) = false) (kept_rows cols rs).
Proof.
  apply Forall_forall. intros x Hx. apply list_elem_of_In, filter_In in Hx as [_ Hx].
  now apply negb_true_iff.
Qed.

Lemma kept_rows_ge cols k rs :
  Forall (fun r => (k <= fst r)%nat) rs ->
  Forall (fun r => (k <= fst r)%nat) (kept_rows cols rs).
Proof.
  rewrite !Forall_forall. intros H x Hx. apply H.
  apply list_elem_of_In. apply list_elem_of_In, filter_In in Hx. tauto.
Qed.

(** What became of the row at position [i] of the raw table. *)
Lemma row_of_kept_rows cols data : forall k i cells,
  nth_error data i = Some cells ->
  row_of (kept_rows cols (label_from k data)) (k + i)
  = if dropped_row cols cells then None else Some cells.
Proof.
  induction data as [|c data IH]; intros k i cells Hi; [now destruct i|].
  rewrite label_from_cons. unfold kept_rows. cbn [List.filter snd].
  destruct i as [|i]; cbn [nth_error] in Hi.
  - injection Hi as ->. rewrite Nat.add_0_r.
    destruct (dropped_row cols cells); cbn [negb].
    + apply row_of_gt. eapply List.Forall_impl; [|apply kept_rows_ge, (label_from_ge (S k))].
      simpl. intros; lia.
    + cbn [row_of]. now rewrite Nat.eqb_refl.
  - replace (k + S i)%nat with (S k + i)%nat by lia.
    destruct (dropped_row cols c); cbn [negb]; [now apply IH|].
    cbn [row_of]. destruct (Nat.eqb_spec k (S k + i)); [lia | now apply IH].
Qed.

Lemma cell_is_zero_iff c : cell_is_zero c = true <-> c = Num 0.
Proof.
  destruct c; cbn; try (split; [discriminate | congruence]).
  rewrite Z.eqb_eq. split; congruence.
Qed.

Lemma sum_isna_le cells : (sum_isna cells <= List.length cells)%nat.
Proof. apply List.filter_length_le. Qed.

Lemma sum_isna_all cells :
  sum_isna cells = List.length cells <-> Forall (fun c => isna c = true) cells.
Proof.
  induction cells as [|c cells IH]; [split; [constructor | reflexivity]|].
  unfold sum_isna in *. cbn [List.filter List.length].
  pose proof (sum_isna_le cells) as Hle. unfold sum_isna in Hle.
  destruct (isna c) eqn:E; cbn [List.length]; split; intros H.
  - constructor; [exact E | apply IH; lia].
  - apply Forall_cons in H as [_ H]. apply IH in H. lia.
  - lia.
  - apply Forall_cons in H as [H _]. congruence.
Qed.

Lemma dropped_row_iff cols cells :
  dropped_row cols cells = true <->
  sum_isna (map (cell_at cols cells) (indic_of cols)) = 12%nat /\
  cell_at cols cells "review_count" = Num 0.
Proof.
  unfold dropped_row. now rewrite andb_true_iff, Nat.eqb_eq, cell_is_zero_iff.
Qed.

Lemma all_other_fields_absent_iff cols cells :
  all_other_fields_absent cols cells <->
  sum_isna (map (cell_at cols cells) (indic_of cols)) = List.length (indic_of cols).
Proof.
  unfold all_other_fields_absent.
  rewrite <- (length_map (cell_at cols cells) (indic_of cols)) at 1.
  rewrite sum_isna_all. now rewrite Forall_map.
Qed.


(** C2 (amended).  On a raw table (rows labelled [0 .. n-1]) that has a
    review_count column and exactly twelve columns besides name, ratings
    and review_count, the number line 111 is written for,
    [removeEmptyObservations] removes a row if and only if every field
    other than name, ratings and review_count is missing and its
    review_count equals 0, and leaves every other row as it is.  A row
    with review_count > 0 is always retained. *)
Theorem removeEmptyObservations_drops_iff (h : heap) (d : ref) cols data :
  h !! d = Some (raw cols data) ->
  In "review_count" cols ->
  List.length (indic_of cols) = 12%nat ->
  exists df', removeEmptyObservations d h = (Ok d, <[d := df']> h) /\
    forall i cells, nth_error data i = Some cells ->
      (row_of (rows df') i = None \/ row_of (rows df') i = Some cells) /\
      (row_of (rows df') i = None <->
         all_other_fields_absent cols cells /\
         cell_at cols cells "review_count" = Num 0) /\
      (forall z, cell_at cols cells "review_count" = Num z -> z > 0 ->
         row_of (rows df') i = Some cells).
Proof.
  intros Hd Hin Hlen. destruct (col_pos_In _ _ Hin) as [p Hp].
  eexists. split; [exact (removeEmptyObservations_raw d cols p Hp h data Hd)|].
  intros i cells Hi. cbn [rows].
  pose proof (row_of_kept_rows cols data 0%nat i cells Hi) as Hrow. cbn [Nat.add] in Hrow.
  rewrite Hrow. pose proof (dropped_row_iff cols cells) as Hiff.
  rewrite <- Hlen, <- all_other_fields_absent_iff in Hiff.
  destruct (dropped_row cols cells) eqn:E.
  - assert (H12 : all_other_fields_absent cols cells /\
                  cell_at cols cells "review_count" = Num 0) by now apply Hiff.
    split; [now left|]. split; [tauto|].
    intros z Hz Hpos. destruct H12 as [_ H0]. rewrite H0 in Hz. injection Hz as <-. lia.
  - assert (H12 : ~ (all_other_fields_absent cols cells /\
                     cell_at cols cells "review_count" = Num 0)).
    { intros H. apply Hiff in H. discriminate. }
    split; [now right|]. split; [split; [discriminate | tauto]|]. reflexivity.
Qed.

(** The theorem on a two-row table with twelve other columns: the bare
    row without reviews goes, the bare row with four reviews stays. *)
Lemma removeEmptyObservations_drops_iff_witness :
  let a := make_row twelve_columns
             [("name", Str "A"); ("ratings", Num 0); ("review_count", Num 0)] in
  let b := make_row twelve_columns
             [("name", Str "B"); ("ratings", Num 70); ("review_count", Num 4)] in
  let h : heap := {[ 0%nat := raw twelve_columns [a; b] ]} in
  exists df', removeEmptyObservations 0%nat h = (Ok 0%nat, <[0%nat := df']> h) /\
              row_of (rows df') 0 = None /\ row_of (rows df') 1 = Some b.
Proof.
  cbv zeta.
  destruct (removeEmptyObservations_drops_iff
              {[ 0%nat := raw twelve_columns
                   [make_row twelve_columns
                      [("name", Str "A"); ("ratings", Num 0); ("review_count", Num 0)];
                    make_row twelve_columns
                      [("name", Str "B"); ("ratings", Num 70); ("review_count", Num 4)]] ]}
              0%nat twelve_columns
              [make_row twelve_columns
                 [("name", Str "A"); ("ratings", Num 0); ("review_count", Num 0)];
               make_row twelve_columns
                 [("name", Str "B"); ("ratings", Num 70); ("review_count", Num 4)]])
    as [df' [H Hrows]].
  - reflexivity.
  - simpl. tauto.
  - reflexivity.
  - exists df'. split; [exact H|]. split.
    + destruct (Hrows 0%nat _ eq_refl) as (_ & Hiff & _). apply Hiff.
      split; [|reflexivity]. unfold all_other_fields_absent. vm_compute.
      repeat constructor.
    + destruct (Hrows 1%nat _ eq_refl) as (_ & _ & Hpos). apply (Hpos 4); reflexivity.
Defined.

(** C2 (as stated) fails on the column set of section 3, which has ten
    columns besides name, ratings and review_count: a row with all ten
    missing and no review stays in the table. *)
Lemma removeEmptyObservations_keeps_bare_row :
  let cells := make_row spec_columns
                 [("name", Str "A"); ("ratings", Num 0); ("review_count", Num 0)] in
  let h : heap := {[ 0%nat := raw spec_columns [cells] ]} in
  all_other_fields_absent spec_columns cells /\
  cell_at spec_columns cells "review_count" = Num 0 /\
  exists h', removeEmptyObservations 0%nat h = (Ok 0%nat, h') /\
             (rows <$> h' !! 0%nat) = Some [(0%nat, cells)].
Proof.
  cbv zeta. split; [|split; [reflexivity|]].
  - unfold all_other_fields_absent. vm_compute. repeat constructor.
  - eexists. split; [vm_compute; reflexivity|]. vm_compute. reflexivity.
Qed.

(** A row found in the filtered table is the row of the raw table at
    the position its label names. *)
Lemma row_of_kept_rows_inv cols data : forall k i cells,
  row_of (kept_rows cols (label_from k data)) i = Some cells ->
  (k <= i)%nat /\ nth_error data (i - k) = Some cells.
Proof.
  induction data as [|c data IH]; intros k i cells Hrow; [discriminate|].
  rewrite label_from_cons in Hrow. unfold kept_rows in Hrow. cbn [List.filter snd] in Hrow.
  assert (Htail : row_of (kept_rows cols (label_from (S k) data)) i = Some cells ->
                  (k <= i)%nat /\ nth_error (c :: data) (i - k) = Some cells).
  { intros H. apply IH in H as [Hle Hnth]. split; [lia|].
    replace (i - k)%nat with (S (i - S k)) by lia. exact Hnth. }
  destruct (dropped_row cols c); cbn [negb] in Hrow; [now apply Htail|].
  cbn [row_of] in Hrow. destruct (Nat.eqb_spec k i) as [->|Hne]; [|now apply Htail].
  injection Hrow as ->. split; [lia|]. now rewrite Nat.sub_diag.
Qed.

(** C6 (amended).  On a raw table with a review_count column,
    [removeEmptyObservations] drops the rows from the table object it is
    given and returns that same object; no other object of the store
    changes.  The table keeps its column set and the surviving rows keep
    their order and their original index labels (they are not
    renumbered). *)
Theorem removeEmptyObservations_in_place (h : heap) (d : ref) cols data :
  h !! d = Some (raw cols data) ->
  In "review_count" cols ->
  exists df', removeEmptyObservations d h = (Ok d, <[d := df']> h) /\
    columns df' = cols /\
    rows df' = List.filter (fun r => negb (dropped_row cols (snd r))) (label_from 0 data) /\
    (forall i cells, row_of (rows df') i = Some cells -> nth_error data i = Some cells).
Proof.
  intros Hd Hin. destruct (col_pos_In _ _ Hin) as [p Hp].
  eexists. split; [exact (removeEmptyObservations_raw d cols p Hp h data Hd)|].
  cbn [columns rows]. split; [reflexivity|]. split; [reflexivity|].
  intros i cells Hrow. apply row_of_kept_rows_inv in Hrow as [_ Hnth].
  now rewrite Nat.sub_0_r in Hnth.
Qed.

(** The theorem on a table whose first row is dropped: the second row
    stays under label 1. *)
Lemma removeEmptyObservations_in_place_witness :
  let a := make_row twelve_columns
             [("name", Str "A"); ("ratings", Num 0); ("review_count", Num 0)] in
  let b := make_row twelve_columns
             [("name", Str "B"); ("ratings", Num 70); ("review_count", Num 4)] in
  let h : heap := {[ 0%nat := raw twelve_columns [a; b] ]} in
  exists df', removeEmptyObservations 0%nat h = (Ok 0%nat, <[0%nat := df']> h) /\
              columns df' = twelve_columns /\ rows df' = [(1%nat, b)].
Proof.
  cbv zeta.
  destruct (removeEmptyObservations_in_place
              {[ 0%nat := raw twelve_columns
                   [make_row twelve_columns
                      [("name", Str "A"); ("ratings", Num 0); ("review_count", Num 0)];
                    make_row twelve_columns
                      [("name", Str "B"); ("ratings", Num 70); ("review_count", Num 4)]] ]}
              0%nat twelve_columns
              [make_row twelve_columns
                 [("name", Str "A"); ("ratings", Num 0); ("review_count", Num 0)];
               make_row twelve_columns
                 [("name", Str "B"); ("ratings", Num 70); ("review_count", Num 4)]])
    as [df' (H & Hcols & Hrows & _)].
  - reflexivity.
  - simpl. tauto.
  - exists df'. split; [exact H|]. split; [exact Hcols|]. rewrite Hrows. reflexivity.
Defined.

(** C6 (as stated) fails: the reference returned is the one passed in,
    the table behind it is no longer the raw table, and the surviving row
    is labelled 1, not 0. *)
Lemma removeEmptyObservations_mutates_input :
  let T := raw twelve_columns
             [make_row twelve_columns
                [("name", Str "A"); ("ratings", Num 0); ("review_count", Num 0)];
              make_row twelve_columns
                [("name", Str "B"); ("ratings", Num 70); ("review_count", Num 4)]] in
  let h : heap := {[ 0%nat := T ]} in
  exists h', removeEmptyObservations 0%nat h = (Ok 0%nat, h') /\
             h' !! 0%nat <> Some T /\
             (index <$> h' !! 0%nat) = Some [1%nat] /\
             (index <$> h' !! 0%nat) <> Some [0%nat].
Proof.
  cbv zeta. eexists. split; [vm_compute; reflexivity|].
  split; [vm_compute; discriminate|].
  split; [vm_compute; reflexivity | vm_compute; discriminate].
Qed.

(** C5 (amended).  Filtering the already-filtered table removes no row
    and changes nothing in the store.  It returns, with the same table,
    exactly when the index labels of the filtered table are
    [0 .. len-1], that is when the first pass removed no row that stood
    before a surviving one; otherwise the loop over [range(len)] meets a
    label that is gone and [loc] raises [KeyError]. *)
Theorem removeEmptyObservations_twice (h : heap) (d : ref) cols data :
  h !! d = Some (raw cols data) ->
  In "review_count" cols ->
  exists h' F, removeEmptyObservations d h = (Ok d, h') /\
    h' !! d = Some F /\
    (index F = seq 0 (len F) -> removeEmptyObservations d h' = (Ok d, h')) /\
    (index F <> seq 0 (len F) -> removeEmptyObservations d h' = (Raise KeyError, h')).
Proof.
  intros Hd Hin. destruct (col_pos_In _ _ Hin) as [p Hp].
  eexists _, _. split; [exact (removeEmptyObservations_raw d cols p Hp h data Hd)|].
  split; [apply lookup_insert_eq|].
  unfold index, len. cbn [rows].
  rewrite (removeEmptyObservations_kept d cols p Hp _ (kept_rows cols (label_from 0 data))).
  - split; intros H.
    + now rewrite decide_True.
    + now rewrite decide_False.
  - apply lookup_insert_eq.
  - apply kept_rows_sorted, label_from_sorted.
  - apply kept_rows_kept.
Qed.

(** The theorem on a table whose last row is dropped: the second pass
    returns. *)
Lemma removeEmptyObservations_twice_witness :
  let T := raw twelve_columns
             [make_row twelve_columns
                [("name", Str "B"); ("ratings", Num 70); ("review_count", Num 4)];
              make_row twelve_columns
                [("name", Str "A"); ("ratings", Num 0); ("review_count", Num 0)]] in
  let h : heap := {[ 0%nat := T ]} in
  exists h', removeEmptyObservations 0%nat h = (Ok 0%nat, h') /\
             removeEmptyObservations 0%nat h' = (Ok 0%nat, h').
Proof.
  cbv zeta.
  destruct (removeEmptyObservations_twice
              {[ 0%nat := raw twelve_columns
                   [make_row twelve_columns
                      [("name", Str "B"); ("ratings", Num 70); ("review_count", Num 4)];
                    make_row twelve_columns
                      [("name", Str "A"); ("ratings", Num 0); ("review_count", Num 0)]] ]}
              0%nat twelve_columns
              [make_row twelve_columns
                 [("name", Str "B"); ("ratings", Num 70); ("review_count", Num 4)];
               make_row twelve_columns
                 [("name", Str "A"); ("ratings", Num 0); ("review_count", Num 0)]])
    as (h' & F & H1 & H2 & H3 & _).
  - reflexivity.
  - simpl. tauto.
  - exists h'. split; [exact H1|]. apply H3.
    assert (HF : F = mkDataFrame twelve_columns
                       [(0%nat, make_row twelve_columns
                                  [("name", Str "B"); ("ratings", Num 70);
                                   ("review_count", Num 4)])]).
    { apply (f_equal snd) in H1. cbn [snd] in H1. subst h'.
      vm_compute in H2. injection H2 as <-. vm_compute. reflexivity. }
    rewrite HF. reflexivity.
Defined.

(** C5 (as stated) fails: after a first pass that drops row 0 and keeps
    row 1, a second pass raises [KeyError]. *)
Lemma removeEmptyObservations_twice_raises :
  let T := raw twelve_columns
             [make_row twelve_columns
                [("name", Str "A"); ("ratings", Num 0); ("review_count", Num 0)];
              make_row twelve_columns
                [("name", Str "B"); ("ratings", Num 70); ("review_count", Num 4)]] in
  let h : heap := {[ 0%nat := T ]} in
  exists h', removeEmptyObservations 0%nat h = (Ok 0%nat, h') /\
             removeEmptyObservations 0%nat h' = (Raise KeyError, h').
Proof.
  cbv zeta. eexists. split; vm_compute; reflexivity.
Qed.

(** * District counts *)

(** The count of a label is the number of cells that carry it. *)
Lemma value_counts_lookup cells : forall counts k,
  value_counts cells = Ok counts ->
  counts !! k = if Nat.eqb (occurrences k cells) 0 then None
                else Some (occurrences k cells).
Proof.
  induction cells as [|c cells IH]; intros counts k Hvc.
  - injection Hvc as <-. apply lookup_empty.
  - cbn [value_counts] in Hvc.
    destruct (value_counts cells) as [counts'|e] eqn:E; [|discriminate].
    cbn [mbind result_bind] in Hvc. specialize (IH counts' k eq_refl).
    unfold occurrences in *. cbn [List.filter].
    destruct c as [|z|s|l|dd]; try discriminate; injection Hvc as <-; cbn [key_of].
    + rewrite bool_decide_eq_false_2 by discriminate. exact IH.
    + destruct (decide (inr z = k)) as [<-|Hne].
      * rewrite bool_decide_eq_true_2 by reflexivity. rewrite lookup_insert_eq, IH.
        cbn [List.length Nat.eqb].
        now destruct (Nat.eqb _ 0) eqn:E0; [apply Nat.eqb_eq in E0 as ->|].
      * rewrite bool_decide_eq_false_2 by congruence. now rewrite lookup_insert_ne.
    + destruct (decide (inl s = k)) as [<-|Hne].
      * rewrite bool_decide_eq_true_2 by reflexivity. rewrite lookup_insert_eq, IH.
        cbn [List.length Nat.eqb].
        now destruct (Nat.eqb _ 0) eqn:E0; [apply Nat.eqb_eq in E0 as ->|].
      * rewrite bool_decide_eq_false_2 by congruence. now rewrite lookup_insert_ne.
Qed.

Lemma occurrences_zero k cells :
  occurrences k cells = 0%nat <-> forall c, In c cells -> key_of c <> Some k.
Proof.
  unfold occurrences. induction cells as [|c cells IH]; cbn [List.filter].
  - split; [intros _ c [] | reflexivity].
  - destruct (bool_decide_reflect (key_of c = Some k)) as [Hk|Hk]; cbn [List.length].
    + split; [discriminate|]. intros H. exfalso. apply (H c); [now left | exact Hk].
    + rewrite IH. split.
      * intros H c' [<-|Hin]; auto.
      * intros H c' Hin. apply H. now right.
Qed.

(** Without a ["Not found"] row the drop of line 132 raises. *)
Lemma getDistrictCounts_without_sentinel df district counts :
  getattr_column df "district" = Ok district ->
  value_counts (map snd district) = Ok counts ->
  ~ In (Str "Not found") (map snd district) ->
  getDistrictCounts df = Raise KeyError.
Proof.
  intros Hcol Hvc Hnot. unfold getDistrictCounts. rewrite Hcol. cbn [mbind result_bind].
  rewrite Hvc. cbn [mbind result_bind]. unfold series_drop.
  rewrite (value_counts_lookup _ _ _ Hvc).
  replace (occurrences (inl "Not found") (map snd district)) with 0%nat; [reflexivity|].
  symmetry. apply occurrences_zero. intros c Hin Hk.
  destruct c; try discriminate. injection Hk as ->. contradiction.
Qed.

(** With one, the result counts every other district and has no
    ["Not found"] entry. *)
Lemma getDistrictCounts_with_sentinel df district counts :
  getattr_column df "district" = Ok district ->
  value_counts (map snd district) = Ok counts ->
  In (Str "Not found") (map snd district) ->
  exists district_counts,
    getDistrictCounts df = Ok district_counts /\
    district_counts !! inl "Not found" = None /\
    forall k, k <> inl "Not found" ->
      district_counts !! k
      = if Nat.eqb (occurrences k (map snd district)) 0 then None
        else Some (occurrences k (map snd district)).
Proof.
  intros Hcol Hvc Hin. unfold getDistrictCounts. rewrite Hcol. cbn [mbind result_bind].
  rewrite Hvc. cbn [mbind result_bind]. unfold series_drop.
  rewrite (value_counts_lookup _ _ _ Hvc).
  destruct (Nat.eqb_spec (occurrences (inl "Not found") (map snd district)) 0) as [H0|_].
  - exfalso. rewrite occurrences_zero in H0. now apply (H0 _ Hin).
  - eexists. split; [reflexivity|]. split; [apply lookup_delete_eq|].
    intros k Hk. rewrite lookup_delete_ne by congruence.
    now apply value_counts_lookup.
Qed.

(** C3.  The claim asks for the district counts when no row is
    ["Not found"]; on such a table, here one restaurant in Praha 1,
    [getDistrictCounts] raises [KeyError] instead of returning the count
    of Praha 1. *)
Theorem getDistrictCounts_raises_KeyError :
  getDistrictCounts
    (raw spec_columns
       [make_row spec_columns
          [("name", Str "U Fleku"); ("district", Str "Praha 1");
           ("ratings", Num 90); ("review_count", Num 12); ("phones", StrList [])]])
  = Raise KeyError.
Proof. vm_compute. reflexivity. Qed.

(** * Opening hours *)

Lemma spans_loop_app cells : forall acc,
  spans_loop cells acc = (vs ← spans_loop cells []; Ok (acc ++ vs)%list).
Proof.
  induction cells as [|c cells IH]; intros acc.
  - cbn. now rewrite app_nil_r.
  - cbn [spans_loop]. destruct (span_value c) as [v|e]; [|reflexivity].
    cbn [mbind result_bind]. rewrite IH, (IH ([] ++ [v])%list).
    destruct (spans_loop cells []) as [vs|e]; [|reflexivity].
    cbn [mbind result_bind]. now rewrite <- app_assoc.
Qed.

Lemma spans_loop_cons c cells :
  spans_loop (c :: cells) []
  = (v ← span_value c; vs ← spans_loop cells []; Ok (v :: vs)).
Proof.
  cbn [spans_loop]. destruct (span_value c) as [v|e]; [|reflexivity].
  cbn [mbind result_bind]. now rewrite spans_loop_app.
Qed.

(** One value per row, in row order. *)
Lemma spans_loop_spec cells : forall vs,
  spans_loop cells [] = Ok vs ->
  List.length vs = List.length cells /\
  forall i c, nth_error cells i = Some c ->
    span_value c = Ok (nth i vs PyNaN) /\ (i < List.length vs)%nat.
Proof.
  induction cells as [|c cells IH]; intros vs Hvs.
  - injection Hvs as <-. split; [reflexivity|]. now intros [|i].
  - rewrite spans_loop_cons in Hvs. destruct (span_value c) as [v|e] eqn:Ev; [|discriminate].
    cbn [mbind result_bind] in Hvs.
    destruct (spans_loop cells []) as [vs'|e] eqn:E; [|discriminate].
    injection Hvs as <-. destruct (IH vs' eq_refl) as [Hlen Hnth].
    split; [cbn; lia|]. intros [|i] c' Hc'; cbn [nth_error] in Hc'.
    + injection Hc' as <-. split; [exact Ev | cbn; lia].
    + destruct (Hnth i c' Hc') as [H1 H2]. split; [exact H1 | cbn; lia].
Qed.

Lemma getattr_column_cells df c s :
  getattr_column df c = Ok s -> map snd s = column_cells df c.
Proof.
  unfold getattr_column, column_cells, cell_at.
  destruct (col_pos (columns df) c) as [p|]; [|discriminate].
  intros [= <-]. now rewrite map_map.
Qed.

Lemma py_sum_from (l : list Z) : forall a, fold_left Z.add l a = a + fold_right Z.add 0 l.
Proof.
  induction l as [|x l IH]; intros a; cbn [fold_left fold_right]; [lia|].
  rewrite IH. lia.
Qed.

(** Leaving the zeros out does not change the sum. *)
Lemma py_sum_filter_None d : py_sum (filter_None (map snd d)) = sum_present d.
Proof.
  unfold py_sum, sum_present. rewrite py_sum_from, Z.add_0_l. unfold filter_None.
  induction d as [|[day v] d IH]; [reflexivity|].
  cbn [map snd flat_map]. rewrite !fold_right_app, IH.
  destruct v as [z|]; [|reflexivity].
  destruct (Z.eqb_spec z 0) as [->|Hz]; cbn [fold_right]; lia.
Qed.

Lemma exact_float_fits_int64 z : exact_float z = true -> fits_int64 z = true.
Proof.
  unfold exact_float, fits_int64. rewrite !andb_true_iff, !Z.leb_le, Z.ltb_lt.
  assert (2 ^ 53 < 2 ^ 63) by reflexivity. lia.
Qed.

(** The totals of the list are those of the cells. *)
Lemma spans_loop_exact cells : forall vs,
  spans_loop cells [] = Ok vs ->
  forallb exact_total cells = true ->
  Forall (fun v => forall z, v = PyInt z -> exact_float z = true) vs.
Proof.
  induction cells as [|c cells IH]; intros vs Hvs Hex.
  - injection Hvs as <-. constructor.
  - rewrite spans_loop_cons in Hvs. destruct (span_value c) as [v|e] eqn:Ev; [|discriminate].
    cbn [mbind result_bind] in Hvs.
    destruct (spans_loop cells []) as [vs'|e] eqn:E; [|discriminate].
    injection Hvs as <-. cbn [forallb] in Hex. apply andb_true_iff in Hex as [Hc Hex].
    constructor; [|now apply IH].
    intros z ->. unfold span_value in Ev.
    destruct c as [|n|s|l|d]; cbn [isna_test mbind result_bind] in Ev; try discriminate.
    + destruct (Nat.ltb 1 (List.length l)); cbn [mbind result_bind] in Ev; discriminate.
    + injection Ev as <-. rewrite py_sum_filter_None. exact Hc.
Qed.

Lemma mapM_to_float vs :
  Forall (fun v => forall z, v = PyInt z -> exact_float z = true) vs ->
  mapM to_float vs
  = Some (map (fun v => match v with PyInt z => fl z | PyNaN => nan end) vs).
Proof.
  induction 1 as [|v vs Hv _ IH]; [reflexivity|].
  cbn [mapM map]. rewrite IH. destruct v as [|z]; [reflexivity|].
  cbn [to_float]. now rewrite (Hv z eq_refl).
Qed.

(** The element type [np.array] picks when every total is exact. *)
Lemma np_array_cases vs :
  Forall (fun v => forall z, v = PyInt z -> exact_float z = true) vs ->
  (exists zs, vs <> [] /\ vs = map PyInt zs /\ np_array vs = Some (IntArray zs)) \/
  ((vs = [] \/ In PyNaN vs) /\
   np_array vs
   = Some (FloatArray (map (fun v => match v with PyInt z => fl z | PyNaN => nan end) vs))).
Proof.
  intros Hex. unfold np_array. rewrite (mapM_to_float vs Hex).
  assert (H : (exists zs, vs = map PyInt zs /\ all_int vs = Some zs) \/
              (In PyNaN vs /\ all_int vs = None)).
  { clear Hex. induction vs as [|v vs IH]; [left; exists []; auto|].
    unfold all_int in *. cbn [mapM].
    destruct v as [|z].
    - right. split; [now left | reflexivity].
    - cbn [to_int mbind option_bind]. destruct IH as [(zs & -> & ->)|[Hin ->]].
      + left. exists (z :: zs). auto.
      + right. split; [now right | reflexivity]. }
  destruct vs as [|v vs]; [right; auto|].
  destruct H as [(zs & Heq & ->)|[Hin ->]].
  - left. exists zs. split; [discriminate|]. split; [exact Heq|].
    assert (Hfits : forallb fits_int64 zs = true).
    { apply forallb_forall. intros z Hz. apply exact_float_fits_int64.
      rewrite Heq in Hex. rewrite List.Forall_forall in Hex.
      apply (Hex (PyInt z)); [now apply in_map | reflexivity]. }
    now rewrite Hfits.
  - right. auto.
Qed.

(** Whenever the method returns on totals that are exact, the array is
    a float array with one entry per row, and a present mapping whose
    truthy values sum to 0 stands as [nan]. *)
Lemma getArrayOfSumsOfOpeningHoursSpans_returns np_wide df a :
  exact_totals df = true ->
  getArrayOfSumsOfOpeningHoursSpans np_wide df = Ok a ->
  exists xs, a = FloatArray xs /\ List.length xs = len df /\
    forall i r d, nth_error (rows df) i = Some r ->
      cell_at (columns df) (snd r) "opening_hours_span" = Dict d ->
      py_sum (filter_None (map snd d)) = 0 ->
      nth_error xs i = Some nan.
Proof.
  unfold exact_totals, column_cells, getArrayOfSumsOfOpeningHoursSpans, getattr_column, cell_at.
  destruct (col_pos (columns df) "opening_hours_span") as [p|]; [|discriminate].
  cbn [mbind result_bind]. rewrite map_map. cbn [snd]. intros Hex.
  destruct (spans_loop _ []) as [vs|e] eqn:Hloop; [|discriminate].
  cbn [mbind result_bind]. intros Hset.
  destruct (spans_loop_spec _ _ Hloop) as [Hlen Hnth]. rewrite length_map in Hlen.
  destruct (np_array_cases vs (spans_loop_exact _ _ Hloop Hex))
    as [(zs & _ & _ & Harr)|[_ Harr]]; rewrite Harr in Hset; cbn [set_zero_to_nan] in Hset;
    [discriminate|].
  injection Hset as <-. eexists. split; [reflexivity|].
  split; [now rewrite !length_map|].
  intros i r d Hi Hcell Hsum.
  destruct (Hnth i (nth p (snd r) NA)) as [Hv Hlt].
  { now rewrite nth_error_map, Hi. }
  rewrite Hcell in Hv. cbn [span_value isna_test mbind result_bind] in Hv.
  injection Hv as Hv.
  rewrite Hsum in Hv.
  rewrite nth_error_map, nth_error_map, (nth_error_nth' vs PyNaN Hlt), <- Hv. reflexivity.
Qed.

(** It raises when every row has a mapping with an exact total: the
    list holds integers only. *)
Lemma getArrayOfSumsOfOpeningHoursSpans_all_present np_wide df span :
  getattr_column df "opening_hours_span" = Ok span ->
  span <> [] ->
  Forall (fun c => exists d, snd c = Dict d) span ->
  exact_totals df = true ->
  getArrayOfSumsOfOpeningHoursSpans np_wide df = Raise ValueError.
Proof.
  intros Hcol Hne Hall Hex. unfold exact_totals in Hex.
  rewrite <- (getattr_column_cells _ _ _ Hcol) in Hex.
  unfold getArrayOfSumsOfOpeningHoursSpans. rewrite Hcol.
  cbn [mbind result_bind].
  assert (H : exists zs, spans_loop (map snd span) [] = Ok (map PyInt zs) /\
                         List.length zs = List.length span).
  { clear Hcol Hne Hex. induction Hall as [|[l c] span [dd Hc] _ IH]; [exists []; auto|].
    cbn [snd] in Hc. subst c. destruct IH as (zs & IH & Hlen).
    cbn [map snd]. rewrite spans_loop_cons. cbn [span_value isna_test mbind result_bind].
    rewrite IH. cbn [mbind result_bind]. eexists (_ :: zs). split; [reflexivity | cbn; lia]. }
  destruct H as (zs & Hloop & Hlen). rewrite Hloop. cbn [mbind result_bind].
  destruct (np_array_cases (map PyInt zs) (spans_loop_exact _ _ Hloop Hex))
    as [(zs' & _ & _ & ->)|[[Hnil|Hin] _]].
  - reflexivity.
  - destruct zs; [|discriminate]. destruct span; [contradiction | discriminate].
  - apply in_map_iff in Hin as (z & Hz & _). discriminate.
Qed.

(** It returns when some row has no mapping and the totals are exact. *)
Lemma getArrayOfSumsOfOpeningHoursSpans_some_missing np_wide df span :
  getattr_column df "opening_hours_span" = Ok span ->
  In NA (map snd span) ->
  Forall span_cell (map snd span) ->
  exact_totals df = true ->
  exists a, getArrayOfSumsOfOpeningHoursSpans np_wide df = Ok a.
Proof.
  intros Hcol Hin Hall Hex. unfold exact_totals in Hex.
  rewrite <- (getattr_column_cells _ _ _ Hcol) in Hex.
  unfold getArrayOfSumsOfOpeningHoursSpans. rewrite Hcol.
  cbn [mbind result_bind].
  assert (H : exists vs, spans_loop (map snd span) [] = Ok vs /\ In PyNaN vs).
  { clear Hcol Hex. induction (map snd span) as [|c cells IH]; [destruct Hin|].
    apply Forall_cons in Hall as [Hc Hall]. rewrite spans_loop_cons.
    assert (Hrest : exists vs, spans_loop cells [] = Ok vs).
    { clear IH Hin Hc. induction cells as [|c' cells IH]; [eexists; reflexivity|].
      apply Forall_cons in Hall as [Hc' Hall]. destruct (IH Hall) as [vs Hvs].
      rewrite spans_loop_cons, Hvs.
      destruct Hc' as [->|[d ->]]; eexists; reflexivity. }
    destruct Hin as [->|Hin].
    - destruct Hrest as [vs ->]. eexists. split; [reflexivity | now left].
    - destruct (IH Hin Hall) as (vs & -> & Hvs).
      destruct Hc as [->|[d ->]]; eexists; (split; [reflexivity | now right]). }
  destruct H as (vs & Hloop & Hvs). rewrite Hloop. cbn [mbind result_bind].
  destruct (np_array_cases vs (spans_loop_exact _ _ Hloop Hex))
    as [(zs & _ & -> & _)|[_ ->]].
  - apply in_map_iff in Hvs as (z & Hz & _). discriminate.
  - eexists. reflexivity.
Qed.

(** C8.  The claim asks for [nan] at a row whose present durations sum
    to 0, in an array as long as the table; on a table whose only row
    has the mapping [{'Monday': None}] the sum is the integer 0, the
    array is an integer array, and writing [nan] into it raises
    [ValueError]. *)
Theorem getArrayOfSumsOfOpeningHoursSpans_raises_ValueError :
  forall np_wide : list pynum -> result ndarray,
  getArrayOfSumsOfOpeningHoursSpans np_wide
    (raw spec_columns
       [make_row spec_columns
          [("name", Str "U Fleku"); ("district", Str "Praha 1");
           ("ratings", Num 90); ("review_count", Num 12);
           ("opening_hours_span", Dict [("Monday", None)]); ("phones", StrList [])]])
  = Raise ValueError.
Proof. intros np_wide. vm_compute. reflexivity. Qed.

(** * Reviews and ratings *)

(** C7.  The claim restricts the tie counts to rows with a review; on
    the table below the line for the lowest rating counts 2 restaurants
    at rating 50, one of them without any review, while one reviewed
    restaurant has that rating.  Mean, minimum and maximum are those of
    the reviewed rows. *)
Theorem interpretReviewsAndRatings_counts_rows_without_review :
  let df := raw spec_columns
              [make_row spec_columns
                 [("name", Str "A"); ("ratings", Num 50); ("review_count", Num 0);
                  ("phones", StrList [])];
               make_row spec_columns
                 [("name", Str "B"); ("ratings", Num 50); ("review_count", Num 3);
                  ("phones", StrList [])];
               make_row spec_columns
                 [("name", Str "C"); ("ratings", Num 80); ("review_count", Num 1);
                  ("phones", StrList [])]] in
  interpretReviewsAndRatings df false
  = ([AtLeastOneReview 2; HighestNumberOfReviews 3 1; MeanRating 130 2;
      LowestRating 50 2; HighestRating 80 1], Ok tt) /\
  reviewed_ratings df = [50; 80] /\
  count_eq 50 (reviewed_ratings df) = 1%nat.
Proof. cbv zeta. repeat split; vm_compute; reflexivity. Qed.

(** * Email providers: an address without a match *)

(** [None.group(0)] raises [AttributeError], which
    [except ValueError] lets through. *)
Lemma providers_loop_no_match s cells email_providers :
  re_search email_pattern s = None ->
  providers_loop (Str s :: cells) email_providers = Raise AttributeError.
Proof.
  intros Hs. cbn [providers_loop isna_test mbind result_bind].
  unfold extract_provider. now rewrite Hs.
Qed.

(** C4.  The claim asks that an address without a match be skipped;
    ["foo@localhost"] has no match and [getEmailProvidersCounts] raises
    [AttributeError] on a table that holds it. *)
Theorem getEmailProvidersCounts_raises_AttributeError :
  re_search email_pattern "foo@localhost" = None /\
  getEmailProvidersCounts
    (raw spec_columns
       [make_row spec_columns
          [("name", Str "U Fleku"); ("district", Str "Praha 1");
           ("ratings", Num 90); ("review_count", Num 12);
           ("phones", StrList []); ("email_address", Str "foo@localhost")]])
  = Raise AttributeError.
Proof. split; vm_compute; reflexivity. Qed.

(** * Email providers: the counts *)

Section Dict.

Lemma dict_get_set_eq d k v : dict_get (dict_set d k v) k = Some v.
Proof.
  induction d as [|[k' v'] d IH]; cbn [dict_set dict_get].
  - now rewrite String.eqb_refl.
  - destruct (String.eqb k k') eqn:E; cbn [dict_get]; rewrite E; auto.
Qed.

Lemma dict_get_set_ne d k k' v : k <> k' -> dict_get (dict_set d k v) k' = dict_get d k'.
Proof.
  intros Hne. induction d as [|[k0 v0] d IH]; cbn [dict_set dict_get].
  - destruct (String.eqb_spec k' k); congruence.
  - destruct (String.eqb_spec k k0) as [->|Hk]; cbn [dict_get].
    + destruct (String.eqb_spec k' k0); congruence.
    + now rewrite IH.
Qed.

Lemma dict_get_None d k : dict_get d k = None <-> ~ In k (map fst d).
Proof.
  induction d as [|[k' v'] d IH]; cbn [dict_get map fst In]; [tauto|].
  destruct (String.eqb_spec k k') as [->|Hne]; [split; [discriminate | tauto]|].
  rewrite IH. intuition congruence.
Qed.

Lemma dict_set_fresh d k v : ~ In k (map fst d) -> dict_set d k v = (d ++ [(k, v)])%list.
Proof.
  induction d as [|[k' v'] d IH]; cbn [dict_set map fst In app]; intros Hk; [reflexivity|].
  destruct (String.eqb_spec k k') as [->|Hne]; [tauto|]. rewrite IH; tauto.
Qed.

Lemma dict_set_keys d k v :
  map fst (dict_set d k v)
  = if dict_get d k is Some _ then map fst d else (map fst d ++ [k])%list.
Proof.
  induction d as [|[k' v'] d IH]; cbn [dict_set dict_get map fst app]; [reflexivity|].
  destruct (String.eqb_spec k k') as [->|Hne]; [reflexivity|].
  cbn [map fst]. rewrite IH. now destruct (dict_get d k).
Qed.

Lemma dict_set_NoDup d k v : NoDup (map fst d) -> NoDup (map fst (dict_set d k v)).
Proof.
  intros Hd. rewrite dict_set_keys. destruct (dict_get d k) eqn:E; [exact Hd|].
  apply dict_get_None in E. apply NoDup_app. split; [exact Hd|]. split.
  - intros x Hx [->|[]]%list_elem_of_In. apply E. now apply list_elem_of_In.
  - apply NoDup_singleton.
Qed.

Lemma dict_get_In d k v : NoDup (map fst d) -> In (k, v) d -> dict_get d k = Some v.
Proof.
  induction d as [|[k' v'] d IH]; cbn [map fst In dict_get]; intros Hd Hin; [tauto|].
  apply NoDup_cons in Hd as [Hk' Hd].
  destruct Hin as [[= -> ->]|Hin]; [now rewrite String.eqb_refl|].
  destruct (String.eqb_spec k k') as [->|Hne]; [|now apply IH].
  exfalso. apply Hk'. apply list_elem_of_In. apply (in_map fst) in Hin. exact Hin.
Qed.

Lemma dict_get_Some_In d k v : dict_get d k = Some v -> In (k, v) d.
Proof.
  induction d as [|[k' v'] d IH]; cbn [dict_get In]; [discriminate|].
  destruct (String.eqb_spec k k') as [->|Hne]; [intros [= ->]; now left | auto].
Qed.

Lemma counter_fold_NoDup l : forall acc,
  NoDup (map fst acc) -> NoDup (map fst (fold_left counter_step l acc)).
Proof.
  induction l as [|k l IH]; intros acc Hacc; [exact Hacc|].
  cbn [fold_left]. apply IH. now apply dict_set_NoDup.
Qed.

Lemma counter_fold_get l : forall acc k,
  dict_get (fold_left counter_step l acc) k =
  match dict_get acc k, count_occ string_dec l k with
  | None, O => None
  | o, n => Some (default O o + n)%nat
  end.
Proof.
  induction l as [|k' l IH]; intros acc k; cbn [fold_left count_occ].
  - destruct (dict_get acc k); unfold default, id; [f_equal; lia | reflexivity].
  - rewrite IH. unfold counter_step at 1.
    destruct (string_dec k' k) as [->|Hne].
    + rewrite dict_get_set_eq. destruct (string_dec k k) as [_|Hk]; [|congruence].
      destruct (dict_get acc k); unfold default, id; f_equal; lia.
    + rewrite dict_get_set_ne by exact Hne. reflexivity.
Qed.

Lemma Counter_NoDup l : NoDup (map fst (Counter l)).
Proof. apply (counter_fold_NoDup l []). constructor. Qed.

Lemma Counter_get l k :
  dict_get (Counter l) k =
  match count_occ string_dec l k with
  | O => None
  | n => Some n
  end.
Proof.
  unfold Counter. rewrite counter_fold_get. cbn [dict_get default]. now destruct (count_occ _ _ _).
Qed.

End Dict.

Section Sorting.

Lemma insert_by_value_perm x l : Permutation (x :: l) (insert_by_value x l).
Proof.
  induction l as [|y l IH]; cbn [insert_by_value]; [reflexivity|].
  destruct (Nat.leb (snd x) (snd y)); [reflexivity|].
  rewrite perm_swap. now apply perm_skip.
Qed.

Lemma sorted_by_value_perm l : Permutation l (sorted_by_value l).
Proof.
  induction l as [|x l IH]; [reflexivity|].
  cbn [sorted_by_value fold_right]. rewrite <- insert_by_value_perm. now apply perm_skip.
Qed.

Lemma insert_by_value_sorted x l :
  StronglySorted value_le l -> StronglySorted value_le (insert_by_value x l).
Proof.
  induction 1 as [|y l Hl IH Hy]; cbn [insert_by_value]; [repeat constructor|].
  destruct (Nat.leb_spec (snd x) (snd y)) as [Hle|Hgt].
  - constructor; [now constructor|]. constructor; [exact Hle|].
    eapply List.Forall_impl; [|exact Hy]. unfold value_le. intros; lia.
  - constructor; [exact IH|].
    eapply Permutation_Forall; [apply insert_by_value_perm|].
    constructor; [unfold value_le; lia | exact Hy].
Qed.

Lemma sorted_by_value_sorted l : StronglySorted value_le (sorted_by_value l).
Proof.
  induction l as [|x l IH]; [constructor|].
  cbn [sorted_by_value fold_right]. now apply insert_by_value_sorted.
Qed.

Lemma dict_of_items_fold items : forall acc,
  NoDup (map fst (acc ++ items)) ->
  fold_left (fun d kv => dict_set d (fst kv) (snd kv)) items acc = (acc ++ items)%list.
Proof.
  induction items as [|[k v] items IH]; intros acc Hnd; cbn [fold_left fst snd].
  - now rewrite app_nil_r.
  - rewrite dict_set_fresh.
    + rewrite IH; rewrite <- app_assoc; [reflexivity | exact Hnd].
    + rewrite map_app in Hnd. cbn [map fst] in Hnd.
      apply NoDup_app in Hnd as (_ & Hdisj & _).
      intros Hin. apply (Hdisj k); [now apply list_elem_of_In | left].
Qed.

Lemma dict_of_items_NoDup items : NoDup (map fst items) -> dict_of_items items = items.
Proof. intros Hnd. unfold dict_of_items. now rewrite dict_of_items_fold. Qed.

Lemma list_count_perm x l l' : Permutation l l' -> list_count x l = list_count x l'.
Proof.
  unfold list_count. induction 1 as [|y l l' _ IH|y z l|l l' l'' _ IH1 _ IH2];
    cbn [List.filter]; try reflexivity.
  - destruct (Nat.eqb x y); cbn [List.length]; now rewrite IH.
  - now destruct (Nat.eqb x y), (Nat.eqb x z).
  - congruence.
Qed.

End Sorting.

(** The counter holds one entry per distinct provider, with its number of
    occurrences. *)
Lemma Counter_perm l :
  Permutation (Counter l)
              (map (fun p => (p, count_occ string_dec l p)) (nodup string_dec l)).
Proof.
  apply NoDup_Permutation.
  - apply (NoDup_fmap_1 fst), Counter_NoDup.
  - apply NoDup_fmap_2; [intros p q [= ->]; reflexivity|].
    apply NoDup_ListNoDup, NoDup_nodup.
  - intros [k v]. rewrite !list_elem_of_In. rewrite in_map_iff. split.
    + intros Hin. apply dict_get_In in Hin; [|apply Counter_NoDup].
      rewrite Counter_get in Hin. exists k.
      destruct (count_occ string_dec l k) eqn:E; [discriminate|].
      injection Hin as <-. split; [reflexivity|].
      apply nodup_In, (count_occ_In string_dec). rewrite E. lia.
    + intros (p & [= -> <-] & Hp). apply dict_get_Some_In. rewrite Counter_get.
      apply nodup_In, (count_occ_In string_dec) in Hp.
      destruct (count_occ string_dec l k); [lia | reflexivity].
Qed.

Lemma values_seen_once l :
  list_count 1 (map snd (Counter l)) = providers_seen_once l.
Proof.
  rewrite (list_count_perm _ _ _ (Permutation_map snd (Counter_perm l))).
  unfold providers_seen_once, list_count.
  induction (nodup string_dec l) as [|p ps IH]; [reflexivity|].
  cbn [map snd List.filter].
  rewrite (Nat.eqb_sym 1). destruct (Nat.eqb _ 1); cbn [List.length]; now rewrite IH.
Qed.

Lemma providers_loop_matching cells : forall email_providers,
  Forall matching_email cells ->
  providers_loop cells email_providers
  = Ok (email_providers ++ flat_map provider_of_cell cells)%list.
Proof.
  induction cells as [|c cells IH]; intros acc Hall.
  - cbn. now rewrite app_nil_r.
  - apply Forall_cons in Hall as [Hc Hall]. cbn [providers_loop flat_map].
    destruct Hc as [->|(s & -> & Hs)].
    + cbn [isna_test provider_of_cell mbind result_bind]. now rewrite IH.
    + cbn [isna_test provider_of_cell mbind result_bind]. unfold extract_provider.
      destruct (re_search email_pattern s) as [value|]; [|congruence].
      cbn [mbind result_bind try_except]. rewrite IH by exact Hall.
      now rewrite <- app_assoc.
Qed.

(** C9.  When every present address has a match, the mapping that
    [getEmailProvidersCounts] returns associates with ["Own domain"] the
    number of distinct providers that occur exactly once, and its entries
    are in ascending order of count. *)
Theorem getEmailProvidersCounts_own_domain (df : DataFrame) email_address :
  getattr_column df "email_address" = Ok email_address ->
  Forall matching_email (map snd email_address) ->
  exists counts,
    getEmailProvidersCounts df = Ok counts /\
    dict_get counts "Own domain" = Some (providers_seen_once (extracted_providers df)) /\
    StronglySorted value_le counts.
Proof.
  intros Hcol Hall. unfold getEmailProvidersCounts. rewrite Hcol. cbn [mbind result_bind].
  rewrite (providers_loop_matching _ [] Hall). cbn [mbind result_bind app].
  assert (Hprov : flat_map provider_of_cell (map snd email_address) = extracted_providers df).
  { clear Hall. unfold getattr_column, extracted_providers, cell_at in *.
    destruct (col_pos (columns df) "email_address") as [p|]; [|discriminate].
    injection Hcol as <-. rewrite map_map. cbn [snd].
    induction (rows df) as [|r rs IH]; [reflexivity|]. cbn [map flat_map]. now rewrite IH. }
  rewrite Hprov. set (providers := extracted_providers df).
  set (counts := dict_set (Counter providers) "Own domain"
                   (list_count 1 (map snd (Counter providers)))).
  assert (Hnd : NoDup (map fst counts)).
  { unfold counts. apply dict_set_NoDup. apply Counter_NoDup. }
  assert (Hnd' : NoDup (map fst (sorted_by_value counts))).
  { now rewrite <- (sorted_by_value_perm counts). }
  eexists. split; [reflexivity|]. rewrite (dict_of_items_NoDup _ Hnd').
  split; [|apply sorted_by_value_sorted].
  apply dict_get_In; [exact Hnd'|].
  eapply Permutation_in; [apply sorted_by_value_perm|].
  apply dict_get_Some_In. unfold counts. rewrite dict_get_set_eq. f_equal.
  apply values_seen_once.
Qed.

(** The theorem on four rows: seznam twice, ufleku once, one row
    without an address. *)
Lemma getEmailProvidersCounts_own_domain_witness :
  let df := raw spec_columns
              [make_row spec_columns [("name", Str "A"); ("email_address", Str "a@seznam.cz")];
               make_row spec_columns [("name", Str "B"); ("email_address", Str "b@seznam.cz")];
               make_row spec_columns [("name", Str "C"); ("email_address", Str "info@ufleku.cz")];
               make_row spec_columns [("name", Str "D")]] in
  exists counts,
    getEmailProvidersCounts df = Ok counts /\
    dict_get counts "Own domain" = Some 1%nat /\
    StronglySorted value_le counts.
Proof.
  cbv zeta.
  refine (getEmailProvidersCounts_own_domain _ _ _ _).
  - vm_compute. reflexivity.
  - cbn [map snd].
    repeat (apply List.Forall_cons;
            [first [now left | right; eexists; split; [reflexivity | vm_compute; discriminate]]|]).
    apply List.Forall_nil.
Defined.

(** * Row viewer *)

Lemma slice_list_all {A} (l : list A) (n : Z) :
  Z.of_nat (List.length l) <= n -> slice_list l None (Some n) = l.
Proof.
  intros Hn. unfold slice_list, slice_bound.
  destruct (Z.ltb_spec n 0) as [H|H]; [lia|].
  rewrite Z.min_r by lia. rewrite Z.sub_0_r, Nat2Z.id. cbn [Z.to_nat skipn].
  apply firstn_all.
Qed.

Lemma slice_list_from_far_left {A} (l : list A) (n : Z) :
  0 < n -> Z.of_nat (List.length l) <= n -> slice_list l (Some (- n)) None = l.
Proof.
  intros Hpos Hn. unfold slice_list, slice_bound.
  destruct (Z.ltb_spec (- n) 0) as [H|H]; [|lia].
  rewrite Z.max_l by lia. rewrite Z.sub_0_r, Nat2Z.id. cbn [Z.to_nat skipn].
  apply firstn_all.
Qed.

(** A count of at least the number of rows already gives the whole
    table. *)
Lemma showRows_whole_table (PyObject : Type) (py_int : PyObject -> result Z)
    (self_dataset : DataFrame) (no_of_rows : PyObject) (n : Z) :
  py_int no_of_rows = Ok n ->
  Z.of_nat (len self_dataset) <= Z.abs n ->
  showRows PyObject py_int self_dataset no_of_rows = Ok self_dataset.
Proof.
  intros Hint Hn. unfold showRows. rewrite Hint. cbn [mbind result_bind].
  destruct self_dataset as [cols rs]. unfold len in Hn. cbn [rows] in Hn.
  destruct (Z.leb_spec 0 n) as [Hpos|Hneg]; f_equal.
  - unfold head, iloc. cbn [rows columns]. f_equal. apply slice_list_all. lia.
  - unfold tail. destruct (Z.eqb_spec (Z.abs n) 0) as [H0|_]; [lia|].
    unfold iloc. cbn [rows columns]. f_equal. apply slice_list_from_far_left; lia.
Qed.

(** C10.  For an argument that [int] converts to [n] with [|n|] above
    the number of rows, [showRows] returns the whole table, rows in
    their stored order, for positive and for negative [n]. *)
Theorem showRows_beyond_length (PyObject : Type) (py_int : PyObject -> result Z)
    (self_dataset : DataFrame) (no_of_rows : PyObject) (n : Z) :
  py_int no_of_rows = Ok n ->
  Z.of_nat (len self_dataset) < Z.abs n ->
  showRows PyObject py_int self_dataset no_of_rows = Ok self_dataset.
Proof.
  intros Hint Hn. apply (showRows_whole_table _ _ _ _ n Hint). lia.
Qed.

(** The theorem on a two-row table, at 3 and at -3. *)
Lemma showRows_beyond_length_witness :
  let df := raw spec_columns
              [make_row spec_columns [("name", Str "A"); ("ratings", Num 50); ("review_count", Num 2)];
               make_row spec_columns [("name", Str "B"); ("ratings", Num 70); ("review_count", Num 3)]] in
  showRows Z Ok df 3 = Ok df /\ showRows Z Ok df (-3) = Ok df.
Proof.
  cbv zeta. split.
  - apply (showRows_beyond_length Z Ok _ 3 3); [reflexivity | vm_compute; reflexivity].
  - apply (showRows_beyond_length Z Ok _ (-3) (-3)); [reflexivity | vm_compute; reflexivity].
Defined.


(** * Filtering: tables the test never fires on, and a table without
    review counts *)

Lemma sum_isna_map_le (f : string -> cell) (l : list string) :
  (sum_isna (map f l) <= List.length l)%nat.
Proof.
  rewrite <- (length_map f l). apply sum_isna_le.
Qed.

Lemma kept_rows_all cols rs :
  Forall (fun r => dropped_row cols (snd r) = false) rs -> kept_rows cols rs = rs.
Proof.
  induction 1 as [|r rs Hr _ IH]; [reflexivity|].
  unfold kept_rows in *. cbn [List.filter]. rewrite Hr. cbn [negb]. now rewrite IH.
Qed.

Lemma col_pos_None cols c : ~ In c cols -> col_pos cols c = None.
Proof.
  induction cols as [|c' cols IH]; intros Hin; [reflexivity|].
  cbn [col_pos]. destruct (String.eqb_spec c c') as [->|Hne].
  - exfalso. apply Hin. now left.
  - rewrite IH; [reflexivity|]. intros H. apply Hin. now right.
Qed.

(** X1.  On a raw table with a review_count column and fewer than
    twelve columns besides name, ratings and review_count,
    [removeEmptyObservations] drops no row: it returns the table it was
    given and the store is as before. *)
Theorem removeEmptyObservations_few_columns (h : heap) (d : ref) cols data :
  h !! d = Some (raw cols data) ->
  In "review_count" cols ->
  (List.length (indic_of cols) < 12)%nat ->
  removeEmptyObservations d h = (Ok d, h).
Proof.
  intros Hd Hin Hlen. destruct (col_pos_In _ _ Hin) as [p Hp].
  rewrite (removeEmptyObservations_raw d cols p Hp h data Hd).
  rewrite kept_rows_all.
  - f_equal. now apply insert_id.
  - apply Forall_forall. intros r _. unfold dropped_row.
    pose proof (sum_isna_map_le (cell_at cols (snd r)) (indic_of cols)) as Hle.
    destruct (Nat.eqb_spec (sum_isna (map (cell_at cols r.2) (indic_of cols))) 12);
      [lia | reflexivity].
Qed.

(** The theorem on the column set of section 3, with a row that has
    nothing but its name. *)
Lemma removeEmptyObservations_few_columns_witness :
  let T := raw spec_columns
             [make_row spec_columns
                [("name", Str "A"); ("ratings", Num 0); ("review_count", Num 0)]] in
  removeEmptyObservations 0%nat {[ 0%nat := T ]} = (Ok 0%nat, {[ 0%nat := T ]}).
Proof.
  cbv zeta.
  apply (removeEmptyObservations_few_columns _ 0%nat spec_columns
           [make_row spec_columns
              [("name", Str "A"); ("ratings", Num 0); ("review_count", Num 0)]]).
  - reflexivity.
  - simpl. tauto.
  - vm_compute. lia.
Defined.

(** X2.  On a raw table without a review_count column,
    [removeEmptyObservations] raises [AttributeError] at the first row
    and leaves the store as it was; only the table without rows gets
    through. *)
Theorem removeEmptyObservations_without_review_count (h : heap) (d : ref) cols data :
  h !! d = Some (raw cols data) ->
  ~ In "review_count" cols ->
  removeEmptyObservations d h
  = (match data with [] => Ok d | _ :: _ => Raise AttributeError end, h).
Proof.
  intros Hd Hin. unfold removeEmptyObservations.
  unfold bind_M at 1, read at 1. rewrite Hd.
  unfold bind_M at 1, read at 1. rewrite Hd.
  unfold bind_M at 1, for_range, raw, len. cbn [rows columns].
  rewrite label_from_length. destruct data as [|c data]; [reflexivity|].
  cbn [List.length seq for_each]. unfold bind_M at 1, filter_step at 1, bind_M at 1.
  unfold is_empty_observation, bind_M, read. rewrite Hd.
  unfold loc, raw. cbn [rows columns label_from List.length seq combine row_of Nat.eqb].
  rewrite Hd. unfold getattr_column, raw. cbn [columns].
  now rewrite (col_pos_None _ _ Hin).
Qed.

Lemma removeEmptyObservations_without_review_count_witness :
  let T := raw ["name"; "district"] [[Str "A"; Str "Praha 1"]] in
  removeEmptyObservations 0%nat {[ 0%nat := T ]} = (Raise AttributeError, {[ 0%nat := T ]}).
Proof.
  cbv zeta.
  apply (removeEmptyObservations_without_review_count _ 0%nat ["name"; "district"]
           [[Str "A"; Str "Praha 1"]]).
  - reflexivity.
  - simpl. intros [H|[H|[]]]; discriminate.
Defined.


(** * District counts: what the mapping holds *)

Lemma total_count_insert_fresh (m : gmap key nat) k v :
  m !! k = None -> total_count (<[k := v]> m) = (v + total_count m)%nat.
Proof.
  intros Hk. unfold total_count. rewrite map_fold_insert_L; [reflexivity | | exact Hk].
  intros. lia.
Qed.

Lemma total_count_delete (m : gmap key nat) k v :
  m !! k = Some v -> total_count m = (v + total_count (delete k m))%nat.
Proof.
  intros Hk. unfold total_count. rewrite (map_fold_delete_L _ _ k v m); [reflexivity | | exact Hk].
  intros. lia.
Qed.

Lemma total_count_incr (m : gmap key nat) k :
  total_count (<[k := S (default O (m !! k))]> m) = S (total_count m).
Proof.
  destruct (m !! k) as [v|] eqn:Hk; unfold default, id.
  - rewrite <- insert_delete_eq, total_count_insert_fresh by apply lookup_delete_eq.
    rewrite (total_count_delete m k v Hk). lia.
  - now rewrite total_count_insert_fresh.
Qed.

(** Every cell that is not missing is counted once. *)
Lemma value_counts_total cells : forall counts,
  value_counts cells = Ok counts ->
  (total_count counts + sum_isna cells = List.length cells)%nat.
Proof.
  induction cells as [|c cells IH]; intros counts Hvc.
  - injection Hvc as <-. reflexivity.
  - cbn [value_counts] in Hvc.
    destruct (value_counts cells) as [counts'|e] eqn:E; [|discriminate].
    cbn [mbind result_bind] in Hvc. specialize (IH counts' eq_refl).
    unfold sum_isna in *. cbn [List.filter List.length].
    destruct c as [|z|s|l|dd]; try discriminate; injection Hvc as <-; cbn [isna List.length].
    + lia.
    + rewrite total_count_incr. lia.
    + rewrite total_count_incr. lia.
Qed.

(** X3.  When [getDistrictCounts] returns, the counts it holds, the
    rows marked ["Not found"] and the rows without a district add up to
    the number of rows; there is at least one ["Not found"] row, so the
    counts sum to less than the number of rows. *)
Theorem getDistrictCounts_total df district_counts :
  getDistrictCounts df = Ok district_counts ->
  (total_count district_counts
   + occurrences (inl "Not found") (column_cells df "district")
   + sum_isna (column_cells df "district") = len df)%nat /\
  (total_count district_counts < len df)%nat.
Proof.
  unfold getDistrictCounts. intros H.
  destruct (getattr_column df "district") as [district|e] eqn:Hcol; [|discriminate].
  cbn [mbind result_bind] in H.
  destruct (value_counts (map snd district)) as [counts|e] eqn:Hvc; [|discriminate].
  cbn [mbind result_bind] in H. unfold series_drop in H.
  pose proof (value_counts_lookup _ _ (inl "Not found") Hvc) as Hlook.
  pose proof (value_counts_total _ _ Hvc) as Htot.
  rewrite (getattr_column_cells _ _ _ Hcol) in *.
  assert (Hlen : List.length (column_cells df "district") = len df).
  { unfold column_cells, len. apply length_map. }
  destruct (counts !! inl "Not found") as [v|] eqn:Hk; [|discriminate].
  injection H as <-. rewrite (total_count_delete counts _ v Hk) in Htot.
  destruct (Nat.eqb_spec (occurrences (inl "Not found") (column_cells df "district")) 0)
    as [H0|H0]; [discriminate|].
  injection Hlook as ->. lia.
Qed.

Lemma getDistrictCounts_total_witness :
  let df := raw spec_columns
              [make_row spec_columns [("name", Str "A"); ("district", Str "Praha 1")];
               make_row spec_columns [("name", Str "B"); ("district", Str "Not found")];
               make_row spec_columns [("name", Str "C"); ("district", Str "Praha 1")];
               make_row spec_columns [("name", Str "D")]] in
  exists district_counts,
    getDistrictCounts df = Ok district_counts /\
    (total_count district_counts + 1 + 1 = 4)%nat.
Proof.
  cbv zeta.
  destruct (value_counts [Str "Praha 1"; Str "Not found"; Str "Praha 1"; NA])
    as [counts|e] eqn:Hvc; [|cbn [value_counts mbind result_bind] in Hvc; discriminate].
  destruct (getDistrictCounts_with_sentinel
              (raw spec_columns
                 [make_row spec_columns [("name", Str "A"); ("district", Str "Praha 1")];
                  make_row spec_columns [("name", Str "B"); ("district", Str "Not found")];
                  make_row spec_columns [("name", Str "C"); ("district", Str "Praha 1")];
                  make_row spec_columns [("name", Str "D")]])
              [(0%nat, Str "Praha 1"); (1%nat, Str "Not found"); (2%nat, Str "Praha 1");
               (3%nat, NA)]
              counts eq_refl Hvc)
    as (district_counts & H1 & _).
  - simpl. tauto.
  - exists district_counts. split; [exact H1|].
    exact (proj1 (getDistrictCounts_total _ _ H1)).
Defined.


(** * Opening hours: the entries of the array *)

(** X4.  On a table whose totals are integers that a float holds
    exactly (at most [2^53] either way), whenever
    [getArrayOfSumsOfOpeningHoursSpans] returns, the array is a float
    array with one entry per row, in row order: [nan] for a row without
    a mapping and for a row whose present durations add up to 0, and
    that sum for every other row. *)
Theorem getArrayOfSumsOfOpeningHoursSpans_entries
    (np_wide : list pynum -> result ndarray) df a :
  exact_totals df = true ->
  getArrayOfSumsOfOpeningHoursSpans np_wide df = Ok a ->
  exists xs, a = FloatArray xs /\ List.length xs = len df /\
    forall i r, nth_error (rows df) i = Some r ->
      (cell_at (columns df) (snd r) "opening_hours_span" = NA /\
       nth_error xs i = Some nan) \/
      (exists d, cell_at (columns df) (snd r) "opening_hours_span" = Dict d /\
         nth_error xs i = Some (if Z.eqb (sum_present d) 0 then nan
                                else fl (sum_present d))).
Proof.
  unfold exact_totals, column_cells, getArrayOfSumsOfOpeningHoursSpans, getattr_column, cell_at.
  destruct (col_pos (columns df) "opening_hours_span") as [p|]; [|discriminate].
  cbn [mbind result_bind]. rewrite map_map. cbn [snd]. intros Hex.
  destruct (spans_loop _ []) as [vs|e] eqn:Hloop; [|discriminate].
  cbn [mbind result_bind]. intros Hset.
  destruct (spans_loop_spec _ _ Hloop) as [Hlen Hnth]. rewrite length_map in Hlen.
  destruct (np_array_cases vs (spans_loop_exact _ _ Hloop Hex))
    as [(zs & _ & _ & Harr)|[_ Harr]]; rewrite Harr in Hset; cbn [set_zero_to_nan] in Hset;
    [discriminate|].
  injection Hset as <-. eexists. split; [reflexivity|].
  split; [now rewrite !length_map|].
  intros i r Hi.
  destruct (Hnth i (nth p (snd r) NA)) as [Hv Hlt].
  { now rewrite nth_error_map, Hi. }
  rewrite nth_error_map, nth_error_map, (nth_error_nth' vs PyNaN Hlt).
  unfold span_value in Hv.
  destruct (nth p (snd r) NA) as [|z|s|l|d]; cbn [isna_test mbind result_bind] in Hv.
  - left. injection Hv as <-. split; reflexivity.
  - discriminate.
  - discriminate.
  - destruct (Nat.ltb 1 (List.length l)); cbn [mbind result_bind] in Hv; discriminate.
  - right. exists d. split; [reflexivity|]. injection Hv as <-.
    rewrite py_sum_filter_None. reflexivity.
Qed.

Lemma getArrayOfSumsOfOpeningHoursSpans_entries_witness :
  let df := raw spec_columns
              [make_row spec_columns [("name", Str "A")];
               make_row spec_columns
                 [("name", Str "B");
                  ("opening_hours_span", Dict [("Monday", Some 480); ("Tuesday", None)])];
               make_row spec_columns
                 [("name", Str "C"); ("opening_hours_span", Dict [("Monday", Some 0)])]] in
  exists xs,
    getArrayOfSumsOfOpeningHoursSpans (fun _ => Raise TypeError) df = Ok (FloatArray xs) /\
    List.length xs = len df /\
    nth_error xs 1 = Some (fl 480) /\ nth_error xs 2 = Some nan.
Proof.
  cbv zeta.
  destruct (getArrayOfSumsOfOpeningHoursSpans_entries
              (fun _ => Raise TypeError)
              (raw spec_columns
                 [make_row spec_columns [("name", Str "A")];
                  make_row spec_columns
                    [("name", Str "B");
                     ("opening_hours_span", Dict [("Monday", Some 480); ("Tuesday", None)])];
                  make_row spec_columns
                    [("name", Str "C"); ("opening_hours_span", Dict [("Monday", Some 0)])]])
              (FloatArray [nan; fl 480; nan]) eq_refl eq_refl)
    as (xs & Heq & Hlen & Hentries).
  exists xs. split; [now rewrite <- Heq|]. split; [exact Hlen|]. split.
  - destruct (Hentries 1%nat _ eq_refl) as [[H _]|(d & H & ->)]; [discriminate|].
    injection H as <-. reflexivity.
  - destruct (Hentries 2%nat _ eq_refl) as [[H _]|(d & H & ->)]; [discriminate|].
    injection H as <-. reflexivity.
Defined.

(** * Reviews and ratings: the printed summary *)

Lemma numeric_cells s zs : numeric s = Ok zs -> map snd s = map Num zs.
Proof.
  revert zs. induction s as [|[l c] s IH]; intros zs H.
  - injection H as <-. reflexivity.
  - cbn [numeric] in H. destruct c as [|z| | |]; try discriminate.
    destruct (numeric s) as [zs'|e]; [|discriminate].
    cbn [mbind result_bind] in H. injection H as <-.
    cbn [map snd]. now rewrite (IH zs' eq_refl).
Qed.

(** The ratings the mask selects are those of the rows with a
    review. *)
Lemma mask_select_reviewed (f1 f2 : nat * list cell -> cell) rs : forall rc rt,
  map f1 rs = map Num rc ->
  map f2 rs = map Num rt ->
  flat_map (fun r => match f1 r, f2 r with
                     | Num n, Num x => if Z.eqb n 0 then [] else [x]
                     | _, _ => []
                     end) rs
  = mask_select rt (map (fun x => negb (Z.eqb x 0)) rc).
Proof.
  induction rs as [|r rs IH]; intros rc rt H1 H2.
  - destruct rc; [|discriminate]. destruct rt; [reflexivity | discriminate].
  - destruct rc as [|n rc]; [discriminate|]. destruct rt as [|x rt]; [discriminate|].
    cbn [map] in H1, H2. injection H1 as Hn H1. injection H2 as Hx H2.
    cbn [flat_map map mask_select]. rewrite Hn, Hx, (IH rc rt H1 H2).
    now destruct (Z.eqb n 0).
Qed.

Lemma reviewed_ratings_mask df s1 s2 rc rt :
  getattr_column df "review_count" = Ok s1 -> numeric s1 = Ok rc ->
  getattr_column df "ratings" = Ok s2 -> numeric s2 = Ok rt ->
  mask_select rt (map (fun x => negb (Z.eqb x 0)) rc) = reviewed_ratings df.
Proof.
  intros H1 N1 H2 N2. symmetry. unfold reviewed_ratings.
  apply mask_select_reviewed.
  - fold (column_cells df "review_count").
    now rewrite <- (getattr_column_cells _ _ _ H1), (numeric_cells _ _ N1).
  - fold (column_cells df "ratings").
    now rewrite <- (getattr_column_cells _ _ _ H2), (numeric_cells _ _ N2).
Qed.

Lemma fold_min_spec l : forall x,
  let m := fold_left Z.min l x in
  In m (x :: l) /\ Forall (fun y => m <= y) (x :: l).
Proof.
  induction l as [|y l IH]; intros x; cbn [fold_left].
  - split; [now left | repeat constructor; lia].
  - destruct (IH (Z.min x y)) as [Hin Hall]. split.
    + destruct Hin as [Hm|Hin]; [|right; now right].
      rewrite <- Hm. destruct (Z.min_spec x y) as [[_ ->]|[_ ->]];
        [now left | right; now left].
    + apply Forall_cons in Hall as [Hm Hall].
      constructor; [lia|]. constructor; [lia | exact Hall].
Qed.

Lemma fold_max_spec l : forall x,
  let m := fold_left Z.max l x in
  In m (x :: l) /\ Forall (fun y => y <= m) (x :: l).
Proof.
  induction l as [|y l IH]; intros x; cbn [fold_left].
  - split; [now left | repeat constructor; lia].
  - destruct (IH (Z.max x y)) as [Hin Hall]. split.
    + destruct Hin as [Hm|Hin]; [|right; now right].
      rewrite <- Hm. destruct (Z.max_spec x y) as [[_ ->]|[_ ->]];
        [right; now left | now left].
    + apply Forall_cons in Hall as [Hm Hall].
      constructor; [lia|]. constructor; [lia | exact Hall].
Qed.

Lemma count_eq_In v l : In v l -> (1 <= count_eq v l)%nat.
Proof.
  unfold count_eq. induction l as [|x l IH]; intros Hin; [destruct Hin|].
  cbn [List.filter]. destruct (Z.eqb_spec v x) as [->|Hne]; [cbn; lia|].
  destruct Hin as [->|Hin]; [congruence | now apply IH].
Qed.

Lemma count_eq_mask_select v rt : forall mask,
  (count_eq v (mask_select rt mask) <= count_eq v rt)%nat.
Proof.
  unfold count_eq. induction rt as [|x rt IH]; intros mask; [reflexivity|].
  destruct mask as [|b mask]; cbn [mask_select List.filter]; [cbn; lia|].
  specialize (IH mask).
  destruct b; cbn [List.filter]; destruct (Z.eqb v x); cbn [List.length]; lia.
Qed.

Lemma count_nonzero_mask_select rt : forall rc,
  List.length rt = List.length rc ->
  List.length (mask_select rt (map (fun x => negb (Z.eqb x 0)) rc)) = count_nonzero rc.
Proof.
  unfold count_nonzero. induction rt as [|x rt IH]; intros [|n rc] Hlen; try discriminate.
  - reflexivity.
  - cbn [map mask_select List.filter]. injection Hlen as Hlen.
    destruct (negb (Z.eqb n 0)); cbn [List.length]; now rewrite IH.
Qed.


(** X5.  On a table without rows that has a review_count column,
    [interpretReviewsAndRatings] prints that 0 restaurants have a
    review and then raises [ValueError]: [max] has nothing to look
    at. *)
Theorem interpretReviewsAndRatings_no_rows df plot_hist :
  In "review_count" (columns df) ->
  rows df = [] ->
  interpretReviewsAndRatings df plot_hist = ([AtLeastOneReview 0], Raise ValueError).
Proof.
  intros Hin Hrows. destruct (col_pos_In _ _ Hin) as [p Hp].
  unfold interpretReviewsAndRatings, getattr_column. rewrite Hp, Hrows. reflexivity.
Qed.

Lemma interpretReviewsAndRatings_no_rows_witness :
  interpretReviewsAndRatings (raw spec_columns []) true
  = ([AtLeastOneReview 0], Raise ValueError).
Proof.
  apply interpretReviewsAndRatings_no_rows; [simpl; tauto | reflexivity].
Defined.

Lemma all_zero_max rc :
  rc <> [] -> Forall (fun n => n = 0) rc -> py_max rc = Ok 0.
Proof.
  intros Hne Hall. destruct rc as [|x rc]; [congruence|]. clear Hne.
  apply Forall_cons in Hall as [-> Hall]. cbn [py_max]. f_equal.
  induction Hall as [|y rc -> _ IH]; [reflexivity | exact IH].
Qed.

Lemma all_zero_count rc :
  Forall (fun n => n = 0) rc ->
  count_nonzero rc = 0%nat /\ count_eq 0 rc = List.length rc /\
  forall rt, mask_select rt (map (fun x => negb (Z.eqb x 0)) rc) = [].
Proof.
  unfold count_nonzero, count_eq.
  induction 1 as [|n rc -> _ (IH1 & IH2 & IH3)]; cbn [List.filter map List.length].
  - repeat split. now intros [|x rt].
  - cbn. rewrite IH1, IH2. repeat split. intros [|x rt]; [reflexivity|].
    cbn [mask_select]. apply IH3.
Qed.

(** X6.  On a table with rows none of which has a review,
    [interpretReviewsAndRatings] prints three lines (0 restaurants with
    a review, highest number of reviews 0 for every row, a mean over no
    rating) and raises [ValueError] at the lowest rating. *)
Theorem interpretReviewsAndRatings_no_review df plot_hist s1 rc s2 rt :
  getattr_column df "review_count" = Ok s1 -> numeric s1 = Ok rc ->
  getattr_column df "ratings" = Ok s2 -> numeric s2 = Ok rt ->
  rc <> [] ->
  Forall (fun n => n = 0) rc ->
  interpretReviewsAndRatings df plot_hist
  = ([AtLeastOneReview 0; HighestNumberOfReviews 0 (len df); MeanRating 0 0],
     Raise ValueError).
Proof.
  intros H1 N1 H2 N2 Hne Hall.
  destruct (all_zero_count rc Hall) as (Hnz & Hcount & Hmask).
  assert (Hlen : List.length rc = len df).
  { rewrite <- (length_map Num rc), <- (numeric_cells _ _ N1),
      (getattr_column_cells _ _ _ H1). unfold column_cells, len. apply length_map. }
  unfold interpretReviewsAndRatings. rewrite H1, H2. cbn [mbind result_bind].
  rewrite N1, N2. unfold lift_P, print. cbn [bind_P app].
  rewrite (all_zero_max rc Hne Hall). cbn [bind_P app].
  rewrite Hmask, Hnz, Hcount, Hlen. reflexivity.
Qed.

Lemma interpretReviewsAndRatings_no_review_witness :
  interpretReviewsAndRatings
    (raw ["name"; "ratings"; "review_count"]
       [[Str "A"; Num 0; Num 0]; [Str "B"; Num 0; Num 0]]) false
  = ([AtLeastOneReview 0; HighestNumberOfReviews 0 2; MeanRating 0 0], Raise ValueError).
Proof.
  apply (interpretReviewsAndRatings_no_review
           (raw ["name"; "ratings"; "review_count"]
              [[Str "A"; Num 0; Num 0]; [Str "B"; Num 0; Num 0]]) false
           [(0%nat, Num 0); (1%nat, Num 0)] [0; 0]
           [(0%nat, Num 0); (1%nat, Num 0)] [0; 0]);
    try reflexivity.
  - discriminate.
  - repeat constructor.
Defined.

(** X7.  On a table with numeric ratings and review counts in which
    some row has a review, [interpretReviewsAndRatings] completes.  The
    number of restaurants with a review is the number of rated rows it
    averages over; the lowest and highest ratings printed are the least
    and the greatest rating among the rows with a review; and each of
    the two counts printed beside them is at least the number of
    reviewed rows with that rating, hence at least 1. *)
Theorem interpretReviewsAndRatings_completes df plot_hist s1 rc s2 rt :
  getattr_column df "review_count" = Ok s1 -> numeric s1 = Ok rc ->
  getattr_column df "ratings" = Ok s2 -> numeric s2 = Ok rt ->
  Exists (fun n => n <> 0) rc ->
  exists most lowest highest,
    interpretReviewsAndRatings df plot_hist
    = (([AtLeastOneReview (List.length (reviewed_ratings df));
         HighestNumberOfReviews most (count_eq most rc);
         MeanRating (py_sum (reviewed_ratings df)) (List.length (reviewed_ratings df));
         LowestRating lowest (count_eq lowest rt);
         HighestRating highest (count_eq highest rt)]
        ++ (if plot_hist then [Histogram (reviewed_ratings df)] else []))%list, Ok tt) /\
    In most rc /\ Forall (fun n => n <= most) rc /\
    In lowest (reviewed_ratings df) /\ In highest (reviewed_ratings df) /\
    Forall (fun x => lowest <= x <= highest) (reviewed_ratings df) /\
    (1 <= count_eq lowest (reviewed_ratings df) <= count_eq lowest rt)%nat /\
    (1 <= count_eq highest (reviewed_ratings df) <= count_eq highest rt)%nat.
Proof.
  intros H1 N1 H2 N2 Hex.
  pose proof (reviewed_ratings_mask df s1 s2 rc rt H1 N1 H2 N2) as Hmask.
  assert (Hlen : List.length rt = List.length rc).
  { rewrite <- (length_map Num rt), <- (numeric_cells _ _ N2),
      (getattr_column_cells _ _ _ H2), <- (length_map Num rc), <- (numeric_cells _ _ N1),
      (getattr_column_cells _ _ _ H1). unfold column_cells. now rewrite !length_map. }
  pose proof (count_nonzero_mask_select rt rc Hlen) as Hnz. rewrite Hmask in Hnz.
  assert (Hne : reviewed_ratings df <> []).
  { intros Hnil. rewrite Hnil in Hnz. cbn in Hnz. unfold count_nonzero in Hnz.
    apply Exists_exists in Hex as (n & Hn & Hn0).
    assert (Hin : In n (List.filter (fun x => negb (Z.eqb x 0)) rc)).
    { apply filter_In. split; [now apply list_elem_of_In|].
      destruct (Z.eqb_spec n 0); [contradiction | reflexivity]. }
    destruct (List.filter _ rc); [destruct Hin | discriminate]. }
  assert (Hrc : rc <> []).
  { intros ->. inversion Hex. }
  destruct rc as [|n0 rc0] eqn:Erc; [congruence|].
  destruct (reviewed_ratings df) as [|x0 xs] eqn:Erev; [congruence|].
  destruct (fold_max_spec rc0 n0) as [Hmost_in Hmost_all].
  destruct (fold_min_spec xs x0) as [Hlow_in Hlow_all].
  destruct (fold_max_spec xs x0) as [Hhigh_in Hhigh_all].
  exists (fold_left Z.max rc0 n0), (fold_left Z.min xs x0), (fold_left Z.max xs x0).
  split.
  - unfold interpretReviewsAndRatings. rewrite H1, H2. cbn [mbind result_bind].
    rewrite N1, N2. unfold lift_P, print. cbn [bind_P app py_max].
    rewrite Hmask. cbn [bind_P app py_min py_max]. rewrite <- Hnz.
    destruct plot_hist; reflexivity.
  - split; [exact Hmost_in|]. split; [exact Hmost_all|].
    split; [exact Hlow_in|]. split; [exact Hhigh_in|]. split.
    + apply Forall_forall. intros x Hx. apply list_elem_of_In in Hx.
      rewrite Forall_forall in Hlow_all, Hhigh_all.
      split; [apply Hlow_all | apply Hhigh_all]; now apply list_elem_of_In.
    + rewrite <- Hmask. split; (split; [|apply count_eq_mask_select]);
        rewrite Hmask; now apply count_eq_In.
Qed.

Lemma interpretReviewsAndRatings_completes_witness :
  exists lowest highest n_low n_high,
    interpretReviewsAndRatings
      (raw ["name"; "ratings"; "review_count"]
         [[Str "A"; Num 50; Num 0]; [Str "B"; Num 50; Num 3]; [Str "C"; Num 80; Num 1]])
      false
    = ([AtLeastOneReview 2; HighestNumberOfReviews 3 1; MeanRating 130 2;
        LowestRating lowest n_low; HighestRating highest n_high], Ok tt) /\
    lowest <= highest.
Proof.
  destruct (interpretReviewsAndRatings_completes
              (raw ["name"; "ratings"; "review_count"]
                 [[Str "A"; Num 50; Num 0]; [Str "B"; Num 50; Num 3]; [Str "C"; Num 80; Num 1]])
              false
              [(0%nat, Num 0); (1%nat, Num 3); (2%nat, Num 1)] [0; 3; 1]
              [(0%nat, Num 50); (1%nat, Num 50); (2%nat, Num 80)] [50; 50; 80]
              eq_refl eq_refl eq_refl eq_refl)
    as (most & lowest & highest & Hrun & _ & _ & Hlow & _ & Hall & _).
  - apply Exists_cons_tl, Exists_cons_hd. discriminate.
  - exists 50, 80, 2%nat, 1%nat. split; [reflexivity | lia].
Defined.


(** * Dictionaries in insertion order *)

Section AssocFacts.

Context {K V : Type} `{EqDecision K}.

Lemma assoc_get_set_eq (d : list (K * V)) k v : assoc_get (assoc_set d k v) k = Some v.
Proof.
  induction d as [|[k' v'] d IH]; cbn [assoc_set assoc_get].
  - now rewrite decide_True.
  - destruct (decide (k = k')) as [->|Hne]; cbn [assoc_get].
    + now rewrite decide_True.
    + now rewrite decide_False.
Qed.

Lemma assoc_get_set_ne (d : list (K * V)) k k' v :
  k <> k' -> assoc_get (assoc_set d k v) k' = assoc_get d k'.
Proof.
  intros Hne. induction d as [|[k0 v0] d IH]; cbn [assoc_set assoc_get].
  - rewrite decide_False; [reflexivity | congruence].
  - destruct (decide (k = k0)) as [->|Hk]; cbn [assoc_get].
    + destruct (decide (k' = k0)); [congruence | reflexivity].
    + now rewrite IH.
Qed.

Lemma assoc_set_fresh (d : list (K * V)) k v :
  ~ In k (map fst d) -> assoc_set d k v = (d ++ [(k, v)])%list.
Proof.
  induction d as [|[k' v'] d IH]; cbn [assoc_set map fst In app]; intros Hk; [reflexivity|].
  destruct (decide (k = k')) as [->|Hne]; [tauto|]. rewrite IH; tauto.
Qed.

Lemma assoc_set_keys (d : list (K * V)) k v :
  map fst (assoc_set d k v)
  = if assoc_get d k is Some _ then map fst d else (map fst d ++ [k])%list.
Proof.
  induction d as [|[k' v'] d IH]; cbn [assoc_set assoc_get map fst app]; [reflexivity|].
  destruct (decide (k = k')) as [->|Hne]; [reflexivity|].
  cbn [map fst]. rewrite IH. now destruct (assoc_get d k).
Qed.

Lemma assoc_get_None (d : list (K * V)) k : assoc_get d k = None <-> ~ In k (map fst d).
Proof.
  induction d as [|[k' v'] d IH]; cbn [assoc_get map fst In]; [tauto|].
  destruct (decide (k = k')) as [->|Hne]; [split; [discriminate | tauto]|].
  rewrite IH. intuition congruence.
Qed.

Lemma assoc_set_NoDup (d : list (K * V)) k v :
  List.NoDup (map fst d) -> List.NoDup (map fst (assoc_set d k v)).
Proof.
  intros Hd. rewrite assoc_set_keys. destruct (assoc_get d k) eqn:E; [exact Hd|].
  apply assoc_get_None in E. apply NoDup_ListNoDup, NoDup_app.
  split; [now apply NoDup_ListNoDup|]. split.
  - intros x Hx [->|[]]%list_elem_of_In. apply E. now apply list_elem_of_In.
  - apply NoDup_singleton.
Qed.

(** Setting keys that are all new, one after the other, appends them. *)
Lemma assoc_fold_fresh {A} (f : A -> K) (g : A -> V) (l : list A) : forall acc,
  List.NoDup (map fst acc ++ map f l) ->
  fold_left (fun d a => assoc_set d (f a) (g a)) l acc
  = (acc ++ map (fun a => (f a, g a)) l)%list.
Proof.
  induction l as [|a l IH]; intros acc Hnd; cbn [fold_left map].
  - now rewrite app_nil_r.
  - cbn [map] in Hnd. rewrite assoc_set_fresh.
    + rewrite IH; [now rewrite <- app_assoc|].
      rewrite map_app. cbn [map fst]. now rewrite <- app_assoc.
    + intros Hin. apply List.NoDup_remove_2 in Hnd. apply Hnd.
      apply in_or_app. now left.
Qed.

End AssocFacts.


(** * Categorical counts *)

Lemma getitem_column_cells df c s :
  getitem_column df c = Ok s -> map snd s = column_cells df c.
Proof.
  unfold getitem_column, column_cells, cell_at.
  destruct (col_pos (columns df) c) as [p|]; [|discriminate].
  intros [= <-]. now rewrite map_map.
Qed.

Lemma getitem_column_Ok df c :
  In c (columns df) -> exists s, getitem_column df c = Ok s.
Proof.
  intros Hin. destruct (col_pos_In _ _ Hin) as [p Hp].
  unfold getitem_column. rewrite Hp. eauto.
Qed.

Lemma getitem_column_In df c s : getitem_column df c = Ok s -> In c (columns df).
Proof.
  unfold getitem_column. intros H.
  destruct (in_dec string_dec c (columns df)) as [Hin|Hin]; [exact Hin|].
  rewrite (col_pos_None _ _ Hin) in H. discriminate.
Qed.

Lemma collect_loop_app cells : forall demo_list,
  collect_loop cells demo_list = (demo_list ++ flat_map demo_items cells)%list.
Proof.
  induction cells as [|c cells IH]; intros acc; cbn [collect_loop flat_map].
  - now rewrite app_nil_r.
  - now rewrite IH, <- app_assoc.
Qed.

Section LowerFacts.

Variable py_lower : string -> string.

Lemma lower_all_strings l : lower_all py_lower (map Str l) = Ok (map py_lower l).
Proof.
  induction l as [|s l IH]; [reflexivity|].
  cbn [map lower_all]. now rewrite IH.
Qed.

Lemma lower_all_app a b :
  lower_all py_lower (a ++ b)
  = (x ← lower_all py_lower a; y ← lower_all py_lower b; Ok (x ++ y)%list).
Proof.
  induction a as [|c a IH]; cbn [app lower_all mbind result_bind].
  - now destruct (lower_all py_lower b).
  - destruct c; try reflexivity. rewrite IH.
    destruct (lower_all py_lower a); [|reflexivity]. cbn [mbind result_bind].
    now destruct (lower_all py_lower b).
Qed.

Lemma lower_all_demo_items c :
  lower_all py_lower (demo_items c)
  = match c with
    | Num _ | Dict _ => Raise AttributeError
    | _ => Ok (map py_lower (cell_strings c))
    end.
Proof.
  destruct c; cbn [demo_items cell_strings]; try reflexivity.
  apply lower_all_strings.
Qed.

Lemma lower_all_collected cells :
  Forall category_cell cells ->
  lower_all py_lower (flat_map demo_items cells)
  = Ok (map py_lower (flat_map cell_strings cells)).
Proof.
  induction 1 as [|c cells Hc _ IH]; [reflexivity|].
  cbn [flat_map]. rewrite lower_all_app, lower_all_demo_items, IH, map_app.
  destruct Hc as [->|[[s ->]|[l ->]]]; reflexivity.
Qed.

Lemma lower_all_collected_inv cells ls :
  lower_all py_lower (flat_map demo_items cells) = Ok ls ->
  Forall category_cell cells.
Proof.
  revert ls. induction cells as [|c cells IH]; intros ls H; [constructor|].
  cbn [flat_map] in H. rewrite lower_all_app, lower_all_demo_items in H.
  destruct (lower_all py_lower (flat_map demo_items cells)) as [ls'|e] eqn:E.
  - constructor; [|now apply (IH ls')].
    destruct c; try discriminate; unfold category_cell; eauto.
  - destruct c; discriminate.
Qed.

(** The loop on columns that are all there and hold strings, lists of
    strings or nothing. *)
Lemma categorical_data_loop_Ok df cols : forall acc,
  (forall c, In c cols ->
     In c (columns df) /\ Forall category_cell (column_cells df c)) ->
  List.NoDup (map fst acc ++ cols) ->
  categorical_data_loop py_lower df cols acc
  = Ok (acc ++ map (fun c => (c, lowered_values py_lower df c)) cols)%list.
Proof.
  induction cols as [|c cols IH]; intros acc Hok Hnd; cbn [categorical_data_loop map].
  - now rewrite app_nil_r.
  - destruct (Hok c (or_introl eq_refl)) as [Hin Hcells].
    destruct (getitem_column_Ok df c Hin) as [s Hs]. rewrite Hs. cbn [mbind result_bind].
    rewrite collect_loop_app, (getitem_column_cells _ _ _ Hs). cbn [app].
    rewrite (lower_all_collected _ Hcells). cbn [mbind result_bind].
    rewrite assoc_set_fresh.
    + rewrite IH; [now rewrite <- app_assoc | intros c' Hc'; apply Hok; now right |].
      rewrite map_app. cbn [map fst]. now rewrite <- app_assoc.
    + intros Hc. apply List.NoDup_remove_2 in Hnd. apply Hnd, in_or_app. now left.
Qed.

Lemma categorical_data_loop_inv df cols : forall acc d,
  categorical_data_loop py_lower df cols acc = Ok d ->
  forall c, In c cols -> In c (columns df) /\ Forall category_cell (column_cells df c).
Proof.
  induction cols as [|c cols IH]; intros acc d H c' Hc'; [destruct Hc'|].
  cbn [categorical_data_loop] in H.
  destruct (getitem_column df c) as [s|e] eqn:Hs; [|discriminate].
  cbn [mbind result_bind] in H.
  rewrite collect_loop_app, (getitem_column_cells _ _ _ Hs) in H. cbn [app] in H.
  destruct (lower_all py_lower _) as [ls|e] eqn:Hl; [|discriminate].
  cbn [mbind result_bind] in H.
  destruct Hc' as [<-|Hc'].
  - split; [eapply getitem_column_In; eauto | eapply lower_all_collected_inv; eauto].
  - eapply IH; eauto.
Qed.

(** The result in closed form. *)
Lemma getCategoricalDataCounts_closed df :
  (forall c, In c category_columns ->
     In c (columns df) /\ Forall category_cell (column_cells df c)) ->
  getCategoricalDataCounts py_lower df
  = Ok (map (fun c => (c, sorted_by_value (Counter (lowered_values py_lower df c))))
            category_columns).
Proof.
  intros Hok. unfold getCategoricalDataCounts.
  rewrite (categorical_data_loop_Ok df category_columns [] Hok).
  2:{ cbn. repeat constructor; cbn; intuition discriminate. }
  cbn [mbind result_bind app]. f_equal.
  rewrite (assoc_fold_fresh fst (fun kv => Counter (snd kv))).
  2:{ rewrite map_map. cbn. repeat constructor; cbn; intuition discriminate. }
  cbn [app]. rewrite map_map. cbn [fst snd].
  rewrite (assoc_fold_fresh fst (fun kv => dict_of_items (sorted_by_value (snd kv)))).
  2:{ rewrite map_map. cbn. repeat constructor; cbn; intuition discriminate. }
  cbn [app]. rewrite map_map. cbn [fst snd].
  apply map_ext. intros c. f_equal. apply dict_of_items_NoDup.
  rewrite <- (sorted_by_value_perm (Counter (lowered_values py_lower df c))).
  apply Counter_NoDup.
Qed.

End LowerFacts.


Lemma dict_get_perm d d' k :
  NoDup (map fst d) -> Permutation d d' -> dict_get d' k = dict_get d k.
Proof.
  intros Hnd Hperm.
  assert (Hnd' : NoDup (map fst d')) by now rewrite <- Hperm.
  destruct (dict_get d k) as [v|] eqn:E.
  - apply dict_get_In; [exact Hnd'|].
    eapply Permutation_in; [exact Hperm | now apply dict_get_Some_In].
  - apply dict_get_None. apply dict_get_None in E. intros Hin. apply E.
    eapply Permutation_in; [apply Permutation_sym, Permutation_map, Hperm | exact Hin].
Qed.

Lemma getCategoricalDataCounts_inv (py_lower : string -> string) df r :
  getCategoricalDataCounts py_lower df = Ok r ->
  forall c, In c category_columns ->
    In c (columns df) /\ Forall category_cell (column_cells df c).
Proof.
  intros Hr. unfold getCategoricalDataCounts in Hr.
  destruct (categorical_data_loop py_lower df category_columns []) as [d|e] eqn:E;
    [|discriminate].
  exact (categorical_data_loop_inv py_lower df category_columns [] d E).
Qed.

(** X8.  [getCategoricalDataCounts] returns exactly when the table has
    the four category columns and each of their cells is missing, a
    string or a list of strings. *)
Theorem getCategoricalDataCounts_returns_iff (py_lower : string -> string) df :
  (exists r, getCategoricalDataCounts py_lower df = Ok r) <->
  (forall c, In c category_columns ->
     In c (columns df) /\ Forall category_cell (column_cells df c)).
Proof.
  split.
  - intros [r Hr]. now apply (getCategoricalDataCounts_inv py_lower df r).
  - intros Hok. eexists. now apply getCategoricalDataCounts_closed.
Qed.

(** X9.  When [getCategoricalDataCounts] returns, the result has the
    four categories in their fixed order, and under each category the
    count of a key is the number of strings of that column, list
    elements included, whose lower-case form is the key: values that
    differ by case only are counted together. *)
Theorem getCategoricalDataCounts_counts (py_lower : string -> string) df r :
  getCategoricalDataCounts py_lower df = Ok r ->
  map fst r = category_columns /\
  forall column inner, In (column, inner) r ->
    In column category_columns /\
    forall k, dict_get inner k
              = match count_occ string_dec (lowered_values py_lower df column) k with
                | O => None
                | S n => Some (S n)
                end.
Proof.
  intros Hr.
  assert (Hok : forall c, In c category_columns ->
                  In c (columns df) /\ Forall category_cell (column_cells df c)).
  { now apply (getCategoricalDataCounts_inv py_lower df r). }
  assert (Heq : r = map (fun c => (c, sorted_by_value
                                        (Counter (lowered_values py_lower df c))))
                        category_columns).
  { rewrite (getCategoricalDataCounts_closed py_lower df Hok) in Hr. congruence. }
  subst r. clear Hr.
  split; [reflexivity|].
  intros column inner Hin. apply in_map_iff in Hin as (c & [= <- <-] & Hc).
  split; [exact Hc|]. intros k.
  rewrite (dict_get_perm (Counter (lowered_values py_lower df c)));
    [apply Counter_get | apply Counter_NoDup | apply sorted_by_value_perm].
Qed.

(** X10.  Under each category the entries are in ascending order of
    count, no key occurs twice, and the keys are exactly the lower-case
    forms of the strings of the column. *)
Theorem getCategoricalDataCounts_sorted (py_lower : string -> string) df r :
  getCategoricalDataCounts py_lower df = Ok r ->
  forall column inner, In (column, inner) r ->
    StronglySorted value_le inner /\
    List.NoDup (map fst inner) /\
    forall k, In k (map fst inner) <-> In k (lowered_values py_lower df column).
Proof.
  intros Hr.
  assert (Hok : forall c, In c category_columns ->
                  In c (columns df) /\ Forall category_cell (column_cells df c)).
  { now apply (getCategoricalDataCounts_inv py_lower df r). }
  assert (Heq : r = map (fun c => (c, sorted_by_value
                                        (Counter (lowered_values py_lower df c))))
                        category_columns).
  { rewrite (getCategoricalDataCounts_closed py_lower df Hok) in Hr. congruence. }
  subst r. clear Hr.
  intros column inner Hin. apply in_map_iff in Hin as (c & [= <- <-] & Hc).
  assert (Hnd : NoDup (map fst (sorted_by_value (Counter (lowered_values py_lower df c))))).
  { rewrite <- (sorted_by_value_perm _). apply Counter_NoDup. }
  split; [apply sorted_by_value_sorted|]. split; [now apply NoDup_ListNoDup|].
  intros k. rewrite (count_occ_In string_dec (lowered_values py_lower df c) k).
  pose proof (dict_get_perm (Counter (lowered_values py_lower df c))
                (sorted_by_value (Counter (lowered_values py_lower df c))) k
                (Counter_NoDup _) (sorted_by_value_perm _)) as Hget.
  rewrite Counter_get in Hget. split.
  - intros Hk. destruct (count_occ string_dec _ k); [|lia].
    apply dict_get_None in Hget. contradiction.
  - intros Hk. destruct (count_occ string_dec _ k) eqn:E; [lia|].
    apply dict_get_Some_In in Hget. now apply (in_map fst) in Hget.
Qed.


Lemma getCategoricalDataCounts_counts_witness :
  let df := raw ["name"; "payment_methods"; "products"; "services"; "marks"]
              [[Str "A"; StrList ["Card"; "cash"]; Str "Pizza"; NA; NA];
               [Str "B"; Str "CARD"; NA; NA; NA]] in
  exists r inner,
    getCategoricalDataCounts (map_string ascii_lower) df = Ok r /\
    map fst r = category_columns /\
    In ("payment_methods", inner) r /\
    dict_get inner "card" = Some 2%nat /\ dict_get inner "Card" = None.
Proof.
  cbv zeta.
  destruct (getCategoricalDataCounts (map_string ascii_lower) _) as [r|e] eqn:E;
    [|vm_compute in E; discriminate].
  destruct (getCategoricalDataCounts_counts _ _ _ E) as [Hkeys Hcounts].
  assert (Hin : In ("payment_methods", [("cash", 1%nat); ("card", 2%nat)]) r).
  { vm_compute in E. injection E as <-. now left. }
  exists r, [("cash", 1%nat); ("card", 2%nat)].
  split; [reflexivity|]. split; [exact Hkeys|]. split; [exact Hin|].
  destruct (Hcounts _ _ Hin) as [_ Hget]. split; rewrite Hget; reflexivity.
Defined.

Lemma getCategoricalDataCounts_sorted_witness :
  let df := raw ["name"; "payment_methods"; "products"; "services"; "marks"]
              [[Str "A"; StrList ["Card"; "cash"]; Str "Pizza"; NA; NA];
               [Str "B"; Str "CARD"; NA; NA; NA]] in
  exists r inner,
    getCategoricalDataCounts (map_string ascii_lower) df = Ok r /\
    In ("payment_methods", inner) r /\
    StronglySorted value_le inner /\ List.NoDup (map fst inner).
Proof.
  cbv zeta.
  destruct (getCategoricalDataCounts (map_string ascii_lower) _) as [r|e] eqn:E;
    [|vm_compute in E; discriminate].
  assert (Hin : In ("payment_methods", [("cash", 1%nat); ("card", 2%nat)]) r).
  { vm_compute in E. injection E as <-. now left. }
  exists r, [("cash", 1%nat); ("card", 2%nat)].
  split; [reflexivity|]. split; [exact Hin|].
  destruct (getCategoricalDataCounts_sorted _ _ _ E _ _ Hin) as (Hs & Hn & _). auto.
Defined.

(** * Phone counts *)

Lemma phones_loop_app cells : forall acc,
  phones_loop cells acc = (ns ← phones_loop cells []; Ok (acc ++ ns)%list).
Proof.
  induction cells as [|c cells IH]; intros acc.
  - cbn. now rewrite app_nil_r.
  - cbn [phones_loop]. destruct (py_len c) as [n|e]; [|reflexivity].
    cbn [mbind result_bind]. rewrite IH, (IH ([] ++ [n])%list).
    destruct (phones_loop cells []) as [ns|e]; [|reflexivity].
    cbn [mbind result_bind]. now rewrite <- app_assoc.
Qed.

(** The loop measures every cell, or stops at the first one without a
    length. *)
Lemma phones_loop_spec cells : forall ns,
  phones_loop cells [] = Ok ns -> map py_len cells = map Ok ns.
Proof.
  induction cells as [|c cells IH]; intros ns H.
  - injection H as <-. reflexivity.
  - cbn [phones_loop] in H. destruct (py_len c) as [n|e] eqn:En; [|discriminate].
    cbn [mbind result_bind] in H. rewrite phones_loop_app in H.
    destruct (phones_loop cells []) as [ns'|e]; [|discriminate].
    injection H as <-. cbn [map app]. now rewrite En, (IH ns' eq_refl).
Qed.

Lemma phones_loop_raises cells :
  Exists (fun c => c = NA \/ exists z, c = Num z) cells ->
  phones_loop cells [] = Raise TypeError.
Proof.
  induction cells as [|c cells IH]; intros Hex; [inversion Hex|].
  cbn [phones_loop]. destruct (py_len c) as [n|e] eqn:En.
  - cbn [mbind result_bind]. rewrite phones_loop_app, IH; [reflexivity|].
    apply Exists_cons in Hex as [[->|[z ->]]|Hex]; [discriminate | discriminate | exact Hex].
  - destruct c; try discriminate; now injection En as <-.
Qed.

Lemma counter_nat_fold_get l : forall acc k,
  assoc_get (fold_left (fun c n => assoc_set c n (S (default O (assoc_get c n)))) l acc) k =
  match assoc_get acc k, count_occ Nat.eq_dec l k with
  | None, O => None
  | o, n => Some (default O o + n)%nat
  end.
Proof.
  induction l as [|k' l IH]; intros acc k; cbn [fold_left count_occ].
  - destruct (assoc_get acc k); unfold default, id; [f_equal; lia | reflexivity].
  - rewrite IH. destruct (Nat.eq_dec k' k) as [->|Hne].
    + rewrite assoc_get_set_eq. destruct (assoc_get acc k); unfold default, id; f_equal; lia.
    + rewrite assoc_get_set_ne by exact Hne. reflexivity.
Qed.

Lemma counter_nat_fold_NoDup l : forall acc : list (nat * nat),
  List.NoDup (map fst acc) ->
  List.NoDup (map fst (fold_left (fun c n => assoc_set c n (S (default O (assoc_get c n))))
                                 l acc)).
Proof.
  induction l as [|k l IH]; intros acc Hacc; [exact Hacc|].
  cbn [fold_left]. apply IH. now apply assoc_set_NoDup.
Qed.

Lemma count_occ_has_len cells ns n :
  map py_len cells = map Ok ns ->
  count_occ Nat.eq_dec ns n = List.length (List.filter (has_len n) cells).
Proof.
  revert ns. induction cells as [|c cells IH]; intros [|m ns] H; try discriminate.
  - reflexivity.
  - cbn [map] in H. injection H as Hc H. cbn [count_occ List.filter].
    unfold has_len at 1. rewrite Hc, (IH ns H).
    destruct (Nat.eq_dec m n) as [->|Hne].
    + now rewrite Nat.eqb_refl.
    + destruct (Nat.eqb_spec m n); [contradiction | reflexivity].
Qed.

(** X11.  When [getNumberOfPhonesCounts] returns, the count under [n]
    is the number of rows whose phones value has [n] entries (no entry
    for a number of phones no row has), and no key occurs twice. *)
Theorem getNumberOfPhonesCounts_buckets df counts :
  getNumberOfPhonesCounts df = Ok counts ->
  List.NoDup (map fst counts) /\
  forall n, assoc_get counts n
            = match List.length (List.filter (has_len n) (column_cells df "phones")) with
              | O => None
              | S m => Some (S m)
              end.
Proof.
  unfold getNumberOfPhonesCounts. intros H.
  destruct (getitem_column df "phones") as [s|e] eqn:Hs; [|discriminate].
  cbn [mbind result_bind] in H.
  destruct (phones_loop (map snd s) []) as [ns|e] eqn:Hl; [|discriminate].
  cbn [mbind result_bind] in H. injection H as <-.
  split; [apply counter_nat_fold_NoDup; constructor|].
  intros n. unfold Counter_nat. rewrite counter_nat_fold_get. cbn [assoc_get default].
  rewrite <- (getitem_column_cells _ _ _ Hs).
  rewrite <- (count_occ_has_len _ ns n (phones_loop_spec _ _ Hl)).
  now destruct (count_occ Nat.eq_dec ns n).
Qed.

Lemma getNumberOfPhonesCounts_buckets_witness :
  let df := raw ["name"; "phones"]
              [[Str "A"; StrList []]; [Str "B"; StrList ["111"; "222"]];
               [Str "C"; StrList []]] in
  exists counts,
    getNumberOfPhonesCounts df = Ok counts /\
    assoc_get counts 0%nat = Some 2%nat /\
    assoc_get counts 2%nat = Some 1%nat /\
    assoc_get counts 1%nat = None.
Proof.
  cbv zeta.
  destruct (getNumberOfPhonesCounts _) as [counts|e] eqn:E;
    [|vm_compute in E; discriminate].
  destruct (getNumberOfPhonesCounts_buckets _ _ E) as [_ Hget].
  exists counts. split; [reflexivity|]. rewrite !Hget. repeat split.
Defined.

(** X12.  [getNumberOfPhonesCounts] raises [TypeError] as soon as one
    row has no phones value (or a number in its place): such a value
    has no [len]. *)
Theorem getNumberOfPhonesCounts_missing df s :
  getitem_column df "phones" = Ok s ->
  Exists (fun c => c = NA \/ exists z, c = Num z) (map snd s) ->
  getNumberOfPhonesCounts df = Raise TypeError.
Proof.
  intros Hs Hex. unfold getNumberOfPhonesCounts. rewrite Hs. cbn [mbind result_bind].
  now rewrite (phones_loop_raises _ Hex).
Qed.

Lemma getNumberOfPhonesCounts_missing_witness :
  getNumberOfPhonesCounts
    (raw ["name"; "phones"] [[Str "A"; StrList ["111"]]; [Str "B"; NA]])
  = Raise TypeError.
Proof.
  apply (getNumberOfPhonesCounts_missing
           (raw ["name"; "phones"] [[Str "A"; StrList ["111"]]; [Str "B"; NA]])
           [(0%nat, StrList ["111"]); (1%nat, NA)] eq_refl).
  apply Exists_cons_tl, Exists_cons_hd. now left.
Defined.


(** * District counts and opening hours: when the methods return *)

Lemma getattr_column_Ok df c :
  In c (columns df) -> exists s, getattr_column df c = Ok s.
Proof.
  intros Hin. destruct (col_pos_In _ _ Hin) as [p Hp].
  unfold getattr_column. rewrite Hp. eauto.
Qed.

Lemma getattr_column_In df c s : getattr_column df c = Ok s -> In c (columns df).
Proof.
  unfold getattr_column. intros H.
  destruct (in_dec string_dec c (columns df)) as [Hin|Hin]; [exact Hin|].
  rewrite (col_pos_None _ _ Hin) in H. discriminate.
Qed.

Lemma value_counts_Ok cells :
  Forall hashable_cell cells -> exists counts, value_counts cells = Ok counts.
Proof.
  induction 1 as [|c cells Hc _ [counts IH]]; [eexists; reflexivity|].
  cbn [value_counts]. rewrite IH. cbn [mbind result_bind].
  destruct Hc as [->|[[s ->]|[z ->]]]; eexists; reflexivity.
Qed.

Lemma value_counts_inv cells counts :
  value_counts cells = Ok counts -> Forall hashable_cell cells.
Proof.
  revert counts. induction cells as [|c cells IH]; intros counts H; [constructor|].
  cbn [value_counts] in H.
  destruct (value_counts cells) as [counts'|e] eqn:E; [|discriminate].
  constructor; [|now apply (IH counts')].
  destruct c; try discriminate; unfold hashable_cell; eauto.
Qed.

(** X13.  [getDistrictCounts] returns exactly when the table has a
    district column whose cells are strings, numbers or missing and at
    least one row is marked ["Not found"]. *)
Theorem getDistrictCounts_returns_iff df :
  (exists district_counts, getDistrictCounts df = Ok district_counts) <->
  In "district" (columns df) /\
  Forall hashable_cell (column_cells df "district") /\
  In (Str "Not found") (column_cells df "district").
Proof.
  split.
  - intros [dc Hdc]. pose proof Hdc as H. unfold getDistrictCounts in H.
    destruct (getattr_column df "district") as [s|e] eqn:Hs; [|discriminate].
    cbn [mbind result_bind] in H.
    destruct (value_counts (map snd s)) as [counts|e] eqn:Hvc; [|discriminate].
    rewrite <- (getattr_column_cells _ _ _ Hs).
    split; [eapply getattr_column_In; eauto|]. split; [eapply value_counts_inv; eauto|].
    destruct (in_dec cell_eq_dec (Str "Not found") (map snd s)) as [Hin|Hin]; [exact Hin|].
    rewrite (getDistrictCounts_without_sentinel df s counts Hs Hvc Hin) in Hdc.
    discriminate.
  - intros (Hcol & Hhash & Hin).
    destruct (getattr_column_Ok df "district" Hcol) as [s Hs].
    rewrite <- (getattr_column_cells _ _ _ Hs) in Hhash, Hin.
    destruct (value_counts_Ok _ Hhash) as [counts Hvc].
    destruct (getDistrictCounts_with_sentinel df s counts Hs Hvc Hin) as (dc & H & _).
    eauto.
Qed.

(** X14.  When [getDistrictCounts] returns, the mapping has no
    ["Not found"] entry, and under every other district it holds the
    number of rows of that district (no entry for a district no row
    has); rows without a district are not counted. *)
Theorem getDistrictCounts_lookup df district_counts :
  getDistrictCounts df = Ok district_counts ->
  district_counts !! inl "Not found" = None /\
  forall k, k <> inl "Not found" ->
    district_counts !! k
    = match occurrences k (column_cells df "district") with
      | O => None
      | S n => Some (S n)
      end.
Proof.
  intros Hdc. pose proof Hdc as H. unfold getDistrictCounts in H.
  destruct (getattr_column df "district") as [s|e] eqn:Hs; [|discriminate].
  cbn [mbind result_bind] in H.
  destruct (value_counts (map snd s)) as [counts|e] eqn:Hvc; [|discriminate].
  destruct (in_dec cell_eq_dec (Str "Not found") (map snd s)) as [Hin|Hin].
  - destruct (getDistrictCounts_with_sentinel df s counts Hs Hvc Hin) as (dc & H1 & H2 & H3).
    rewrite H1 in Hdc. injection Hdc as <-. split; [exact H2|].
    intros k Hk. rewrite (H3 k Hk), (getattr_column_cells _ _ _ Hs).
    now destruct (occurrences k (column_cells df "district")).
  - rewrite (getDistrictCounts_without_sentinel df s counts Hs Hvc Hin) in Hdc.
    discriminate.
Qed.

Lemma getDistrictCounts_lookup_witness :
  let df := raw spec_columns
              [make_row spec_columns [("name", Str "A"); ("district", Str "Praha 1")];
               make_row spec_columns [("name", Str "B"); ("district", Str "Not found")];
               make_row spec_columns [("name", Str "C"); ("district", Str "Praha 1")]] in
  exists district_counts,
    getDistrictCounts df = Ok district_counts /\
    district_counts !! inl "Not found" = None /\
    district_counts !! inl "Praha 1" = Some 2%nat.
Proof.
  cbv zeta.
  destruct (value_counts [Str "Praha 1"; Str "Not found"; Str "Praha 1"])
    as [counts|e] eqn:Hvc; [|cbn [value_counts mbind result_bind] in Hvc; discriminate].
  destruct (getDistrictCounts_with_sentinel
              (raw spec_columns
                 [make_row spec_columns [("name", Str "A"); ("district", Str "Praha 1")];
                  make_row spec_columns [("name", Str "B"); ("district", Str "Not found")];
                  make_row spec_columns [("name", Str "C"); ("district", Str "Praha 1")]])
              [(0%nat, Str "Praha 1"); (1%nat, Str "Not found"); (2%nat, Str "Praha 1")]
              counts eq_refl Hvc)
    as (dc & H1 & _).
  - simpl. tauto.
  - destruct (getDistrictCounts_lookup _ _ H1) as [H2 H3].
    exists dc. split; [exact H1|]. split; [exact H2|].
    rewrite H3 by discriminate. reflexivity.
Defined.

Lemma spans_loop_inv cells : forall vs,
  spans_loop cells [] = Ok vs ->
  Forall span_cell cells /\ (In PyNaN vs -> In NA cells).
Proof.
  induction cells as [|c cells IH]; intros vs H.
  - injection H as <-. split; [constructor | intros []].
  - rewrite spans_loop_cons in H. destruct (span_value c) as [v|e] eqn:Ev; [|discriminate].
    cbn [mbind result_bind] in H.
    destruct (spans_loop cells []) as [vs'|e] eqn:E; [|discriminate].
    injection H as <-. destruct (IH vs' eq_refl) as [Hall Hnan].
    unfold span_value in Ev.
    destruct c as [|z|s|l|d]; cbn [isna_test mbind result_bind] in Ev; try discriminate.
    + split; [constructor; [now left | exact Hall]|]. intros _. now left.
    + destruct (Nat.ltb 1 (List.length l)); cbn [mbind result_bind] in Ev; discriminate.
    + injection Ev as <-. split; [constructor; [right; eauto | exact Hall]|].
      intros [Hv|Hv]; [discriminate | right; now apply Hnan].
Qed.

(** X15.  On a table whose totals are integers that a float holds
    exactly (at most [2^53] either way),
    [getArrayOfSumsOfOpeningHoursSpans] returns exactly when the table
    has an opening_hours_span column whose cells are mappings or
    missing and either the table has no row or some row has no mapping;
    a table in which every row has a mapping makes it raise. *)
Theorem getArrayOfSumsOfOpeningHoursSpans_returns_iff
    (np_wide : list pynum -> result ndarray) df :
  exact_totals df = true ->
  (exists a, getArrayOfSumsOfOpeningHoursSpans np_wide df = Ok a) <->
  In "opening_hours_span" (columns df) /\
  Forall span_cell (column_cells df "opening_hours_span") /\
  (rows df = [] \/ In NA (column_cells df "opening_hours_span")).
Proof.
  intros Hex. split.
  - intros [a H]. unfold getArrayOfSumsOfOpeningHoursSpans in H.
    destruct (getattr_column df "opening_hours_span") as [s|e] eqn:Hs; [|discriminate].
    cbn [mbind result_bind] in H.
    destruct (spans_loop (map snd s) []) as [vs|e] eqn:Hl; [|discriminate].
    cbn [mbind result_bind] in H.
    destruct (spans_loop_inv _ _ Hl) as [Hall Hnan].
    destruct (spans_loop_spec _ _ Hl) as [Hlen _].
    unfold exact_totals in Hex.
    rewrite (getattr_column_cells _ _ _ Hs) in *.
    split; [eapply getattr_column_In; eauto|]. split; [exact Hall|].
    destruct (np_array_cases vs (spans_loop_exact _ _ Hl Hex))
      as [(zs & _ & _ & Harr)|[[->|Hin] _]].
    + rewrite Harr in H. discriminate.
    + left. unfold column_cells in Hlen. rewrite length_map in Hlen.
      destruct (rows df); [reflexivity | discriminate].
    + right. now apply Hnan.
  - intros (Hcol & Hall & Hcase).
    destruct (getattr_column_Ok df "opening_hours_span" Hcol) as [s Hs].
    rewrite <- (getattr_column_cells _ _ _ Hs) in Hall, Hcase.
    destruct Hcase as [Hnil|Hin].
    + unfold getArrayOfSumsOfOpeningHoursSpans, getattr_column in *.
      destruct (col_pos (columns df) "opening_hours_span"); [|discriminate].
      rewrite Hnil. eexists. reflexivity.
    + exact (getArrayOfSumsOfOpeningHoursSpans_some_missing np_wide df s Hs Hin Hall Hex).
Qed.

(** The theorem on two tables: with a row that has no mapping the
    method returns; with a mapping in every row it does not. *)
Lemma getArrayOfSumsOfOpeningHoursSpans_returns_iff_witness :
  let a := make_row spec_columns [("name", Str "A")] in
  let b := make_row spec_columns
             [("name", Str "B"); ("opening_hours_span", Dict [("Monday", Some 480)])] in
  (exists arr, getArrayOfSumsOfOpeningHoursSpans (fun _ => Raise TypeError)
                 (raw spec_columns [a; b]) = Ok arr) /\
  ~ (exists arr, getArrayOfSumsOfOpeningHoursSpans (fun _ => Raise TypeError)
                   (raw spec_columns [b]) = Ok arr).
Proof.
  cbv zeta. split.
  - apply (getArrayOfSumsOfOpeningHoursSpans_returns_iff (fun _ => Raise TypeError)
             (raw spec_columns
                [make_row spec_columns [("name", Str "A")];
                 make_row spec_columns
                   [("name", Str "B");
                    ("opening_hours_span", Dict [("Monday", Some 480)])]]) eq_refl).
    split; [simpl; tauto|]. split.
    + change (Forall span_cell [NA; Dict [("Monday", Some 480)]]).
      constructor; [now left|]. constructor; [right; eexists; reflexivity | constructor].
    + right. now left.
  - intros H.
    apply (getArrayOfSumsOfOpeningHoursSpans_returns_iff (fun _ => Raise TypeError)
             (raw spec_columns
                [make_row spec_columns
                   [("name", Str "B");
                    ("opening_hours_span", Dict [("Monday", Some 480)])]]) eq_refl)
      in H as (_ & _ & [H|H]); [discriminate|].
    vm_compute in H. destruct H as [H|[]]. discriminate.
Defined.

(** * Email providers: when the method returns, and what it counts *)

Lemma providers_loop_inv cells : forall acc ps,
  providers_loop cells acc = Ok ps -> Forall matching_email cells.
Proof.
  induction cells as [|c cells IH]; intros acc ps H; [constructor|].
  cbn [providers_loop] in H.
  destruct c as [|z|s|l|d]; cbn [isna_test mbind result_bind] in H.
  - constructor; [now left | eapply IH; eauto].
  - discriminate.
  - unfold extract_provider in H.
    destruct (re_search email_pattern s) as [value|] eqn:Es; [|discriminate].
    cbn [mbind result_bind try_except] in H.
    constructor; [right; exists s; split; [reflexivity | congruence] | eapply IH; eauto].
  - destruct (Nat.ltb 1 (List.length l)); cbn [mbind result_bind try_except] in H;
      discriminate.
  - discriminate.
Qed.

(** The result in closed form. *)
Lemma getEmailProvidersCounts_closed df :
  In "email_address" (columns df) ->
  Forall matching_email (column_cells df "email_address") ->
  getEmailProvidersCounts df
  = Ok (sorted_by_value
          (dict_set (Counter (extracted_providers df)) "Own domain"
                    (providers_seen_once (extracted_providers df)))).
Proof.
  intros Hcol Hall. destruct (getattr_column_Ok df _ Hcol) as [s Hs].
  rewrite <- (getattr_column_cells _ _ _ Hs) in Hall.
  unfold getEmailProvidersCounts. rewrite Hs. cbn [mbind result_bind].
  rewrite (providers_loop_matching _ [] Hall). cbn [mbind result_bind app].
  replace (flat_map provider_of_cell (map snd s)) with (extracted_providers df).
  2:{ rewrite (getattr_column_cells _ _ _ Hs). unfold extracted_providers, column_cells.
      induction (rows df) as [|r rs IH]; [reflexivity|].
      cbn [map flat_map]. now rewrite IH. }
  rewrite values_seen_once. f_equal. apply dict_of_items_NoDup.
  rewrite <- (sorted_by_value_perm _). apply dict_set_NoDup, Counter_NoDup.
Qed.

Lemma getEmailProvidersCounts_inv df counts :
  getEmailProvidersCounts df = Ok counts ->
  In "email_address" (columns df) /\
  Forall matching_email (column_cells df "email_address").
Proof.
  unfold getEmailProvidersCounts. intros H.
  destruct (getattr_column df "email_address") as [s|e] eqn:Hs; [|discriminate].
  cbn [mbind result_bind] in H.
  destruct (providers_loop (map snd s) []) as [ps|e] eqn:Hl; [|discriminate].
  split; [eapply getattr_column_In; eauto|].
  rewrite <- (getattr_column_cells _ _ _ Hs). eapply providers_loop_inv; eauto.
Qed.

(** X16.  [getEmailProvidersCounts] returns exactly when the table has
    an email_address column and every address in it is missing or is a
    string in which ['@.*\.'] finds a match; one address without a
    match, or one value that is not a string, makes it raise. *)
Theorem getEmailProvidersCounts_returns_iff df :
  (exists counts, getEmailProvidersCounts df = Ok counts) <->
  In "email_address" (columns df) /\
  Forall matching_email (column_cells df "email_address").
Proof.
  split.
  - intros [counts H]. now apply (getEmailProvidersCounts_inv df counts).
  - intros [Hcol Hall]. eexists. now apply getEmailProvidersCounts_closed.
Qed.

(** X17.  When [getEmailProvidersCounts] returns, no key occurs twice
    and, under every provider other than ["Own domain"], the mapping
    holds the number of addresses with that provider (no entry for a
    provider no address has). *)
Theorem getEmailProvidersCounts_counts df counts :
  getEmailProvidersCounts df = Ok counts ->
  List.NoDup (map fst counts) /\
  forall k, k <> "Own domain" ->
    dict_get counts k
    = match count_occ string_dec (extracted_providers df) k with
      | O => None
      | S n => Some (S n)
      end.
Proof.
  intros H. destruct (getEmailProvidersCounts_inv df counts H) as [Hcol Hall].
  rewrite (getEmailProvidersCounts_closed df Hcol Hall) in H.
  assert (Heq : counts = sorted_by_value
                           (dict_set (Counter (extracted_providers df)) "Own domain"
                                     (providers_seen_once (extracted_providers df))))
    by congruence.
  subst counts. clear H.
  assert (Hnd : NoDup (map fst (dict_set (Counter (extracted_providers df)) "Own domain"
                                         (providers_seen_once (extracted_providers df)))))
    by apply dict_set_NoDup, Counter_NoDup.
  split.
  - apply NoDup_ListNoDup. now rewrite <- (sorted_by_value_perm _).
  - intros k Hk. rewrite (dict_get_perm _ _ k Hnd (sorted_by_value_perm _)).
    rewrite dict_get_set_ne by congruence. apply Counter_get.
Qed.

Lemma getEmailProvidersCounts_counts_witness :
  let df := raw spec_columns
              [make_row spec_columns [("name", Str "A"); ("email_address", Str "a@seznam.cz")];
               make_row spec_columns [("name", Str "B"); ("email_address", Str "b@seznam.cz")];
               make_row spec_columns [("name", Str "C"); ("email_address", Str "info@ufleku.cz")];
               make_row spec_columns [("name", Str "D")]] in
  exists counts,
    getEmailProvidersCounts df = Ok counts /\
    dict_get counts "seznam" = Some 2%nat /\
    dict_get counts "ufleku" = Some 1%nat /\
    dict_get counts "gmail" = None.
Proof.
  cbv zeta.
  destruct (getEmailProvidersCounts _) as [counts|e] eqn:E;
    [|vm_compute in E; discriminate].
  destruct (getEmailProvidersCounts_counts _ _ E) as [_ Hget].
  exists counts. split; [reflexivity|].
  rewrite !Hget by discriminate. repeat split.
Defined.


(** * Plotting views: what the threshold keeps *)

Lemma int_ge_float_mono (v v' : nat) t :
  (v <= v')%nat -> int_ge_float v t = true -> int_ge_float v' t = true.
Proof.
  intros Hle. destruct t as [|negative|m e]; cbn [int_ge_float]; [easy | easy |].
  destruct (Z.leb_spec 0 e) as [He|He]; rewrite !Z.leb_le; intros H.
  - lia.
  - assert (0 < 2 ^ (- e)) by (apply Z.pow_pos_nonneg; lia). nia.
Qed.

(** In a mapping in ascending order of count, the entries at or above
    the threshold are the last ones. *)
Lemma filter_sorted_suffix t (d : pydict) :
  StronglySorted value_le d ->
  exists n,
    List.filter (fun kv => int_ge_float (snd kv) t) d = skipn n d /\
    Forall (fun kv => int_ge_float (snd kv) t = false) (firstn n d) /\
    Forall (fun kv => int_ge_float (snd kv) t = true) (skipn n d).
Proof.
  induction 1 as [|x d Hd [n (IH1 & IH2 & IH3)] Hx].
  - exists 0%nat. repeat split; constructor.
  - cbn [List.filter]. destruct (int_ge_float (snd x) t) eqn:Ex.
    + exists 0%nat. cbn [skipn firstn].
      assert (Hall : Forall (fun kv => int_ge_float (snd kv) t = true) d).
      { eapply List.Forall_impl; [|exact Hx]. intros kv Hkv.
        eapply int_ge_float_mono; [exact Hkv | exact Ex]. }
      split; [|split; [constructor | constructor; assumption]].
      f_equal. clear -Hall. induction Hall as [|y d Hy _ IH]; [reflexivity|].
      cbn [List.filter]. now rewrite Hy, IH.
    + exists (S n). cbn [skipn firstn]. split; [exact IH1|].
      split; [constructor; assumption | exact IH3].
Qed.

Lemma filter_keys_NoDup (f : string * nat -> bool) (d : pydict) :
  NoDup (map fst d) -> NoDup (map fst (List.filter f d)).
Proof.
  induction d as [|x d IH]; intros Hnd; [constructor|].
  cbn [map] in Hnd. apply NoDup_cons in Hnd as [Hx Hnd].
  cbn [List.filter]. destruct (f x); [|now apply IH].
  cbn [map]. apply NoDup_cons. split; [|now apply IH].
  intros Hin. apply Hx. apply list_elem_of_In in Hin. apply list_elem_of_In.
  apply in_map_iff in Hin as (y & Hy & Hin). apply filter_In in Hin as [Hin _].
  rewrite <- Hy. now apply in_map.
Qed.

Lemma at_least_filter t (d : pydict) :
  NoDup (map fst d) ->
  at_least t d = List.filter (fun kv => int_ge_float (snd kv) t) d.
Proof.
  intros Hnd. unfold at_least. apply dict_of_items_NoDup. now apply filter_keys_NoDup.
Qed.

Lemma getEmailProvidersCounts_sorted_NoDup df counts :
  getEmailProvidersCounts df = Ok counts ->
  StronglySorted value_le counts /\ NoDup (map fst counts).
Proof.
  intros H. destruct (getEmailProvidersCounts_inv df counts H) as [Hcol Hall].
  rewrite (getEmailProvidersCounts_closed df Hcol Hall) in H.
  assert (Heq : counts = sorted_by_value
                           (dict_set (Counter (extracted_providers df)) "Own domain"
                                     (providers_seen_once (extracted_providers df))))
    by congruence.
  subst counts. split; [apply sorted_by_value_sorted|].
  rewrite <- (sorted_by_value_perm _). apply dict_set_NoDup, Counter_NoDup.
Qed.

(** X18.  With a numeric threshold, [plotEmailProvidersCounts] on the
    mapping of [getEmailProvidersCounts] draws the last entries of the
    mapping and only them: every entry it leaves out is below the
    threshold and every entry it draws is at or above it.  The bar chart
    gets a title, the pie chart a figure and a legend. *)
Theorem plotEmailProvidersCounts_draws_suffix (PyObject : Type)
    (py_float : PyObject -> result pyfloat) df counts (threshold : PyObject) t :
  getEmailProvidersCounts df = Ok counts ->
  py_float threshold = Ok t ->
  exists n,
    plotEmailProvidersCounts PyObject py_float counts threshold "bar"
    = ([PltBarh (map fst (skipn n counts)) (map snd (skipn n counts)) "brown";
        PltTitle "Email providers"], Ok tt) /\
    plotEmailProvidersCounts PyObject py_float counts threshold "pie"
    = ([PltFigure; PltPie (map snd (skipn n counts)) (map fst (skipn n counts));
        PltLegend], Ok tt) /\
    Forall (fun kv => int_ge_float (snd kv) t = false) (firstn n counts) /\
    Forall (fun kv => int_ge_float (snd kv) t = true) (skipn n counts).
Proof.
  intros Hcounts Ht.
  destruct (getEmailProvidersCounts_sorted_NoDup df counts Hcounts) as [Hsorted Hnd].
  destruct (filter_sorted_suffix t counts Hsorted) as (n & Hf & Hlow & Hhigh).
  exists n. unfold plotEmailProvidersCounts, numeric_threshold. rewrite Ht.
  unfold lift_W. cbn [bind_W app]. rewrite (at_least_filter t counts Hnd), Hf.
  repeat split; assumption.
Qed.

Lemma plotEmailProvidersCounts_draws_suffix_witness :
  let df := raw spec_columns
              [make_row spec_columns [("name", Str "A"); ("email_address", Str "a@seznam.cz")];
               make_row spec_columns [("name", Str "B"); ("email_address", Str "b@seznam.cz")];
               make_row spec_columns [("name", Str "C"); ("email_address", Str "info@ufleku.cz")]] in
  exists counts n,
    getEmailProvidersCounts df = Ok counts /\
    plotEmailProvidersCounts Z (fun z => Ok (FFinite z 0)) counts 2 "bar"
    = ([PltBarh (map fst (skipn n counts)) (map snd (skipn n counts)) "brown";
        PltTitle "Email providers"], Ok tt).
Proof.
  cbv zeta.
  destruct (getEmailProvidersCounts _) as [counts|e] eqn:E;
    [|vm_compute in E; discriminate].
  destruct (plotEmailProvidersCounts_draws_suffix Z (fun z => Ok (FFinite z 0)) _ counts 2
              (FFinite 2 0) E eq_refl) as (n & Hbar & _).
  exists counts, n. split; [reflexivity | exact Hbar].
Defined.


Lemma valid_category_In c : valid_category c = true <-> In c category_columns.
Proof.
  unfold valid_category. rewrite existsb_exists. split.
  - intros (x & Hx & Heq). apply String.eqb_eq in Heq. now subst.
  - intros Hin. exists c. split; [exact Hin | apply String.eqb_refl].
Qed.

(** The loop of the categorical plot in closed form, on a mapping that
    has the four categories. *)
Lemma plot_categories_closed (d : list (string * pydict)) cats t :
  (forall c, In c category_columns -> assoc_get d c <> None) ->
  plot_categories d cats t
  = (flat_map (fun c =>
                 if valid_category c then
                   match assoc_get d c with
                   | Some counts =>
                       [PltFigure;
                        PltBarh (map fst (at_least t counts)) (map snd (at_least t counts))
                                "darkgreen";
                        PltTitle (capitalize (map_string underscore_to_space c))]
                   | None => []
                   end
                 else [NotValidInput c]) cats, Ok tt).
Proof.
  intros Hd. induction cats as [|c cats IH]; [reflexivity|].
  cbn [plot_categories flat_map]. rewrite IH. fold (valid_category c).
  destruct (valid_category c) eqn:Ev.
  - apply valid_category_In in Ev. specialize (Hd c Ev).
    destruct (assoc_get d c) as [counts|]; [|congruence]. reflexivity.
  - reflexivity.
Qed.

(** X19.  With a numeric threshold, [plotCategoricalDataCounts] on the
    mapping of [getCategoricalDataCounts] completes for every list of
    names: each name that is not one of the four categories is
    reported, and only those; one figure is opened per valid name; and
    every bar drawn stands for a count at or above the threshold. *)
Theorem plotCategoricalDataCounts_completes (PyObject : Type)
    (py_float : PyObject -> result pyfloat) (py_lower : string -> string)
    df d (categories : list string) (threshold : PyObject) t :
  getCategoricalDataCounts py_lower df = Ok d ->
  py_float threshold = Ok t ->
  exists out,
    plotCategoricalDataCounts PyObject py_float d (inr categories) threshold
    = (out, Ok tt) /\
    (forall c, In (NotValidInput c) out <->
               In c categories /\ ~ In c category_columns) /\
    List.length (List.filter is_figure out)
    = List.length (List.filter valid_category categories) /\
    (forall labels values color, In (PltBarh labels values color) out ->
       Forall (fun v => int_ge_float v t = true) values).
Proof.
  intros Hd Ht.
  pose proof (getCategoricalDataCounts_inv py_lower df d Hd) as Hok.
  assert (Heq : d = map (fun c => (c, sorted_by_value
                                        (Counter (lowered_values py_lower df c))))
                        category_columns).
  { rewrite (getCategoricalDataCounts_closed py_lower df Hok) in Hd. congruence. }
  assert (Hget : forall c, In c category_columns ->
                   assoc_get d c
                   = Some (sorted_by_value (Counter (lowered_values py_lower df c)))).
  { intros c Hc. rewrite Heq. cbn in Hc.
    destruct Hc as [<-|[<-|[<-|[<-|[]]]]]; reflexivity. }
  eexists. split.
  { unfold plotCategoricalDataCounts, numeric_threshold. rewrite Ht.
    unfold lift_W. cbn [bind_W]. rewrite plot_categories_closed; [reflexivity|].
    intros c Hc. rewrite (Hget c Hc). discriminate. }
  cbn [app]. clear Hd. induction categories as [|c cats (IH1 & IH2 & IH3)].
  - cbn. repeat split; tauto.
  - cbn [flat_map]. destruct (valid_category c) eqn:Ev.
    + pose proof (proj1 (valid_category_In c) Ev) as Hc. rewrite (Hget c Hc).
      cbn [app List.filter is_figure List.length]. rewrite Ev. cbn [List.length].
      split; [|split; [now rewrite IH2|]].
      * intros c'. cbn [In]. rewrite IH1. split.
        -- intros [H|[H|[H|H]]]; try discriminate. tauto.
        -- intros [[->|H] Hn]; [contradiction | tauto].
      * intros labels values color [H|[H|[H|H]]]; try discriminate; [|eauto].
        injection H as _ <- _.
        rewrite at_least_filter.
        2:{ rewrite <- (sorted_by_value_perm _). apply Counter_NoDup. }
        apply Forall_forall. intros v Hv. apply list_elem_of_In, in_map_iff in Hv
          as (kv & <- & Hkv). now apply filter_In in Hkv.
    + cbn [app List.filter is_figure]. rewrite Ev.
      assert (Hnc : ~ In c category_columns).
      { intros Hc. apply valid_category_In in Hc. congruence. }
      split; [|split; [exact IH2|]].
      * intros c'. cbn [In]. rewrite IH1. split.
        -- intros [[= <-]|H]; tauto.
        -- intros [[->|H] Hn]; [now left | tauto].
      * intros labels values color [H|H]; [discriminate | eauto].
Qed.

Lemma plotCategoricalDataCounts_completes_witness :
  let df := raw ["name"; "payment_methods"; "products"; "services"; "marks"]
              [[Str "A"; StrList ["Card"; "cash"]; Str "Pizza"; NA; NA];
               [Str "B"; Str "CARD"; NA; NA; NA]] in
  exists d,
    getCategoricalDataCounts (map_string ascii_lower) df = Ok d /\
    plotCategoricalDataCounts Z (fun z => Ok (FFinite z 0)) d
      (inr ["payment_methods"; "prices"]) 2
    = ([PltFigure; PltBarh ["card"] [2%nat] "darkgreen"; PltTitle "Payment methods";
        NotValidInput "prices"], Ok tt).
Proof.
  cbv zeta.
  destruct (getCategoricalDataCounts (map_string ascii_lower) _) as [d|e] eqn:E;
    [|vm_compute in E; discriminate].
  destruct (plotCategoricalDataCounts_completes Z (fun z => Ok (FFinite z 0))
              (map_string ascii_lower) _ d ["payment_methods"; "prices"] 2 (FFinite 2 0)
              E eq_refl) as (out & Hout & _).
  exists d. split; [reflexivity|].
  vm_compute in E. injection E as <-. reflexivity.
Defined.


(** * Row viewer: the rows returned *)

Lemma slice_list_head {A} (l : list A) (n : Z) :
  0 <= n -> slice_list l None (Some n) = firstn (Z.to_nat n) l.
Proof.
  intros Hn. unfold slice_list, slice_bound.
  destruct (Z.ltb_spec n 0) as [H|_]; [lia|].
  rewrite Z.sub_0_r. change (skipn (Z.to_nat 0) l) with l.
  destruct (Z.le_ge_cases n (Z.of_nat (List.length l))) as [Hle|Hge].
  - now rewrite Z.min_l.
  - rewrite Z.min_r by lia. rewrite Nat2Z.id, firstn_all.
    symmetry. apply firstn_all2. lia.
Qed.

Lemma slice_list_tail {A} (l : list A) (n : Z) :
  0 < n -> slice_list l (Some (- n)) None = skipn (List.length l - Z.to_nat n) l.
Proof.
  intros Hn. unfold slice_list, slice_bound.
  destruct (Z.ltb_spec (- n) 0) as [_|H]; [|lia].
  replace (Z.to_nat (Z.max 0 (- n + Z.of_nat (List.length l))))
    with (List.length l - Z.to_nat n)%nat by lia.
  apply firstn_all2. rewrite length_skipn. lia.
Qed.

(** X20.  For an argument that [int] converts to [n >= 0], [showRows]
    returns the first [n] rows of the table (all of them when there are
    fewer), under the same columns; it never raises. *)
Theorem showRows_first_rows (PyObject : Type) (py_int : PyObject -> result Z)
    (self_dataset : DataFrame) (no_of_rows : PyObject) (n : Z) :
  py_int no_of_rows = Ok n ->
  0 <= n ->
  showRows PyObject py_int self_dataset no_of_rows
  = Ok (mkDataFrame (columns self_dataset) (firstn (Z.to_nat n) (rows self_dataset))).
Proof.
  intros Hint Hn. unfold showRows. rewrite Hint. cbn [mbind result_bind].
  destruct (Z.leb_spec 0 n) as [_|H]; [|lia].
  unfold head, iloc. now rewrite slice_list_head.
Qed.

Lemma showRows_first_rows_witness :
  showRows Z Ok (raw ["name"] [[Str "A"]; [Str "B"]; [Str "C"]; [Str "D"]]) 3
  = Ok (raw ["name"] [[Str "A"]; [Str "B"]; [Str "C"]]).
Proof.
  assert (H : 0 <= 3) by lia.
  exact (showRows_first_rows Z Ok
           (raw ["name"] [[Str "A"]; [Str "B"]; [Str "C"]; [Str "D"]]) 3 3 eq_refl H).
Defined.

(** X21.  For an argument that [int] converts to [n < 0], [showRows]
    returns the last [|n|] rows of the table (all of them when there
    are fewer), each under the label it has in the table. *)
Theorem showRows_last_rows (PyObject : Type) (py_int : PyObject -> result Z)
    (self_dataset : DataFrame) (no_of_rows : PyObject) (n : Z) :
  py_int no_of_rows = Ok n ->
  n < 0 ->
  showRows PyObject py_int self_dataset no_of_rows
  = Ok (mkDataFrame (columns self_dataset)
          (skipn (len self_dataset - Z.to_nat (- n)) (rows self_dataset))).
Proof.
  intros Hint Hn. unfold showRows. rewrite Hint. cbn [mbind result_bind].
  destruct (Z.leb_spec 0 n) as [H|_]; [lia|].
  unfold tail. destruct (Z.eqb_spec (Z.abs n) 0) as [H0|_]; [lia|].
  unfold iloc, len. rewrite slice_list_tail by lia.
  now replace (Z.abs n) with (- n) by lia.
Qed.

Lemma showRows_last_rows_witness :
  showRows Z Ok (raw ["name"] [[Str "A"]; [Str "B"]; [Str "C"]; [Str "D"]]) (-2)
  = Ok (mkDataFrame ["name"] [(2%nat, [Str "C"]); (3%nat, [Str "D"])]).
Proof.
  assert (H : -2 < 0) by lia.
  exact (showRows_last_rows Z Ok
           (raw ["name"] [[Str "A"]; [Str "B"]; [Str "C"]; [Str "D"]]) (-2) (-2) eq_refl H).
Defined.


(** * The constructor *)

Lemma read_found {A} (d : ref) (f : DataFrame -> result A) (h : heap) df :
  h !! d = Some df -> read d f h = (f df, h).
Proof. intros Hd. unfold read. now rewrite Hd. Qed.

(** X22.  When the constructor returns on a raw table with a
    review_count column, [dataset_raw] and [dataset] are the reference
    it was given: both name the one table of the store, which now holds
    the retained rows only; nothing else in the store changes, and each
    aggregate is the result of its method on that filtered table. *)
Theorem DataInterpreter_init_aliases (py_lower : string -> string)
    (np_wide : list pynum -> result ndarray)
    (h h' : heap) (d : ref) cols data self :
  h !! d = Some (raw cols data) ->
  In "review_count" cols ->
  DataInterpreter_init py_lower np_wide d h = (Ok self, h') ->
  let filtered := mkDataFrame cols (kept_rows cols (label_from 0 data)) in
  dataset_raw self = d /\ dataset self = d /\
  h' = <[d := filtered]> h /\
  getDistrictCounts filtered = Ok (district_counts self) /\
  getArrayOfSumsOfOpeningHoursSpans np_wide filtered
  = Ok (array_of_sums_of_opening_hours_spans self) /\
  getCategoricalDataCounts py_lower filtered = Ok (categorical_data_counts_dict self) /\
  getNumberOfPhonesCounts filtered = Ok (number_of_phones_counts self) /\
  getEmailProvidersCounts filtered = Ok (email_providers_counts self).
Proof.
  intros Hd Hin Hinit filtered. destruct (col_pos_In _ _ Hin) as [p Hp].
  unfold DataInterpreter_init in Hinit. unfold bind_M at 1 in Hinit.
  rewrite (removeEmptyObservations_raw d cols p Hp h data Hd) in Hinit.
  fold filtered in Hinit.
  assert (Hf : <[d := filtered]> h !! d = Some filtered) by apply lookup_insert_eq.
  unfold bind_M in Hinit. rewrite (read_found d _ _ filtered Hf) in Hinit.
  destruct (getDistrictCounts filtered) as [dc|e]; [|discriminate].
  cbv beta iota in Hinit. rewrite (read_found d _ _ filtered Hf) in Hinit.
  destruct (getArrayOfSumsOfOpeningHoursSpans np_wide filtered) as [a|e]; [|discriminate].
  cbv beta iota in Hinit. rewrite (read_found d _ _ filtered Hf) in Hinit.
  destruct (getCategoricalDataCounts py_lower filtered) as [cat|e]; [|discriminate].
  cbv beta iota in Hinit. rewrite (read_found d _ _ filtered Hf) in Hinit.
  destruct (getNumberOfPhonesCounts filtered) as [ph|e]; [|discriminate].
  cbv beta iota in Hinit. rewrite (read_found d _ _ filtered Hf) in Hinit.
  destruct (getEmailProvidersCounts filtered) as [em|e]; [|discriminate].
  cbv beta iota in Hinit.
  unfold ret_M in Hinit. injection Hinit as <- <-. cbn. repeat split.
Qed.

(** X23.  On a raw table whose retained rows have districts but none
    marked ["Not found"], the constructor raises [KeyError], and the
    table it was given has been filtered all the same. *)
Theorem DataInterpreter_init_raises_KeyError (py_lower : string -> string)
    (np_wide : list pynum -> result ndarray)
    (h : heap) (d : ref) cols data :
  h !! d = Some (raw cols data) ->
  In "review_count" cols ->
  In "district" cols ->
  let filtered := mkDataFrame cols (kept_rows cols (label_from 0 data)) in
  Forall hashable_cell (column_cells filtered "district") ->
  ~ In (Str "Not found") (column_cells filtered "district") ->
  DataInterpreter_init py_lower np_wide d h = (Raise KeyError, <[d := filtered]> h).
Proof.
  intros Hd Hin Hdistrict filtered Hhash Hnot. destruct (col_pos_In _ _ Hin) as [p Hp].
  unfold DataInterpreter_init. unfold bind_M at 1.
  rewrite (removeEmptyObservations_raw d cols p Hp h data Hd). fold filtered.
  assert (Hf : <[d := filtered]> h !! d = Some filtered) by apply lookup_insert_eq.
  unfold bind_M at 1. rewrite (read_found d _ _ filtered Hf).
  destruct (getattr_column_Ok filtered "district" Hdistrict) as [s Hs].
  rewrite <- (getattr_column_cells _ _ _ Hs) in Hhash, Hnot.
  destruct (value_counts_Ok _ Hhash) as [counts Hvc].
  now rewrite (getDistrictCounts_without_sentinel filtered s counts Hs Hvc Hnot).
Qed.

Lemma DataInterpreter_init_raises_KeyError_witness :
  let a := make_row twelve_columns
             [("name", Str "A"); ("ratings", Num 0); ("review_count", Num 0)] in
  let b := make_row twelve_columns
             [("name", Str "B"); ("district", Str "Praha 1"); ("ratings", Num 70);
              ("review_count", Num 4); ("phones", StrList [])] in
  let h : heap := {[ 0%nat := raw twelve_columns [a; b] ]} in
  DataInterpreter_init (map_string ascii_lower) (fun _ => Raise TypeError) 0%nat h
  = (Raise KeyError, <[0%nat := mkDataFrame twelve_columns [(1%nat, b)]]> h).
Proof.
  cbv zeta.
  refine (DataInterpreter_init_raises_KeyError (map_string ascii_lower)
            (fun _ => Raise TypeError)
            {[ 0%nat := raw twelve_columns
                 [make_row twelve_columns
                    [("name", Str "A"); ("ratings", Num 0); ("review_count", Num 0)];
                  make_row twelve_columns
                    [("name", Str "B"); ("district", Str "Praha 1"); ("ratings", Num 70);
                     ("review_count", Num 4); ("phones", StrList [])]] ]}
            0%nat twelve_columns _ eq_refl _ _ _ _).
  - simpl. tauto.
  - simpl. tauto.
  - apply List.Forall_cons; [right; left; eexists; reflexivity | apply List.Forall_nil].
  - simpl. intros [H|[]]. discriminate.
Defined.


Lemma DataInterpreter_init_aliases_witness :
  let a := make_row twelve_columns
             [("name", Str "A"); ("ratings", Num 0); ("review_count", Num 0)] in
  let b := make_row twelve_columns
             [("name", Str "B"); ("district", Str "Praha 1"); ("ratings", Num 70);
              ("review_count", Num 4); ("phones", StrList ["111"]);
              ("email_address", Str "b@seznam.cz");
              ("opening_hours_span", Dict [("Monday", Some 480)])] in
  let c := make_row twelve_columns
             [("name", Str "C"); ("district", Str "Not found"); ("ratings", Num 0);
              ("review_count", Num 0); ("phones", StrList [])] in
  let h : heap := {[ 0%nat := raw twelve_columns [a; b; c] ]} in
  exists self h',
    DataInterpreter_init (map_string ascii_lower) (fun _ => Raise TypeError) 0%nat h = (Ok self, h') /\
    dataset_raw self = dataset self /\
    (index <$> h' !! dataset_raw self) = Some [1%nat; 2%nat].
Proof.
  cbv zeta.
  destruct (DataInterpreter_init (map_string ascii_lower) (fun _ => Raise TypeError) 0%nat _) as [[self|e] h'] eqn:E;
    [|vm_compute in E; discriminate].
  exists self, h'. split; [reflexivity|].
  eapply DataInterpreter_init_aliases in E as (H1 & H2 & H3 & _);
    [|reflexivity | simpl; tauto].
  split; [congruence|]. rewrite H1, H3, lookup_insert_eq. reflexivity.
Defined.


(** * Opening-hours summary *)

(** Once [nan] is the running maximum or minimum, nothing replaces
    it. *)
Lemma fold_gt_nan l :
  fold_left (fun m item => if float_gt item m then item else m) l nan = nan.
Proof.
  induction l as [|x l IH]; [reflexivity|].
  cbn [fold_left]. now destruct x.
Qed.

Lemma fold_lt_nan l :
  fold_left (fun m item => if float_lt item m then item else m) l nan = nan.
Proof.
  induction l as [|x l IH]; [reflexivity|].
  cbn [fold_left]. now destruct x.
Qed.

Lemma first_selected_all_false values : forall mask,
  Forall (fun b => b = false) mask -> first_selected values mask = None.
Proof.
  induction values as [|v values IH]; intros mask Hall; [reflexivity|].
  destruct Hall as [|b mask -> Hall]; [reflexivity|].
  cbn [first_selected]. now apply IH.
Qed.

(** X24.  When the first entry of the array is [nan] (the first row has
    no usable opening hours), [interpretOpeningHoursDurations] prints
    the number of restaurants with opening hours and a maximum of [nan]
    attained by 0 restaurants, and then raises [IndexError]: no row
    equals the minimum, which is [nan] as well. *)
Theorem interpretOpeningHoursDurations_nan_first df a xs plot_hist :
  In "opening_hours" (columns df) ->
  In "name" (columns df) ->
  array_values a = nan :: xs ->
  exists n,
    interpretOpeningHoursDurations df a plot_hist
    = ([OpeningHoursAvailable n (len df); MaximumValue nan 0], Some IndexError).
Proof.
  intros Hoh Hname Ha.
  destruct (getattr_column_Ok df _ Hoh) as [s1 Hs1].
  destruct (getattr_column_Ok df _ Hname) as [s2 Hs2].
  eexists. unfold interpretOpeningHoursDurations. rewrite Hs1, Hs2, Ha.
  cbn [py_max_float py_min_float]. rewrite fold_gt_nan, fold_lt_nan.
  assert (Hmask : Forall (fun b => b = false) (map (fun x => float_eq x nan) (nan :: xs))).
  { apply Forall_forall. intros b Hb. apply list_elem_of_In, in_map_iff in Hb as (x & <- & _).
    now destruct x. }
  assert (Hcount : List.filter (fun x => float_eq x nan) (nan :: xs) = []).
  { clear. induction (nan :: xs) as [|x l IH]; [reflexivity|].
    cbn [List.filter]. now destruct x. }
  rewrite Hcount. unfold mask_first.
  rewrite (first_selected_all_false _ _ Hmask).
  now destruct (Nat.eqb _ _).
Qed.

Lemma interpretOpeningHoursDurations_nan_first_witness :
  interpretOpeningHoursDurations
    (raw ["name"; "opening_hours"] [[Str "A"; NA]; [Str "B"; Str "Mo 8-16"]])
    (FloatArray [nan; fl 480]) true
  = ([OpeningHoursAvailable 1 2; MaximumValue nan 0], Some IndexError).
Proof.
  destruct (interpretOpeningHoursDurations_nan_first
              (raw ["name"; "opening_hours"] [[Str "A"; NA]; [Str "B"; Str "Mo 8-16"]])
              (FloatArray [nan; fl 480]) [fl 480] true)
    as [n Hn]; [simpl; tauto | simpl; tauto | reflexivity |].
  pose proof Hn as Hn'. vm_compute in Hn'. injection Hn' as <-. exact Hn.
Defined.

(** From a number on, the running maximum is the greatest of the
    numbers seen; [nan] entries are passed over. *)
Lemma fold_gt_fl l : forall m,
  fold_left (fun m item => if float_gt item m then item else m) l (fl m)
  = fl (fold_left Z.max (not_nan l) m).
Proof.
  induction l as [|x l IH]; intros m; [reflexivity|].
  cbn [fold_left]. destruct x as [|z]; cbn [float_gt].
  - change (not_nan (nan :: l)) with (not_nan l). apply IH.
  - change (not_nan (fl z :: l)) with (z :: not_nan l). cbn [fold_left].
    destruct (Z.ltb_spec m z); rewrite IH; f_equal; f_equal; lia.
Qed.

Lemma fold_lt_fl l : forall m,
  fold_left (fun m item => if float_lt item m then item else m) l (fl m)
  = fl (fold_left Z.min (not_nan l) m).
Proof.
  induction l as [|x l IH]; intros m; [reflexivity|].
  cbn [fold_left]. destruct x as [|z]; cbn [float_lt].
  - change (not_nan (nan :: l)) with (not_nan l). apply IH.
  - change (not_nan (fl z :: l)) with (z :: not_nan l). cbn [fold_left].
    destruct (Z.ltb_spec z m); rewrite IH; f_equal; f_equal; lia.
Qed.

Lemma first_selected_spec values : forall mask v,
  first_selected values mask = Some v ->
  exists i, nth_error mask i = Some true /\ nth_error values i = Some v /\
            forall j, (j < i)%nat -> nth_error mask j = Some false.
Proof.
  induction values as [|x values IH]; intros mask v H; [discriminate|].
  destruct mask as [|b mask]; [discriminate|]. cbn [first_selected] in H.
  destruct b.
  - injection H as <-. exists 0%nat. repeat split. intros j Hj. lia.
  - destruct (IH mask v H) as (i & H1 & H2 & H3). exists (S i). repeat split; try assumption.
    intros [|j] Hj; [reflexivity|]. apply H3. lia.
Qed.

Lemma first_selected_Some values : forall mask,
  List.length values = List.length mask -> In true mask ->
  exists v, first_selected values mask = Some v.
Proof.
  induction values as [|x values IH]; intros [|b mask] Hlen Hin; try discriminate.
  - destruct Hin.
  - cbn [first_selected]. destruct b; [eauto|].
    destruct Hin as [H|Hin]; [discriminate|]. apply IH; [now injection Hlen | exact Hin].
Qed.

Lemma not_nan_In z l : In (fl z) l <-> In z (not_nan l).
Proof.
  unfold not_nan. rewrite in_flat_map. split.
  - intros H. exists (fl z). split; [exact H | now left].
  - intros (x & Hx & Hz). destruct x; [destruct Hz|]. destruct Hz as [->|[]]. exact Hx.
Qed.

Lemma float_eq_fl x z : float_eq x (fl z) = true <-> x = fl z.
Proof.
  destruct x as [|y]; cbn [float_eq]; [split; discriminate|].
  rewrite Z.eqb_eq. split; congruence.
Qed.

(** X25.  When the first entry of the array is a number and the array
    has one entry per row, [interpretOpeningHoursDurations] (without
    the histogram) prints all five lines and returns.  The maximum and
    the minimum printed are the greatest and the least total among the
    entries that are not [nan], the count printed with the maximum is
    the number of entries equal to it (at least one), and the name
    printed with the minimum is that of the first row whose total is
    the minimum. *)
Theorem interpretOpeningHoursDurations_summary df a x xs :
  In "opening_hours" (columns df) ->
  In "name" (columns df) ->
  array_values a = fl x :: xs ->
  List.length (array_values a) = len df ->
  exists n hi k lo first_name i,
    interpretOpeningHoursDurations df a false
    = ([OpeningHoursAvailable n (len df);
        MaximumValue (fl hi) k;
        MinimumValue (fl lo) first_name;
        Mean (py_sum (not_nan (array_values a))) (List.length (not_nan (array_values a)));
        Median (fst (median (not_nan (array_values a))))
               (snd (median (not_nan (array_values a))))], None) /\
    In hi (not_nan (array_values a)) /\
    Forall (fun v => v <= hi) (not_nan (array_values a)) /\
    k = count_occ Z.eq_dec (not_nan (array_values a)) hi /\
    (0 < k)%nat /\
    In lo (not_nan (array_values a)) /\
    Forall (fun v => lo <= v) (not_nan (array_values a)) /\
    nth_error (array_values a) i = Some (fl lo) /\
    (forall j, (j < i)%nat -> nth_error (array_values a) j <> Some (fl lo)) /\
    nth_error (column_cells df "name") i = Some first_name.
Proof.
  intros Hoh Hname Ha Hlen.
  destruct (getattr_column_Ok df _ Hoh) as [s1 Hs1].
  destruct (getattr_column_Ok df _ Hname) as [s2 Hs2].
  pose proof (getattr_column_cells _ _ _ Hs2) as Hcells.
  unfold interpretOpeningHoursDurations. rewrite Hs1, Hs2, Ha in *.
  cbn [py_max_float py_min_float]. rewrite fold_gt_fl, fold_lt_fl.
  change (not_nan (fl x :: xs)) with (x :: not_nan xs).
  destruct (fold_max_spec (not_nan xs) x) as [Hmax1 Hmax2].
  destruct (fold_min_spec (not_nan xs) x) as [Hmin1 Hmin2].
  cbv zeta in Hmax1, Hmax2, Hmin1, Hmin2.
  set (hi := fold_left Z.max (not_nan xs) x) in *.
  set (lo := fold_left Z.min (not_nan xs) x) in *.
  assert (Hlen2 : List.length s2 = List.length (map (fun y => float_eq y (fl lo)) (fl x :: xs))).
  { rewrite length_map, Hlen, <- (length_map snd), Hcells. unfold column_cells, len.
    now rewrite length_map. }
  unfold mask_first. rewrite Hlen2, Nat.eqb_refl.
  destruct (first_selected_Some (map snd s2) (map (fun y => float_eq y (fl lo)) (fl x :: xs)))
    as [first_name Hfirst].
  { now rewrite length_map. }
  { apply in_map_iff. exists (fl lo). split; [now apply float_eq_fl|].
    apply (not_nan_In lo (fl x :: xs)). exact Hmin1. }
  rewrite Hfirst.
  destruct (first_selected_spec _ _ _ Hfirst) as (i & Hi1 & Hi2 & Hi3).
  exists (List.length (List.filter (fun c => negb (isna (snd c))) s1)), hi,
         (List.length (List.filter (fun y => float_eq y (fl hi)) (fl x :: xs))), lo,
         first_name, i.
  assert (Hcount : forall l : list float64,
             List.length (List.filter (fun y => float_eq y (fl hi)) l)
             = count_occ Z.eq_dec (not_nan l) hi).
  { induction l as [|y l IH]; [reflexivity|]. cbn [List.filter].
    destruct y as [|z].
    - exact IH.
    - change (not_nan (fl z :: l)) with (z :: not_nan l). cbn [float_eq count_occ].
      destruct (Z.eqb_spec z hi) as [->|Hne].
      + destruct (Z.eq_dec hi hi) as [_|[]]; [|reflexivity]. cbn [List.length]. now rewrite IH.
      + destruct (Z.eq_dec z hi) as [->|_]; [now destruct Hne | exact IH]. }
  split; [reflexivity|]. split; [exact Hmax1|]. split; [exact Hmax2|].
  split; [apply (Hcount (fl x :: xs))|].
  split.
  { rewrite (Hcount (fl x :: xs)). apply (count_occ_In Z.eq_dec). exact Hmax1. }
  split; [exact Hmin1|]. split; [exact Hmin2|].
  rewrite <- Hcells.
  split; [|split; [|exact Hi2]].
  - rewrite nth_error_map in Hi1.
    destruct (nth_error (fl x :: xs) i) as [y|]; [|discriminate].
    injection Hi1 as Hy. apply float_eq_fl in Hy. now subst y.
  - intros j Hj Hnth. specialize (Hi3 j Hj). rewrite nth_error_map, Hnth in Hi3.
    cbn [option_map float_eq] in Hi3. rewrite Z.eqb_refl in Hi3. discriminate.
Qed.

Lemma interpretOpeningHoursDurations_summary_witness :
  exists n hi k lo first_name i,
    interpretOpeningHoursDurations
      (raw ["name"; "opening_hours"]
           [[Str "A"; Str "Mo 8-16"]; [Str "B"; NA]; [Str "C"; Str "Mo 9-13"];
            [Str "D"; Str "Tu 9-13"]])
      (FloatArray [fl 480; nan; fl 240; fl 240]) false
    = ([OpeningHoursAvailable n 4; MaximumValue (fl hi) k;
        MinimumValue (fl lo) first_name; Mean 960 3; Median 240 1], None) /\
    hi = 480 /\ k = 1%nat /\ lo = 240 /\ first_name = Str "C" /\
    nth_error [Str "A"; Str "B"; Str "C"; Str "D"] i = Some first_name.
Proof.
  destruct (interpretOpeningHoursDurations_summary
              (raw ["name"; "opening_hours"]
                   [[Str "A"; Str "Mo 8-16"]; [Str "B"; NA]; [Str "C"; Str "Mo 9-13"];
                    [Str "D"; Str "Tu 9-13"]])
              (FloatArray [fl 480; nan; fl 240; fl 240]) 480 [nan; fl 240; fl 240])
    as (n & hi & k & lo & first_name & i & H & _ & _ & _ & _ & _ & _ & _ & _ & Hi);
    [simpl; tauto | simpl; tauto | reflexivity | reflexivity |].
  exists n, hi, k, lo, first_name, i.
  pose proof H as H'. vm_compute in H'.
  injection H' as <- <- <- <- <-.
  split; [exact H|]. do 4 (split; [reflexivity|]). exact Hi.
Defined.
